(** * Sales consolidator: ingestion, aggregation and report emission

    A shallow embedding of [shared_utils/excel_helper.py] and
    [demo1-consolidador-ventas/consolidador.py].

    Conventions of the embedding.
    - Numbers: pandas stores amounts as binary floats.  Here a finite number is
      an exact rational ([Qc]); the results of a division, which pandas may
      store as [inf] or [NaN], are values of [numero].  Binary rounding error is
      therefore not part of the model; decimal rounding ([.round(2)]) is.
    - Null cells ([NaN], [NaT], [None]) are [None] in a typed column.
    - Columns are typed: a numeric column holds numbers.  pandas gives the
      columns of a workbook without data rows no numeric type, and
      [nlargest] raises on them; the statements that take a run past its
      analysis either assume that the run succeeds or that every workbook
      has a data row.
    - Exceptions: a function that may raise returns a [resultado]; every
      [raise] of the two modules has its own constructor of [excepcion].
    - Mutation: a function that receives the consolidated [DataFrame] by
      reference is a state transformer over it ([Op]).
    - Cell styling (fonts, fills, borders, widths, number formats) and the
      log messages do not influence any value computed here and are left
      out; the configuration of the logger is modelled on its own. *)

From Stdlib Require Import QArith Qcanon Qround Lqa Ascii String.
From stdpp Require Import base numbers option list strings gmap sorting.

Local Open Scope Z_scope.
Local Open Scope string_scope.
Local Open Scope list_scope.

(** ** Exceptions and results *)

Definition Ruta := list string.

Inductive excepcion :=
  | FileNotFoundError_carpeta (carpeta : Ruta)
  | ValueError_sin_archivos (patron : string) (carpeta : Ruta)
  | ValueError_columnas (archivo : string) (columnas_faltantes : gset string)
  | FileNotFoundError_imagen (imagen_path : Ruta)
  | ValueError_concat
  | ValueError_longitudes
  | KeyError (clave : string)
  | TypeError (detalle : string)
  | OSError (detalle : string)
  | ErrorBiblioteca (detalle : string).

Inductive resultado (A : Type) :=
  | Ok (a : A)
  | Err (e : excepcion).
Arguments Ok {A} a.
Arguments Err {A} e.

Global Instance resultado_ret : MRet resultado := λ A a, Ok a.
Global Instance resultado_bind : MBind resultado := λ A B k r,
  match r with
  | Ok a => k a
  | Err e => Err e
  end.
Global Instance resultado_fmap : FMap resultado := λ A B f r,
  match r with
  | Ok a => Ok (f a)
  | Err e => Err e
  end.

(** A computation that may raise and that works on a mutable object of type
    [S]: its result, or the exception, and the object as it is left. *)
Definition Estado (S A : Type) := S → resultado A * S.

Global Instance Estado_ret {S} : MRet (Estado S) := λ A a s, (Ok a, s).
Global Instance Estado_bind {S} : MBind (Estado S) := λ A B k m s,
  match m s with
  | (Ok a, s') => k a s'
  | (Err e, s') => (Err e, s')
  end.

(** A step that raises or returns without touching the object. *)
Definition elevar {S A} (r : resultado A) : Estado S A := λ s, (r, s).

(** A step that looks at the object without changing it. *)
Definition mirando {S A} (f : S → resultado A) : Estado S A := λ s, (f s, s).

(** A piece of an f-string: literal text, or the [repr] of a set of strings
    (whose element order Python does not fix). *)
Inductive fragmento :=
  | Texto (s : string)
  | Conjunto (c : gset string).

Definition str_ruta (p : Ruta) : string := String.concat "/" p.

Definition mensaje (e : excepcion) : list fragmento :=
  match e with
  | FileNotFoundError_carpeta carpeta =>
      [Texto "La carpeta no existe: "; Texto (str_ruta carpeta)]
  | ValueError_sin_archivos patron carpeta =>
      [Texto "No se encontraron archivos "; Texto patron; Texto " en ";
       Texto (str_ruta carpeta)]
  | ValueError_columnas archivo faltantes =>
      [Texto "El archivo "; Texto archivo; Texto " no tiene las columnas: ";
       Conjunto faltantes]
  | FileNotFoundError_imagen p =>
      [Texto "Imagen no encontrada: "; Texto (str_ruta p)]
  | ValueError_concat => [Texto "No objects to concatenate"]
  | ValueError_longitudes => [Texto "All arrays must be of the same length"]
  | KeyError clave => [Texto clave]
  | TypeError d | OSError d | ErrorBiblioteca d => [Texto d]
  end.

(** ** Numbers *)

Definition qc (n : Z) (d : positive) : Qc := Q2Qc (n # d).

(** [numpy.rint]: nearest integer, halves to the even neighbour. *)
Definition rint (x : Qc) : Z :=
  let n := Qfloor x in
  let r := (x - Qc_of_Z n)%Qc in
  if decide (r < qc 1 2)%Qc then n
  else if decide (qc 1 2 < r)%Qc then n + 1
  else if Z.even n then n else n + 1.

(** [numpy.round(x, decimals)]: scale, [rint], scale back. *)
Definition round (decimals : nat) (x : Qc) : Qc :=
  let m := Qc_of_Z (10 ^ Z.of_nat decimals) in
  (Qc_of_Z (rint (x * m)) / m)%Qc.

(** A float produced by a division: finite, infinite or not-a-number. *)
Inductive numero :=
  | Fin (q : Qc)
  | Inf (negativo : bool)
  | NaN.

Global Instance numero_eq_dec : EqDecision numero.
Proof. solve_decision. Defined.

(** Float division as numpy performs it element-wise. *)
Definition dividir (a b : Qc) : numero :=
  if decide (b = 0%Qc) then
    if decide (a = 0%Qc) then NaN
    else Inf (bool_decide (a < 0)%Qc)
  else Fin (a / b)%Qc.

Definition round_numero (decimals : nat) (x : numero) : numero :=
  match x with
  | Fin q => Fin (round decimals q)
  | _ => x
  end.

(** [Series.sum()] skips nulls; the sum of nothing is 0. *)
Definition suma (l : list (option Qc)) : Qc :=
  foldr (λ c acc, match c with Some q => (q + acc)%Qc | None => acc end) 0%Qc l.

(** [Series.count()]: the non-null cells. *)
Definition count {A} (l : list (option A)) : nat :=
  length (omap id l).

(** [Series.mean()]: mean of the non-null cells, [NaN] when there is none. *)
Definition mean (l : list (option Qc)) : numero :=
  match count l with
  | O => NaN
  | n => Fin (suma l / Qc_of_Z (Z.of_nat n))%Qc
  end.

(** [Series.nunique()]: distinct non-null values. *)
Definition nunique `{EqDecision A} (l : list (option A)) : nat :=
  length (remove_dups (omap id l)).

(** ** Tables

    A row of a sales sheet, with the columns the pipeline reads, typed as
    [pd.read_excel] types them: text columns hold strings, numeric columns
    hold numbers, [Fecha] holds timestamps or, for a date typed as text, the
    text.  A blank cell is [None].  Cells of other columns are never read by
    the program and are not stored; their names are in the header. *)

Inductive fecha :=
  | Timestamp (t : Z)
  | FechaTexto (s : string).

Record Venta := mkVenta {
  Fecha : option fecha;
  Producto : option string;
  Categoría : option string;
  Cantidad : option Qc;
  Precio_Unitario : option Qc;
  Vendedor : option string;
  Sucursal : option string;
  Total_Venta : option Qc }.

Definition con_Fecha (f : option fecha) (v : Venta) : Venta :=
  {| Fecha := f; Producto := Producto v; Categoría := Categoría v;
     Cantidad := Cantidad v; Precio_Unitario := Precio_Unitario v;
     Vendedor := Vendedor v; Sucursal := Sucursal v;
     Total_Venta := Total_Venta v |}.

Definition con_Total_Venta (x : option Qc) (v : Venta) : Venta :=
  {| Fecha := Fecha v; Producto := Producto v; Categoría := Categoría v;
     Cantidad := Cantidad v; Precio_Unitario := Precio_Unitario v;
     Vendedor := Vendedor v; Sucursal := Sucursal v;
     Total_Venta := x |}.

(** A table as [pd.read_excel] returns it, or as [pd.concat] builds it: the
    header, the row labels and the rows. *)
Record Tabla := mkTabla {
  columns : list string;
  index : list nat;
  filas : list Venta }.

Global Instance fecha_eq_dec : EqDecision fecha.
Proof. solve_decision. Defined.
Global Instance Venta_eq_dec : EqDecision Venta.
Proof. solve_decision. Defined.
Global Instance Tabla_eq_dec : EqDecision Tabla.
Proof. solve_decision. Defined.

(** ** The input side of the disk

    Paths are lists of components below the directory of the script.  The
    entries are in directory-listing order.  A file is described by what
    [pd.read_excel] does with it: it loads a table, or it raises inside the
    library. *)

Inductive NodoEntrada :=
  | Carpeta
  | Fichero (t : Tabla)
  | Ilegible (detalle : string).

Definition Entrada := list (Ruta * NodoEntrada).

Definition barra (p : Ruta) (nombre : string) : Ruta := p ++ [nombre].
Infix "//" := barra (at level 40, left associativity).

(** [Path.name] *)
Definition name (p : Ruta) : string := List.last p "".

(** [Path.parent] *)
Definition parent (p : Ruta) : Ruta := removelast p.

Fixpoint buscar {A} (p : Ruta) (d : list (Ruta * A)) : option A :=
  match d with
  | [] => None
  | (q, a) :: d' => if decide (q = p) then Some a else buscar p d'
  end.

(** [Path.exists()] *)
Definition existe {A} (d : list (Ruta * A)) (p : Ruta) : bool :=
  bool_decide (is_Some (buscar p d)).

(** [fnmatch] on one path component: [*] is any run of characters, [?] any
    one character, anything else stands for itself (character classes are not
    interpreted). *)
Fixpoint fnmatch (patron : string) : string → bool :=
  fix sobre (s : string) : bool :=
    match patron with
    | EmptyString => match s with EmptyString => true | _ => false end
    | String c patron' =>
        if Ascii.eqb c "*"%char then
          fnmatch patron' s ||
          match s with EmptyString => false | String _ s' => sobre s' end
        else if Ascii.eqb c "?"%char then
          match s with EmptyString => false | String _ s' => fnmatch patron' s' end
        else
          match s with
          | EmptyString => false
          | String c' s' => Ascii.eqb c c' && fnmatch patron' s'
          end
    end.

(** [Path.glob(patron)]: the entries directly below [carpeta] whose name
    matches, in listing order; nothing when [carpeta] is not a directory. *)
Definition glob (d : Entrada) (carpeta : Ruta) (patron : string) : list Ruta :=
  match buscar carpeta d with
  | Some Carpeta =>
      filter (λ p, p ≠ [] ∧ parent p = carpeta ∧ fnmatch patron (name p) = true)
             (d.*1)
  | _ => []
  end.

Module pd.

(** [pd.read_excel(archivo)] *)
Definition read_excel (d : Entrada) (archivo : Ruta) : resultado Tabla :=
  match buscar archivo d with
  | Some (Fichero t) => Ok t
  | Some (Ilegible detalle) => Err (ErrorBiblioteca detalle)
  | Some Carpeta => Err (OSError "Is a directory")
  | None => Err (OSError "No such file or directory")
  end.

(** Header of a concatenation: every column, in order of first appearance. *)
Definition union_columnas (dfs : list Tabla) : list string :=
  foldl (λ acc df, acc ++ filter (λ c, c ∉ acc) (remove_dups (columns df)))
        [] dfs.

(** [pd.concat(dataframes, ignore_index=True)] *)
Definition concat (dataframes : list Tabla) : resultado Tabla :=
  match dataframes with
  | [] => Err ValueError_concat
  | _ =>
      let todas := mjoin (filas <$> dataframes) in
      Ok {| columns := union_columnas dataframes;
            index := seq 0 (length todas);
            filas := todas |}
  end.

End pd.

(** ** [excel_helper.leer_archivos_excel] *)

(** The body of [for archivo in archivos], with the list under construction. *)
Fixpoint leer_cada_archivo (d : Entrada) (columnas_requeridas : option (list string))
    (archivos : list Ruta) (dataframes : list Tabla) : resultado (list Tabla) :=
  match archivos with
  | [] => Ok dataframes
  | archivo :: resto =>
      df ← pd.read_excel d archivo;
      _ ← match columnas_requeridas with
          | Some ((_ :: _) as requeridas) =>
              let columnas_faltantes : gset string :=
                list_to_set requeridas ∖ list_to_set (columns df) in
              if decide (columnas_faltantes ≠ ∅)
              then Err (ValueError_columnas (name archivo) columnas_faltantes)
              else Ok ()
          | _ => Ok ()
          end;
      leer_cada_archivo d columnas_requeridas resto (dataframes ++ [df])
  end.

Definition leer_archivos_excel (d : Entrada) (carpeta_path : Ruta)
    (patron : string) (columnas_requeridas : option (list string))
    : resultado Tabla :=
  let carpeta := carpeta_path in
  if negb (existe d carpeta) then Err (FileNotFoundError_carpeta carpeta)
  else
    let archivos := glob d carpeta patron in
    match archivos with
    | [] => Err (ValueError_sin_archivos patron carpeta)
    | _ =>
        dataframes ← leer_cada_archivo d columnas_requeridas archivos [];
        pd.concat dataframes
    end.

(** ** The consolidated table and the pandas operations used on it

    [DataFrame] is the table the analysis functions receive: the rows of the
    consolidated table, which holds the seven required columns and
    [Total_Venta]; the row position is the row label. *)

Abbreviation DataFrame := (list Venta).

(** A labelled column of numbers: the index label and the value. *)
Abbreviation Series K := (list (K * Qc)).

Section groupby.
Context {K : Type} `{EqDecision K} (le : relation K) `{RelDecision K K le}.

(** [df.groupby(clave)]: one group per distinct non-null key, the groups in
    ascending key order ([sort=True]), rows with a null key left out
    ([dropna=True]), each group holding its rows in table order. *)
Definition groupby (clave : Venta → option K) (df : DataFrame)
    : list (K * DataFrame) :=
  (λ k, (k, filter (λ v, clave v = Some k) df))
    <$> merge_sort le (remove_dups (omap clave df)).

(** [df.groupby(clave)[col].sum()] *)
Definition groupby_sum (clave : Venta → option K) (col : Venta → option Qc)
    (df : DataFrame) : Series K :=
  (λ '(k, g), (k, suma (col <$> g))) <$> groupby clave df.
End groupby.

Section ordenar.
Context {A : Type} (valor : A → Qc).

Fixpoint insertar_desc (x : A) (l : list A) : list A :=
  match l with
  | [] => [x]
  | y :: r =>
      if decide (valor y ≤ valor x)%Qc then x :: y :: r
      else y :: insertar_desc x r
  end.

(** [sort_values(col, ascending=False)]: descending by [valor].  pandas
    sorts with numpy's default kind, which is not stable: the library fixes
    the result only up to the order of the rows with equal values.  This
    definition leaves such rows in the order of the input, which is one of
    the orders the library may return; what is stated below of a sorted
    summary does not depend on that choice. *)
Definition sort_values_desc (l : list A) : list A :=
  foldr insertar_desc [] l.

(** [nlargest(n)] with [keep='first']; nothing when [n <= 0].  When [n] is
    less than the number of rows, pandas selects the [n] largest and orders
    them with a stable sort: these are the [n] first rows of the stable
    descending order, rows with equal values in input order.  When [n]
    reaches the number of rows, pandas returns [sort_values(...).head(n)],
    whose order among equal values is not fixed (see above). *)
Definition nlargest (n : Z) (l : list A) : list A :=
  take (Z.to_nat n) (sort_values_desc l).
End ordenar.

Definition round_series {K} (decimals : nat) (s : Series K) : Series K :=
  (λ '(k, x), (k, round decimals x)) <$> s.

(** ** [consolidador.py]: constants *)

Definition INPUT_DIR : Ruta := ["input"].
Definition OUTPUT_DIR : Ruta := ["output"].

Definition COLUMNAS_REQUERIDAS : list string :=
  ["Fecha"; "Producto"; "Categoría"; "Cantidad";
   "Precio_Unitario"; "Vendedor"; "Sucursal"].

(** ** [consolidador.py]: analysis functions *)

(** [Series.min()] / [Series.max()] on the [Fecha] column: nulls are skipped,
    timestamps compare by time and texts by code point; a column mixing the
    two cannot be compared. *)
Definition solo_timestamps (l : list fecha) : option (list Z) :=
  mapM (λ f, match f with Timestamp t => Some t | FechaTexto _ => None end) l.
Definition solo_textos (l : list fecha) : option (list string) :=
  mapM (λ f, match f with FechaTexto s => Some s | Timestamp _ => None end) l.

Definition extremo (elige_z : Z → Z → Z) (elige_s : string → string → string)
    (col : list (option fecha)) : resultado (option fecha) :=
  match omap id col with
  | [] => Ok None
  | f :: fs =>
      match solo_timestamps (f :: fs), solo_textos (f :: fs) with
      | Some (t :: ts), _ => Ok (Some (Timestamp (foldr elige_z t ts)))
      | _, Some (s :: ss) => Ok (Some (FechaTexto (foldr elige_s s ss)))
      | _, _ => Err (TypeError "'<=' not supported between 'Timestamp' and 'str'")
      end
  end.

Definition min_fecha : list (option fecha) → resultado (option fecha) :=
  extremo Z.min (λ a b, if String.leb a b then a else b).
Definition max_fecha : list (option fecha) → resultado (option fecha) :=
  extremo Z.max (λ a b, if String.leb a b then b else a).

Record Stats := mkStats {
  total_ventas : Qc;
  total_transacciones : nat;
  ticket_promedio : numero;
  fecha_inicio : option fecha;
  fecha_fin : option fecha;
  num_sucursales : nat;
  num_vendedores : nat;
  num_productos : nat }.

Definition calcular_estadisticas_generales (df : DataFrame) : resultado Stats :=
  inicio ← min_fecha (Fecha <$> df);
  fin ← max_fecha (Fecha <$> df);
  Ok {| total_ventas := suma (Total_Venta <$> df);
        total_transacciones := length df;
        ticket_promedio := mean (Total_Venta <$> df);
        fecha_inicio := inicio;
        fecha_fin := fin;
        num_sucursales := nunique (Sucursal <$> df);
        num_vendedores := nunique (Vendedor <$> df);
        num_productos := nunique (Producto <$> df) |}.

Module ResumenSucursal.
Record t := mk {
  Sucursal : string;
  Total_Ventas : Qc;
  Transacciones : nat;
  Participacion : numero }.
End ResumenSucursal.

Definition analizar_ventas_por_sucursal (df : DataFrame)
    : list ResumenSucursal.t :=
  (* groupby('Sucursal').agg({'Total_Venta': 'sum', 'Fecha': 'count'}).round(2) *)
  let resumen :=
    (λ '(k, g), (k, round 2 (suma (Total_Venta <$> g)), count (Fecha <$> g)))
      <$> groupby String.le Sucursal df in
  (* resumen['Participacion'] = Total_Ventas / Total_Ventas.sum() *)
  let total := suma (Some <$> (resumen.*1).*2) in
  let resumen :=
    (λ '(k, ventas, n), ResumenSucursal.mk k ventas n (dividir ventas total))
      <$> resumen in
  sort_values_desc ResumenSucursal.Total_Ventas resumen.

(** [nlargest] needs a numeric column (it raises [TypeError] on any other),
    which the typed columns [Cantidad] and [Total_Venta] are. *)
Definition analizar_top_productos (df : DataFrame) (top_n : Z)
    : Series string * Series string :=
  let top_cantidad :=
    nlargest snd top_n (groupby_sum String.le Producto Cantidad df) in
  let top_monto :=
    round_series 2
      (nlargest snd top_n (groupby_sum String.le Producto Total_Venta df)) in
  (top_cantidad, top_monto).

Module ResumenVendedor.
Record t := mk {
  Vendedor : string;
  Total_Ventas : Qc;
  Transacciones : nat;
  Ticket_Promedio : numero }.
End ResumenVendedor.

Definition analizar_vendedores (df : DataFrame) : list ResumenVendedor.t :=
  let vendedores :=
    (λ '(k, g), (k, round 2 (suma (Total_Venta <$> g)), count (Fecha <$> g)))
      <$> groupby String.le Vendedor df in
  (* Ticket_Promedio = (Total_Ventas / Transacciones).round(2) *)
  let vendedores :=
    (λ '(k, ventas, n),
       ResumenVendedor.mk k ventas n
         (round_numero 2 (dividir ventas (Qc_of_Z (Z.of_nat n)))))
      <$> vendedores in
  sort_values_desc ResumenVendedor.Total_Ventas vendedores.

Module ResumenCategoria.
Record t := mk {
  Categoría : string;
  Total_Ventas : Qc;
  Unidades_Vendidas : Qc;
  Participacion : numero }.
End ResumenCategoria.

Definition analizar_categorias (df : DataFrame) : list ResumenCategoria.t :=
  let categorias :=
    (λ '(k, g), (k, round 2 (suma (Total_Venta <$> g)),
                    round 2 (suma (Cantidad <$> g))))
      <$> groupby String.le Categoría df in
  let total := suma (Some <$> (categorias.*1).*2) in
  let categorias :=
    (λ '(k, ventas, unidades),
       ResumenCategoria.mk k ventas unidades (dividir ventas total))
      <$> categorias in
  sort_values_desc ResumenCategoria.Total_Ventas categorias.

(** A function that receives the table by reference: its result, or the
    exception it raises, and the table as the call leaves it. *)
Abbreviation Op := (Estado DataFrame).

(** The call of a function whose body only reads the table. *)
Definition llamar {A} (f : DataFrame → A) : Op A :=
  mirando (λ df, Ok (f df)).
Definition llamar_r {A} (f : DataFrame → resultado A) : Op A :=
  mirando f.

Section fechas.
(** The reading of a text cell by [pd.to_datetime]: the timestamp the text
    denotes, or [None] when it is not read as a date.  pandas infers one
    format from the first text of a column and reads the other texts with
    it: [parse] is the reading of the column at hand, and the statements
    hold whichever reading it is. *)
Context (parse : string → option Z).

(** [pd.to_datetime(col)] *)
Definition to_datetime (col : list (option fecha))
    : resultado (list (option Z)) :=
  match
    mapM (λ c, match c with
               | None => Some None
               | Some (Timestamp t) => Some (Some t)
               | Some (FechaTexto s) => Some <$> parse s
               end) col
  with
  | Some fechas => Ok fechas
  | None => Err (ErrorBiblioteca "Unknown datetime string format")
  end.

Definition timestamp_de (v : Venta) : option Z :=
  match Fecha v with
  | Some (Timestamp t) => Some t
  | _ => None
  end.

Definition analizar_tendencia_temporal : Op (Series Z) := λ df,
  (* df['Fecha'] = pd.to_datetime(df['Fecha']) *)
  match to_datetime (Fecha <$> df) with
  | Err e => (Err e, df)
  | Ok fechas =>
      let df :=
        zip_with (λ v f, con_Fecha (Timestamp <$> f) v) df fechas in
      let tendencia :=
        round_series 2 (groupby_sum Z.le timestamp_de Total_Venta df) in
      (Ok tendencia, df)
  end.
End fechas.

(** ** Workbooks and the output side of the disk

    A cell reference such as [f'B{fila}'] is the pair of its column letter and
    its row.  A value written with an f-string keeps the number and the kind
    of its format instead of the formatted text. *)

Definition Ref := (string * nat)%type.

Inductive Valor :=
  | VTexto (s : string)
  | VMoneda (x : numero)              (* f"${x:,.2f}" *)
  | VEntero (n : nat)                 (* f"{n:,}", f"{n}" *)
  | VPeriodo (inicio fin : option fecha)
  | VSuma (col : string) (desde hasta : nat).   (* f'=SUM(B2:B{n})' *)

Record Imagen := mkImagen { width : Z; height : Z }.

(** What [to_excel] wrote into a sheet. *)
Inductive Datos :=
  | DVacio
  | DConsolidado (t : Tabla)
  | DTop (filas_top : list (string * Qc * string * string * Qc))
  | DVendedores (l : list ResumenVendedor.t)
  | DSucursales (l : list ResumenSucursal.t).

Record Worksheet := mkWorksheet {
  title : string;
  datos : Datos;
  celdas : list (Ref * Valor);        (* cells assigned one by one, in order *)
  imagenes : list (Ref * Imagen);     (* [add_image], in order *)
  tablas : list (string * (Ref * Ref)) }.

Definition Workbook := list Worksheet.

Definition filas_de_datos (d : Datos) : nat :=
  match d with
  | DVacio => 0
  | DConsolidado t => S (length (filas t))
  | DTop l => S (length l)
  | DVendedores l => S (length l)
  | DSucursales l => S (length l)
  end.

(** [worksheet.max_row]: the last row holding a cell, at least 1. *)
Definition max_row (ws : Worksheet) : nat :=
  foldr Nat.max (Nat.max 1 (filas_de_datos (datos ws)))
        ((λ c, c.1.2) <$> celdas ws).

(** [worksheet[ref] = valor] *)
Definition asignar (ref : Ref) (v : Valor) (ws : Worksheet) : Worksheet :=
  {| title := title ws; datos := datos ws;
     celdas := celdas ws ++ [(ref, v)];
     imagenes := imagenes ws; tablas := tablas ws |}.

(** [worksheet.add_image(img, celda)] *)
Definition add_image (img : Imagen) (celda : Ref) (ws : Worksheet) : Worksheet :=
  {| title := title ws; datos := datos ws; celdas := celdas ws;
     imagenes := imagenes ws ++ [(celda, img)]; tablas := tablas ws |}.

Inductive ArchivoSalida :=
  | Png (img : Imagen)
  | Libro (wb : Workbook)
  | OtroArchivo.

Inductive NodoSalida :=
  | CarpetaS
  | FicheroS (a : ArchivoSalida).

Definition Salida := list (Ruta * NodoSalida).

(** The directory of the script, [[]], always exists. *)
Definition es_carpeta (s : Salida) (p : Ruta) : bool :=
  match p, buscar p s with
  | [], _ => true
  | _, Some CarpetaS => true
  | _, _ => false
  end.

(** A computation on the output side of the disk. *)
Abbreviation Run := (Estado Salida).

(** [Path.mkdir(exist_ok=True)] *)
Definition mkdir (p : Ruta) : Run () := λ s,
  match buscar p s with
  | Some CarpetaS => (Ok (), s)
  | Some (FicheroS _) => (Err (OSError "File exists"), s)
  | None =>
      if es_carpeta s (parent p) then (Ok (), s ++ [(p, CarpetaS)])
      else (Err (OSError "No such file or directory"), s)
  end.

Fixpoint reemplazar {A} (p : Ruta) (a : A) (d : list (Ruta * A))
    : list (Ruta * A) :=
  match d with
  | [] => [(p, a)]
  | (q, b) :: d' =>
      if decide (q = p) then (q, a) :: d' else (q, b) :: reemplazar p a d'
  end.

(** Creating or overwriting the file [p]. *)
Definition escribir (p : Ruta) (a : ArchivoSalida) : Run () := λ s,
  if negb (es_carpeta s (parent p)) then
    (Err (OSError "No such file or directory"), s)
  else
    match buscar p s with
    | Some CarpetaS => (Err (OSError "Is a directory"), s)
    | _ => (Ok (), reemplazar p (FicheroS a) s)
    end.

(** [openpyxl.load_workbook(p)] *)
Definition load_workbook (p : Ruta) : Run Workbook := λ s,
  match buscar p s with
  | Some (FicheroS (Libro wb)) => (Ok wb, s)
  | _ => (Err (OSError "not a workbook"), s)
  end.

(** [int(x)]: towards zero. *)
Definition int (x : Qc) : Z :=
  if decide (0 ≤ x)%Qc then Qfloor x else Qceiling x.

(** ** [excel_helper.insertar_imagen_en_excel] *)

(** [XLImage(path)] *)
Definition XLImage (s : Salida) (p : Ruta) : resultado Imagen :=
  match buscar p s with
  | Some (FicheroS (Png img)) => Ok img
  | _ => Err (ErrorBiblioteca "cannot identify image file")
  end.

Definition insertar_imagen_en_excel (s : Salida) (worksheet : Worksheet)
    (imagen_path : Ruta) (celda : Ref) (escala : Qc) : resultado Worksheet :=
  if negb (existe s imagen_path) then Err (FileNotFoundError_imagen imagen_path)
  else
    img ← XLImage s imagen_path;
    let img :=
      if decide (escala ≠ 1%Qc)
      then {| width := int (Qc_of_Z (width img) * escala);
              height := int (Qc_of_Z (height img) * escala) |}
      else img in
    Ok (add_image img celda worksheet).

(** [excel_helper.crear_tabla_excel] *)
Definition crear_tabla_excel (worksheet : Worksheet) (rango : Ref * Ref)
    (nombre_tabla : string) : Worksheet :=
  {| title := title worksheet; datos := datos worksheet;
     celdas := celdas worksheet; imagenes := imagenes worksheet;
     tablas := tablas worksheet ++ [(nombre_tabla, rango)] |}.

(** ** [consolidador.crear_hoja_dashboard] *)

Definition crear_hoja_dashboard (s : Salida) (worksheet : Worksheet)
    (stats : Stats) (graficos_dir : Ruta) : resultado Worksheet :=
  let worksheet := asignar ("B", 2%nat) (VTexto "📊 REPORTE CONSOLIDADO DE VENTAS") worksheet in
  let worksheet :=
    asignar ("B", 3%nat) (VPeriodo (fecha_inicio stats) (fecha_fin stats)) worksheet in
  let fila_kpi := 5%nat in
  let kpis :=
    [("Total Ventas:", VMoneda (Fin (total_ventas stats)));
     ("Total Transacciones:", VEntero (total_transacciones stats));
     ("Ticket Promedio:", VMoneda (ticket_promedio stats));
     ("Sucursales:", VEntero (num_sucursales stats));
     ("Vendedores:", VEntero (num_vendedores stats));
     ("Productos Únicos:", VEntero (num_productos stats))] in
  let worksheet :=
    foldl (λ ws '(i, (etiqueta, valor)),
             let fila := (fila_kpi + i)%nat in
             asignar ("C", fila) valor (asignar ("B", fila) (VTexto etiqueta) ws))
          worksheet (imap (λ i kv, (i, kv)) kpis) in
  (* chart 1 *)
  let fila_grafico1 := 13%nat in
  let worksheet := asignar ("B", fila_grafico1) (VTexto "📊 Ventas por Sucursal") worksheet in
  let grafico1_path := graficos_dir // "ventas_sucursal.png" in
  worksheet ←
    (if existe s grafico1_path
     then insertar_imagen_en_excel s worksheet grafico1_path
            ("B", (fila_grafico1 + 1)%nat) (qc 55 100)
     else Ok worksheet);
  (* chart 2 *)
  let fila_grafico2 := 13%nat in
  let worksheet :=
    asignar ("I", fila_grafico2) (VTexto "🥧 Distribución por Categoría") worksheet in
  let grafico2_path := graficos_dir // "categorias.png" in
  worksheet ←
    (if existe s grafico2_path
     then insertar_imagen_en_excel s worksheet grafico2_path
            ("I", (fila_grafico2 + 1)%nat) (qc 55 100)
     else Ok worksheet);
  (* chart 3 *)
  let fila_grafico3 := 38%nat in
  let worksheet :=
    asignar ("B", fila_grafico3) (VTexto "📈 Tendencia de Ventas Diarias") worksheet in
  let grafico3_path := graficos_dir // "tendencia.png" in
  worksheet ←
    (if existe s grafico3_path
     then insertar_imagen_en_excel s worksheet grafico3_path
            ("B", (fila_grafico3 + 1)%nat) (qc 6 10)
     else Ok worksheet);
  Ok worksheet.

(** ** [consolidador.main] *)

(** What a chart function hands to the plotting library. *)
Inductive Grafico :=
  | GBarras (data : Series string) (titulo : string)
  | GCircular (data : Series string) (titulo : string)
  | GLinea (data : Series Z) (titulo : string).

(** [wb[nombre]], followed by changes made to that sheet. *)
Fixpoint sobre_hoja (nombre : string) (f : Worksheet → resultado Worksheet)
    (wb : Workbook) : resultado Workbook :=
  match wb with
  | [] => Err (KeyError nombre)
  | ws :: resto =>
      if decide (title ws = nombre) then ws' ← f ws; Ok (ws' :: resto)
      else (ws ::.) <$> sobre_hoja nombre f resto
  end.

Definition hoja (nombre : string) (d : Datos) : Worksheet :=
  {| title := nombre; datos := d; celdas := []; imagenes := []; tablas := [] |}.

(** [df['Total_Venta'] = (df['Cantidad'] * df['Precio_Unitario']).round(2)] *)
Definition calcular_Total_Venta (df : Tabla) : Tabla :=
  {| columns :=
       if decide ("Total_Venta" ∈ columns df) then columns df
       else columns df ++ ["Total_Venta"];
     index := index df;
     filas :=
       (λ v, con_Total_Venta
               (round 2 <$> (c ← Cantidad v; p ← Precio_Unitario v; Some (c * p)%Qc))
               v) <$> filas df |}.

Definition con_filas (l : list Venta) (df : Tabla) : Tabla :=
  {| columns := columns df; index := index df; filas := l |}.

Section main.
Context (parse : string → option Z).
(** The plotting library: the image it renders for a chart, or the
    exception it raises. *)
Context (matplotlib : Grafico → resultado Imagen).

Definition crear_grafico_barras (data : Series string) (titulo : string)
    (output_path : Ruta) : Run () :=
  img ← elevar (matplotlib (GBarras data titulo));
  escribir output_path (Png img).

Definition crear_grafico_circular (data : Series string) (titulo : string)
    (output_path : Ruta) : Run () :=
  img ← elevar (matplotlib (GCircular data titulo));
  escribir output_path (Png img).

Definition crear_grafico_linea (data : Series Z) (titulo : string)
    (output_path : Ruta) : Run () :=
  img ← elevar (matplotlib (GLinea data titulo));
  escribir output_path (Png img).

(** PASO 3 of [main]: the six analysis calls, each given the consolidated
    table. *)
Definition analisis
    : Op (Stats * list ResumenSucursal.t * (Series string * Series string)
          * list ResumenVendedor.t * list ResumenCategoria.t * Series Z) :=
  stats ← llamar_r calcular_estadisticas_generales;
  ventas_sucursal ← llamar analizar_ventas_por_sucursal;
  top ← llamar (λ df, analizar_top_productos df 10);
  vendedores_stats ← llamar analizar_vendedores;
  categorias_stats ← llamar analizar_categorias;
  tendencia ← analizar_tendencia_temporal parse;
  mret (stats, ventas_sucursal, top, vendedores_stats, categorias_stats,
        tendencia).

Definition main (e : Entrada) : Run () :=
  (* PASO 1: leer y consolidar *)
  df_consolidado ←
    elevar (leer_archivos_excel e INPUT_DIR "*.xlsx" (Some COLUMNAS_REQUERIDAS));
  (* PASO 2: columna Total_Venta *)
  let df_consolidado := calcular_Total_Venta df_consolidado in
  (* PASO 3: análisis, sobre la tabla compartida *)
  let '(resultados, filas') := analisis (filas df_consolidado) in
  let df_consolidado := con_filas filas' df_consolidado in
  '(stats, ventas_sucursal, (top_cantidad, top_monto), vendedores_stats,
    categorias_stats, tendencia) ← elevar resultados;
  (* PASO 4: gráficos *)
  _ ← mkdir OUTPUT_DIR;
  let GRAFICOS_DIR := OUTPUT_DIR // "graficos_temp" in
  _ ← mkdir GRAFICOS_DIR;
  _ ← crear_grafico_barras
        ((λ r, (ResumenSucursal.Sucursal r, ResumenSucursal.Total_Ventas r))
           <$> ventas_sucursal)
        "Ventas Totales por Sucursal" (GRAFICOS_DIR // "ventas_sucursal.png");
  _ ← crear_grafico_circular
        ((λ r, (ResumenCategoria.Categoría r, ResumenCategoria.Total_Ventas r))
           <$> categorias_stats)
        "Distribución de Ventas por Categoría" (GRAFICOS_DIR // "categorias.png");
  _ ← crear_grafico_linea tendencia
        "Evolución de Ventas Diarias" (GRAFICOS_DIR // "tendencia.png");
  (* PASO 5: el libro, una hoja por to_excel; el fichero se guarda al salir
     del bloque with, también si el bloque termina con una excepción *)
  let output_file := OUTPUT_DIR // "reporte_consolidado.xlsx" in
  let writer :=
    [hoja "Dashboard" DVacio;
     hoja "Datos_Consolidados" (DConsolidado df_consolidado)] in
  match decide (length top_cantidad = length top_monto) with
  | right _ =>
      _ ← escribir output_file (Libro writer);
      elevar (Err ValueError_longitudes)
  | left _ =>
      let top_productos_df :=
        zip_with (λ '(pc, c) '(pm, m), (pc, c, "", pm, m))
                 top_cantidad top_monto in
      let writer :=
        writer ++ [hoja "Top_Productos" (DTop top_productos_df);
                   hoja "Analisis_Vendedores" (DVendedores vendedores_stats);
                   hoja "Resumen_Sucursales" (DSucursales ventas_sucursal)] in
      _ ← escribir output_file (Libro writer);
      (* PASO 6: formatos *)
      wb ← load_workbook output_file;
      wb ← mirando (λ s, sobre_hoja "Dashboard"
              (λ ws_dashboard,
                 crear_hoja_dashboard s ws_dashboard stats GRAFICOS_DIR)
              wb);
      wb ← elevar (sobre_hoja "Datos_Consolidados"
              (λ ws_datos,
                 let max_row_datos := max_row ws_datos in
                 Ok (crear_tabla_excel ws_datos
                       (("A", 1%nat), ("H", max_row_datos))
                       "TablaDatosConsolidados"))
              wb);
      wb ← elevar (sobre_hoja "Top_Productos"
              (λ ws_top,
                 Ok (asignar ("D", 1%nat) (VTexto "MÁS RENTABLES (Por Monto)")
                      (asignar ("A", 1%nat)
                         (VTexto "MÁS VENDIDOS (Por Cantidad)") ws_top)))
              wb);
      wb ← elevar (sobre_hoja "Analisis_Vendedores"
              (λ ws_vendedores,
                 let max_row_vendedores := max_row ws_vendedores in
                 Ok (crear_tabla_excel ws_vendedores
                       (("A", 1%nat), ("D", max_row_vendedores))
                       "TablaVendedores"))
              wb);
      wb ← elevar (sobre_hoja "Resumen_Sucursales"
              (λ ws_sucursales,
                 let ultima_fila := (max_row ws_sucursales + 1)%nat in
                 Ok (asignar ("D", ultima_fila) (VSuma "D" 2 (ultima_fila - 1))
                      (asignar ("C", ultima_fila) (VSuma "C" 2 (ultima_fila - 1))
                        (asignar ("B", ultima_fila) (VSuma "B" 2 (ultima_fila - 1))
                          (asignar ("A", ultima_fila) (VTexto "TOTAL")
                             ws_sucursales)))))
              wb);
      escribir output_file (Libro wb)
  end.
End main.

(** ** [excel_helper.setup_logger]

    The loggers of the [logging] module, by name, each with its level and
    the handlers attached to it.  A logger that has not been asked for yet
    has no handler; its level is NOTSET, or WARNING if it is the root
    logger. *)

Module Handler.
Record t := mk {
  stream : string;
  level : Z;
  fmt : string;
  datefmt : string }.
End Handler.

Module Logger.
Record t := mk {
  level : Z;
  handlers : list Handler.t }.
End Logger.

Abbreviation Loggers := (gmap string Logger.t).

Module logging.
Definition NOTSET : Z := 0.
Definition INFO : Z := 20.
Definition WARNING : Z := 30.

(** The logger a name denotes: the root logger for the empty name and for
    the name of the root logger. *)
Definition nombre (name : string) : string :=
  if decide (name = "") then "root" else name.

(** [logging.getLogger(name)] *)
Definition getLogger (name : string) (ls : Loggers) : Logger.t :=
  default
    (Logger.mk (if decide (nombre name = "root") then WARNING else NOTSET) [])
    (ls !! nombre name).
End logging.

(** The logger is returned by reference: here, the name that denotes it. *)
Definition setup_logger (name : string) (nivel : Z) (ls : Loggers)
    : string * Loggers :=
  let logger := logging.getLogger name ls in
  (* logger.setLevel(nivel) *)
  let logger := Logger.mk nivel (Logger.handlers logger) in
  let logger :=
    match Logger.handlers logger with
    | [] =>
        let handler :=
          Handler.mk "sys.stdout" nivel
            "%(asctime)s | %(levelname)-8s | %(message)s"
            "%Y-%m-%d %H:%M:%S" in
        Logger.mk (Logger.level logger) (Logger.handlers logger ++ [handler])
    | _ => logger
    end in
  (logging.nombre name, <[logging.nombre name := logger]> ls).

(** ** Sample data

    Small inputs in the shape of the sheets the generator writes, used to run
    the definitions. *)

(** The text-date parser restricted to ISO dates, [YYYY-MM-DD]: nanoseconds
    since the epoch at midnight of that day. *)
Definition digito (c : ascii) : option Z :=
  let n := Z.of_N (N_of_ascii c) in
  if decide (48 ≤ n ≤ 57)%Z then Some (n - 48) else None.

Fixpoint numero_decimal (acc : Z) (s : list ascii) : option Z :=
  match s with
  | [] => Some acc
  | c :: s' => d ← digito c; numero_decimal (10 * acc + d) s'
  end.

Definition bisiesto (y : Z) : bool :=
  bool_decide (y mod 4 = 0 ∧ (y mod 100 ≠ 0 ∨ y mod 400 = 0)).

Definition dias_del_mes (y m : Z) : Z :=
  if decide (m = 2) then (if bisiesto y then 29 else 28)
  else if decide (m ∈ [4; 6; 9; 11]) then 30 else 31.

Definition dias_desde_epoca (y m d : Z) : Z :=
  let y' := if decide (m ≤ 2)%Z then y - 1 else y in
  let era := y' `div` 400 in
  let yoe := y' - era * 400 in
  let doy := (153 * (if decide (m ≤ 2)%Z then m + 9 else m - 3) + 2) `div` 5 + d - 1 in
  let doe := yoe * 365 + yoe `div` 4 - yoe `div` 100 + doy in
  era * 146097 + doe - 719468.

Definition parse_iso (s : string) : option Z :=
  match list_ascii_of_string s with
  | [y1; y2; y3; y4; g1; m1; m2; g2; d1; d2] =>
      if decide (g1 = "-"%char ∧ g2 = "-"%char) then
        y ← numero_decimal 0 [y1; y2; y3; y4];
        m ← numero_decimal 0 [m1; m2];
        d ← numero_decimal 0 [d1; d2];
        if decide ((1 ≤ m ≤ 12)%Z ∧ (1 ≤ d ≤ dias_del_mes y m)%Z)
        then Some (dias_desde_epoca y m d * 86400 * 10 ^ 9)
        else None
      else None
  | _ => None
  end.

(** A plotting library that renders every chart it is given at the size of a
    10 by 6 inch figure at 300 dpi, and refuses a pie with a negative wedge. *)
Definition matplotlib_ej (g : Grafico) : resultado Imagen :=
  match g with
  | GCircular data _ =>
      if decide (Exists (λ kv, (kv.2 < 0)%Qc) data)
      then Err (ErrorBiblioteca "Wedge sizes 'x' must be non negative values")
      else Ok {| width := 3000; height := 1800 |}
  | _ => Ok {| width := 3000; height := 1800 |}
  end.

Definition venta (f : option fecha) (producto categoria : string)
    (cantidad : Z) (precio : Qc) (vendedor sucursal : string) : Venta :=
  {| Fecha := f; Producto := Some producto; Categoría := Some categoria;
     Cantidad := Some (Qc_of_Z cantidad); Precio_Unitario := Some precio;
     Vendedor := Some vendedor; Sucursal := Some sucursal;
     Total_Venta := None |}.

Definition dia (n : Z) : option fecha :=
  Some (Timestamp ((19723 + n) * 86400 * 10 ^ 9)).

Definition tabla_centro : Tabla :=
  {| columns := COLUMNAS_REQUERIDAS; index := [0; 1]%nat;
     filas :=
       [venta (dia 1) "Mouse Logitech" "Accesorios" 2 (qc 2550 100)
              "Ana López" "Centro";
        venta (dia 2) "SSD 500GB" "Electrónica" 1 (qc 80 1)
              "Juan Pérez" "Centro"] |}.

Definition tabla_norte : Tabla :=
  {| columns := COLUMNAS_REQUERIDAS; index := [0]%nat;
     filas :=
       [venta (dia 1) "Webcam HD" "Accesorios" 1 (qc 55 1)
              "Lucía Torres" "Norte"] |}.

(** A sheet without the [Sucursal] column. *)
Definition tabla_sin_sucursal : Tabla :=
  {| columns := ["Fecha"; "Producto"; "Categoría"; "Cantidad";
                 "Precio_Unitario"; "Vendedor"];
     index := [0]%nat;
     filas :=
       [{| Fecha := dia 3; Producto := Some "Cable HDMI 2m";
           Categoría := Some "Accesorios"; Cantidad := Some (Qc_of_Z 3);
           Precio_Unitario := Some (qc 12 1); Vendedor := Some "Carmen Ruiz";
           Sucursal := None; Total_Venta := None |}] |}.

Definition disco_ej : Entrada :=
  [(INPUT_DIR, Carpeta);
   (INPUT_DIR // "ventas_sucursal_centro.xlsx", Fichero tabla_centro);
   (INPUT_DIR // "ventas_sucursal_norte.xlsx", Fichero tabla_norte);
   (INPUT_DIR // "notas.txt", Ilegible "Excel file format cannot be determined")].

(** A complete sheet, then the sheet without [Sucursal], then a file that is
    no workbook. *)
Definition disco_sin_sucursal : Entrada :=
  [(INPUT_DIR, Carpeta);
   (INPUT_DIR // "ventas_sucursal_centro.xlsx", Fichero tabla_centro);
   (INPUT_DIR // "ventas_sucursal_sur.xlsx", Fichero tabla_sin_sucursal);
   (INPUT_DIR // "ventas_sucursal_este.xlsx", Ilegible "File is not a zip file")].

(** The same two last files the other way round: the file that is no
    workbook is listed before the sheet without [Sucursal]. *)
Definition disco_ilegible_y_sin_sucursal : Entrada :=
  [(INPUT_DIR, Carpeta);
   (INPUT_DIR // "ventas_sucursal_este.xlsx", Ilegible "File is not a zip file");
   (INPUT_DIR // "ventas_sucursal_sur.xlsx", Fichero tabla_sin_sucursal)].

(** No input directory: a regular file bears its name. *)
Definition disco_input_fichero : Entrada :=
  [(INPUT_DIR, Ilegible "File is not a zip file")].

(** The consolidated table of [disco_ej], with its line totals. *)
Definition df_ej : DataFrame :=
  filas (calcular_Total_Venta
           (mkTabla COLUMNAS_REQUERIDAS [0; 1; 2]%nat
                    (filas tabla_centro ++ filas tabla_norte))).

(** A table whose dates were typed as text. *)
Definition df_fechas_texto : DataFrame :=
  filas (calcular_Total_Venta
    (mkTabla COLUMNAS_REQUERIDAS [0; 1]%nat
       [venta (Some (FechaTexto "2024-01-15")) "Mouse Logitech" "Accesorios"
              2 (qc 2550 100) "Ana López" "Centro";
        venta (Some (FechaTexto "2024-01-16")) "SSD 500GB" "Electrónica"
              1 (qc 80 1) "Juan Pérez" "Centro"])).

(** A table with a return: one line with a negative quantity. *)
Definition df_devolucion : DataFrame :=
  filas (calcular_Total_Venta
    (mkTabla COLUMNAS_REQUERIDAS [0; 1]%nat
       [venta (dia 1) "Monitor LG 24" "Electrónica" 3 (qc 100 1)
              "Ana López" "Centro";
        venta (dia 2) "Monitor LG 24" "Electrónica" (-1) (qc 100 1)
              "Lucía Torres" "Norte"])).

(** Two branches, of which Sur comes first in the table. *)
Definition df_empate : DataFrame :=
  filas (calcular_Total_Venta
    (mkTabla COLUMNAS_REQUERIDAS [0; 1]%nat
       [venta (dia 1) "Webcam HD" "Accesorios" 2 (qc 50 1)
              "Carmen Ruiz" "Sur";
        venta (dia 2) "Teclado Mecánico" "Accesorios" 1 (qc 100 1)
              "Lucía Torres" "Norte"])).


(** Three lines whose mean is not a number of cents. *)
Definition tabla_tercios : Tabla :=
  {| columns := COLUMNAS_REQUERIDAS; index := [0; 1; 2]%nat;
     filas :=
       [venta (dia 1) "Cable USB-C" "Accesorios" 1 (qc 10 1)
              "Ana López" "Centro";
        venta (dia 1) "Cable USB-C" "Accesorios" 1 (qc 10 1)
              "Juan Pérez" "Centro";
        venta (dia 2) "Cable USB-C" "Accesorios" 2 (qc 10 1)
              "Ana López" "Centro"] |}.

(** A table with a line whose date cell is blank. *)
Definition venta_sin_fecha : Venta :=
  con_Total_Venta (Some (qc 55 1))
    (venta None "Webcam HD" "Accesorios" 1 (qc 55 1) "Lucía Torres" "Norte").

Definition df_sin_fecha : DataFrame := df_ej ++ [venta_sin_fecha].

(** An input directory with a file that is no workbook. *)
Definition disco_ilegible : Entrada :=
  [(INPUT_DIR, Carpeta);
   (INPUT_DIR // "ventas_sucursal_centro.xlsx", Fichero tabla_centro);
   (INPUT_DIR // "ventas_sucursal_este.xlsx", Ilegible "File is not a zip file");
   (INPUT_DIR // "ventas_sucursal_norte.xlsx", Fichero tabla_norte)].

(** A sheet with a date typed as a word. *)
Definition tabla_fecha_palabra : Tabla :=
  {| columns := COLUMNAS_REQUERIDAS; index := [0]%nat;
     filas :=
       [venta (Some (FechaTexto "ayer")) "Webcam HD" "Accesorios" 1 (qc 55 1)
              "Lucía Torres" "Norte"] |}.

Definition disco_fecha_palabra : Entrada :=
  [(INPUT_DIR, Carpeta);
   (INPUT_DIR // "ventas_sucursal_norte.xlsx", Fichero tabla_fecha_palabra)].

(** A sheet with a return that leaves its category with a negative
    revenue. *)
Definition tabla_devolucion : Tabla :=
  {| columns := COLUMNAS_REQUERIDAS; index := [0; 1]%nat;
     filas :=
       [venta (dia 1) "Monitor LG 24" "Electrónica" 3 (qc 100 1)
              "Ana López" "Centro";
        venta (dia 2) "Webcam HD" "Accesorios" (-1) (qc 55 1)
              "Ana López" "Centro"] |}.

Definition disco_devolucion : Entrada :=
  [(INPUT_DIR, Carpeta);
   (INPUT_DIR // "ventas_sucursal_centro.xlsx", Fichero tabla_devolucion)].

(** A table in which the only row of a salesperson has no date. *)
Definition df_vendedor_sin_fecha : DataFrame := [venta_sin_fecha].

(** A table without revenue: a line of zero units and a line whose quantity
    was left blank. *)
Definition df_sin_ingresos : DataFrame :=
  filas (calcular_Total_Venta
    (mkTabla COLUMNAS_REQUERIDAS [0; 1]%nat
       [venta (dia 1) "Webcam HD" "Accesorios" 0 (qc 55 1)
              "Lucía Torres" "Norte";
        {| Fecha := dia 2; Producto := Some "SSD 500GB";
           Categoría := Some "Electrónica"; Cantidad := None;
           Precio_Unitario := Some (qc 80 1); Vendedor := Some "Juan Pérez";
           Sucursal := Some "Centro"; Total_Venta := None |}])).

(** An output directory in which the pie chart is missing. *)
Definition salida_sin_categorias : Salida :=
  [(OUTPUT_DIR, CarpetaS);
   (OUTPUT_DIR // "graficos_temp", CarpetaS);
   (OUTPUT_DIR // "graficos_temp" // "ventas_sucursal.png",
      FicheroS (Png {| width := 3000; height := 1800 |}));
   (OUTPUT_DIR // "graficos_temp" // "tendencia.png",
      FicheroS (Png {| width := 2400; height := 1500 |}))].

(** ** Vocabulary of the statements *)

(** Every required column is in the header of [t]. *)
Definition tiene_columnas (requeridas : option (list string)) (t : Tabla) : Prop :=
  ∀ req, requeridas = Some req → req ⊆ columns t.

(** The directory [p] exists: the path is there and is a directory. *)
Definition carpeta_existe (d : Entrada) (p : Ruta) : Prop :=
  buscar p d = Some Carpeta.

(** The path is free, or holds an image. *)
Definition png_o_ausente (s : Salida) (p : Ruta) : Prop :=
  buscar p s = None ∨ ∃ img, buscar p s = Some (FicheroS (Png img)).

(** The placement the dashboard makes for the chart at [p], if the file is
    there: its anchor and the image at the given scale. *)
Definition colocada (s : Salida) (p : Ruta) (celda : Ref) (escala : Qc)
    : option (Ref * Imagen) :=
  match buscar p s with
  | Some (FicheroS (Png img)) =>
      Some (celda, {| width := int (Qc_of_Z (width img) * escala);
                      height := int (Qc_of_Z (height img) * escala) |})
  | _ => None
  end.

(** The cells [crear_hoja_dashboard] assigns, in the order it assigns them. *)
Definition celdas_dashboard (stats : Stats) : list (Ref * Valor) :=
  [(("B", 2%nat), VTexto "📊 REPORTE CONSOLIDADO DE VENTAS");
   (("B", 3%nat), VPeriodo (fecha_inicio stats) (fecha_fin stats));
   (("B", 5%nat), VTexto "Total Ventas:");
   (("C", 5%nat), VMoneda (Fin (total_ventas stats)));
   (("B", 6%nat), VTexto "Total Transacciones:");
   (("C", 6%nat), VEntero (total_transacciones stats));
   (("B", 7%nat), VTexto "Ticket Promedio:");
   (("C", 7%nat), VMoneda (ticket_promedio stats));
   (("B", 8%nat), VTexto "Sucursales:");
   (("C", 8%nat), VEntero (num_sucursales stats));
   (("B", 9%nat), VTexto "Vendedores:");
   (("C", 9%nat), VEntero (num_vendedores stats));
   (("B", 10%nat), VTexto "Productos Únicos:");
   (("C", 10%nat), VEntero (num_productos stats));
   (("B", 13%nat), VTexto "📊 Ventas por Sucursal");
   (("I", 13%nat), VTexto "🥧 Distribución por Categoría");
   (("B", 38%nat), VTexto "📈 Tendencia de Ventas Diarias")].


(** The order a stable descending sort leaves: larger values first, and rows
    of equal value in the order [P] they had before the sort. *)
Definition antes {A} (valor : A → Qc) (P : relation A) : relation A :=
  λ a b, (valor b < valor a)%Qc ∨ (valor a = valor b ∧ P a b).

(** The rows of the group of key [k], in table order. *)
Definition grupo {K} `{EqDecision K} (clave : Venta → option K) (k : K)
    (df : DataFrame) : DataFrame :=
  filter (λ v, clave v = Some k) df.


(** The revenue column of a grouped summary: the rounded sum of the group. *)
Definition ventas_grupo {K} `{EqDecision K} (clave : Venta → option K) (k : K)
    (df : DataFrame) : Qc :=
  round 2 (suma (Total_Venta <$> grupo clave k df)).

(** The keys of the three text groupings, in the order [groupby] yields. *)
Definition claves (clave : Venta → option string) (df : DataFrame) : list string :=
  (groupby String.le clave df).*1.

(** The denominator of the shares: the sum of the summary's revenue column. *)
Definition total_resumen (clave : Venta → option string) (df : DataFrame) : Qc :=
  suma (Some <$> ((λ k, ventas_grupo clave k df) <$> claves clave df)).

Definition fila_sucursal (df : DataFrame) (k : string) : ResumenSucursal.t :=
  ResumenSucursal.mk k (ventas_grupo Sucursal k df)
    (count (Fecha <$> grupo Sucursal k df))
    (dividir (ventas_grupo Sucursal k df) (total_resumen Sucursal df)).

Definition fila_vendedor (df : DataFrame) (k : string) : ResumenVendedor.t :=
  ResumenVendedor.mk k (ventas_grupo Vendedor k df)
    (count (Fecha <$> grupo Vendedor k df))
    (round_numero 2
       (dividir (ventas_grupo Vendedor k df)
          (Qc_of_Z (Z.of_nat (count (Fecha <$> grupo Vendedor k df)))))).

Definition fila_categoria (df : DataFrame) (k : string) : ResumenCategoria.t :=
  ResumenCategoria.mk k (ventas_grupo Categoría k df)
    (round 2 (suma (Cantidad <$> grupo Categoría k df)))
    (dividir (ventas_grupo Categoría k df) (total_resumen Categoría df)).



(** What [pd.to_datetime] makes of one cell. *)
Definition convertida (parse : string → option Z) (c : option fecha)
    (f : option Z) : Prop :=
  match c with
  | None => f = None
  | Some (Timestamp t) => f = Some t
  | Some (FechaTexto s) => ∃ t, parse s = Some t ∧ f = Some t
  end.

(** The chart directory and the report file, as [main] names them. *)
Definition GRAFICOS_DIR : Ruta := OUTPUT_DIR // "graficos_temp".
Definition output_file : Ruta := OUTPUT_DIR // "reporte_consolidado.xlsx".

(** An output side on which [main] can write: nothing stands in the way of
    its two directories, and none of its four files is a directory. *)
Definition salida_utilizable (s : Salida) : Prop :=
  (buscar OUTPUT_DIR s = None ∨ buscar OUTPUT_DIR s = Some CarpetaS) ∧
  (buscar GRAFICOS_DIR s = None ∨ buscar GRAFICOS_DIR s = Some CarpetaS) ∧
  Forall (λ p, buscar p s ≠ Some CarpetaS)
    [GRAFICOS_DIR // "ventas_sucursal.png"; GRAFICOS_DIR // "categorias.png";
     GRAFICOS_DIR // "tendencia.png"; output_file].

(** Every workbook that the pattern of [main] matches and that loads has
    at least one data row and a timestamp in the date cell of every row. *)
Definition libros_con_filas_y_fechas (d : Entrada) : Prop :=
  ∀ p t, p ∈ glob d INPUT_DIR "*.xlsx" → pd.read_excel d p = Ok t →
    filas t ≠ [] ∧ Forall (λ v, ∃ i, Fecha v = Some (Timestamp i)) (filas t).

(** The size [insertar_imagen_en_excel] gives an image at a scale other
    than 1. *)
Definition a_escala (escala : Qc) (img : Imagen) : Imagen :=
  {| width := int (Qc_of_Z (width img) * escala);
     height := int (Qc_of_Z (height img) * escala) |}.

(** The instant that [pd.to_datetime] reads in the date of a row. *)
Definition instante (parse : string → option Z) (v : Venta) : option Z :=
  match Fecha v with
  | Some (Timestamp t) => Some t
  | Some (FechaTexto s) => parse s
  | None => None
  end.

(** The row as [df['Fecha'] = pd.to_datetime(df['Fecha'])] leaves it. *)
Definition coercion (parse : string → option Z) (v : Venta) : Venta :=
  con_Fecha (Timestamp <$> instante parse v) v.

(** * Properties *)

(** Closed equations between rationals are decided on their canonical forms. *)
Ltac qc_calc := apply Qc_is_canon; vm_compute; reflexivity.

(** Inequalities between canonical rationals, read on the rationals they
    stand for. *)
Ltac a_Q :=
  unfold Qcle, Qclt, Qcminus, Qcplus, Qcopp, Qcmult, Qc_of_Z, qc, Q2Qc in *;
  cbn [this] in *; rewrite ?Qred_correct in *.

(** Closed decidable propositions are settled by evaluation. *)
Ltac calcula := apply (bool_decide_unpack _); vm_compute; exact I.

Example round_ej1 : round 2 (qc 12345 1000) = qc 617 50.
Proof. qc_calc. Qed.
Example round_ej2 : round 2 (qc 12355 1000) = qc 309 25.
Proof. qc_calc. Qed.
Example round_ej3 : round 2 (qc (-1) 1000) = 0%Qc.
Proof. qc_calc. Qed.

Example fnmatch_ej1 : fnmatch "*.xlsx" "ventas_sucursal_norte.xlsx" = true.
Proof. reflexivity. Qed.
Example fnmatch_ej2 : fnmatch "*.xlsx" "notas.txt" = false.
Proof. reflexivity. Qed.


Example parse_iso_ej1 : parse_iso "2024-01-15" = Some 1705276800000000000.
Proof. reflexivity. Qed.
Example parse_iso_ej2 : parse_iso "2023-02-29" = None.
Proof. reflexivity. Qed.
Example parse_iso_ej3 : parse_iso "15/01/2024" = None.
Proof. reflexivity. Qed.

Example int_ej : int (qc (-7) 2) = (-3)%Z ∧ int (qc 7 2) = 3%Z.
Proof. split; reflexivity. Qed.

Example dividir_ej :
  dividir 1 0 = Inf false ∧ dividir (-1) 0 = Inf true ∧ dividir 0 0 = NaN.
Proof. repeat split; calcula. Qed.

Example sort_values_desc_ej :
  sort_values_desc snd [("a", qc 1 1); ("b", qc 3 1); ("c", qc 2 1)]
  = [("b", qc 3 1); ("c", qc 2 1); ("a", qc 1 1)].
Proof. calcula. Qed.

Example claves_ej : claves Sucursal df_empate = ["Norte"; "Sur"].
Proof. vm_compute. reflexivity. Qed.

Example analizar_vendedores_ej :
  (λ r, (ResumenVendedor.Vendedor r, ResumenVendedor.Total_Ventas r,
         ResumenVendedor.Transacciones r, ResumenVendedor.Ticket_Promedio r))
    <$> analizar_vendedores df_sin_fecha
  = [("Lucía Torres", qc 110 1, 1%nat, Fin (qc 110 1));
     ("Juan Pérez", qc 80 1, 1%nat, Fin (qc 80 1));
     ("Ana López", qc 51 1, 1%nat, Fin (qc 51 1))].
Proof. calcula. Qed.

Example to_datetime_ej :
  to_datetime parse_iso [Some (FechaTexto "2024-01-15"); None; dia 0]
  = Ok [Some 1705276800000000000; None; Some 1704067200000000000].
Proof. reflexivity. Qed.

Example to_datetime_falla :
  to_datetime parse_iso [Some (FechaTexto "ayer")]
  = Err (ErrorBiblioteca "Unknown datetime string format").
Proof. reflexivity. Qed.

(** ** Ingestion *)

Section ingestion.
Implicit Types (d : Entrada) (t df : Tabla) (archivos : list Ruta).

Lemma buscar_Some_elem_of {A} (p : Ruta) (l : list (Ruta * A)) (a : A) :
  buscar p l = Some a → (p, a) ∈ l.
Proof.
  induction l as [|[q b] l IH]; simpl; [done|].
  case_decide as Hq; [intros [= <-]; rewrite Hq; left | right; auto].
Qed.

(** Required columns that are all present leave no missing column, and
    conversely. *)
Lemma columnas_faltantes_vacio (requeridas cols : list string) :
  list_to_set (C := gset string) requeridas ∖ list_to_set cols = ∅
  ↔ requeridas ⊆ cols.
Proof.
  split.
  - intros H x Hx. destruct (decide (x ∈ cols)) as [|Hn]; [done|].
    exfalso. apply (not_elem_of_empty (C := gset string) x).
    rewrite <- H. apply elem_of_difference.
    split; [by apply elem_of_list_to_set | by rewrite elem_of_list_to_set].
  - intros H. apply set_eq. intros x.
    split; [|by intros ?%not_elem_of_empty].
    intros [Hr Hc]%elem_of_difference. apply elem_of_list_to_set in Hr.
    destruct Hc. apply elem_of_list_to_set. by apply H.
Qed.

(** The loop appends every table it loads, in order. *)
Lemma leer_cada_archivo_ok d requeridas archivos tablas acc :
  Forall2 (λ a t, pd.read_excel d a = Ok t) archivos tablas →
  Forall (tiene_columnas requeridas) tablas →
  leer_cada_archivo d requeridas archivos acc = Ok (acc ++ tablas).
Proof.
  intros H. revert acc.
  induction H as [|a t archivos tablas Ha _ IH]; intros acc Hc; simpl.
  - by rewrite app_nil_r.
  - apply Forall_cons in Hc as [Ht Hc]. rewrite Ha.
    cbn [mbind resultado_bind].
    destruct requeridas as [[|c req]|].
    + rewrite IH by done. by rewrite <- app_assoc.
    + pose proof (proj2 (columnas_faltantes_vacio _ _) (Ht _ eq_refl)) as Hv.
      rewrite decide_False by (intros Hne; exact (Hne Hv)).
      rewrite IH by done. by rewrite <- app_assoc.
    + rewrite IH by done. by rewrite <- app_assoc.
Qed.

Lemma glob_no_vacio_existe d carpeta patron :
  glob d carpeta patron ≠ [] → existe d carpeta = true.
Proof.
  unfold glob, existe. by destruct (buscar carpeta d) as [[]|].
Qed.

(** With a non-empty list of required columns, the loop stops at the first
    table that lacks one: the files before it load and are complete, and
    what comes after it is never read. *)
Lemma leer_cada_archivo_primer_incompleto d req pre a post t acc :
  req ≠ [] →
  Forall (λ a', ∃ t', pd.read_excel d a' = Ok t' ∧ req ⊆ columns t') pre →
  pd.read_excel d a = Ok t →
  ¬ req ⊆ columns t →
  leer_cada_archivo d (Some req) (pre ++ a :: post) acc =
    Err (ValueError_columnas (name a)
           (list_to_set req ∖ list_to_set (columns t))).
Proof.
  intros Hreq Hpre Ha Hsub. revert acc.
  destruct req as [|c req]; [done|].
  induction Hpre as [|a' pre (t' & Ha' & Hc') _ IH]; intros acc.
  - cbn [app leer_cada_archivo]. rewrite Ha. cbn [mbind resultado_bind].
    rewrite decide_True; [done|].
    intros Hv. by apply Hsub, columnas_faltantes_vacio.
  - cbn [app leer_cada_archivo]. rewrite Ha'. cbn [mbind resultado_bind].
    pose proof (proj2 (columnas_faltantes_vacio _ _) Hc') as Hv.
    rewrite decide_False by (intros Hne; exact (Hne Hv)). apply IH.
Qed.

(** A failed ingestion ends the run before anything is written. *)
Lemma main_aborta_en_lectura parse matplotlib d (s : Salida) err :
  leer_archivos_excel d INPUT_DIR "*.xlsx" (Some COLUMNAS_REQUERIDAS) = Err err →
  main parse matplotlib d s = (Err err, s).
Proof.
  intros H. unfold main, elevar. cbn [mbind Estado_bind]. by rewrite H.
Qed.

(** C1. For a non-empty list of input tables that all hold the required
    columns, [leer_archivos_excel] returns a table whose rows are the rows of
    the inputs, table after table in processing order and in their original
    order inside each table; its row count is the sum of the inputs' row
    counts, and its row labels are 0, 1, 2, ... *)
Theorem leer_archivos_excel_consolida d carpeta patron requeridas
    archivos tablas :
  glob d carpeta patron = archivos →
  archivos ≠ [] →
  Forall2 (λ a t, pd.read_excel d a = Ok t) archivos tablas →
  Forall (tiene_columnas requeridas) tablas →
  ∃ df,
    leer_archivos_excel d carpeta patron requeridas = Ok df ∧
    length (filas df) = sum_list (length <$> (filas <$> tablas)) ∧
    filas df = mjoin (filas <$> tablas) ∧
    (∀ j t k v, tablas !! j = Some t → filas t !! k = Some v →
       filas df !! (sum_list (length <$> (filas <$> take j tablas)) + k)%nat
         = Some v) ∧
    index df = seq 0 (length (filas df)).
Proof.
  intros Hglob Hne Hread Hcols.
  assert (leer_archivos_excel d carpeta patron requeridas
          = pd.concat tablas) as ->.
  { unfold leer_archivos_excel.
    rewrite (glob_no_vacio_existe d carpeta patron) by (by rewrite Hglob). cbn [negb].
    rewrite Hglob. destruct archivos as [|a archivos]; [done|].
    by rewrite (leer_cada_archivo_ok _ _ _ tablas) by done. }
  destruct tablas as [|t tablas].
  { apply Forall2_nil_inv_r in Hread. by subst. }
  eexists. split; [reflexivity|]. cbn [filas index].
  repeat split.
  - apply length_join.
  - intros j t' k v Hj Hk. apply join_lookup_Some.
    exists j, (filas t'), k. repeat split; [|done|].
    + by rewrite list_lookup_fmap, Hj.
    + by rewrite fmap_take.
Qed.

(** C2, as the code has it.  With a non-empty list of required columns: if
    a matched file loads and lacks a required column, and every file
    processed before it loads and holds them all, then
    [leer_archivos_excel] returns no table and raises the error that names
    this file and its set of missing columns, whatever the files after it
    are (they are never read); and when this happens in [main], the run ends
    with that error and the output side of the disk is as it was.  The file
    named is therefore the first one in processing order that is not a
    complete table. *)
Theorem leer_archivos_excel_columnas_faltantes parse matplotlib d (s : Salida)
    carpeta patron req pre a post t :
  req ≠ [] →
  glob d carpeta patron = pre ++ a :: post →
  Forall (λ a', ∃ t', pd.read_excel d a' = Ok t' ∧ req ⊆ columns t') pre →
  pd.read_excel d a = Ok t →
  ¬ req ⊆ columns t →
  let faltantes : gset string := list_to_set req ∖ list_to_set (columns t) in
  faltantes ≠ ∅ ∧
  (∀ c, c ∈ faltantes ↔ c ∈ req ∧ c ∉ columns t) ∧
  leer_archivos_excel d carpeta patron (Some req)
    = Err (ValueError_columnas (name a) faltantes) ∧
  Texto (name a) ∈ mensaje (ValueError_columnas (name a) faltantes) ∧
  Conjunto faltantes ∈ mensaje (ValueError_columnas (name a) faltantes) ∧
  (carpeta = INPUT_DIR → patron = "*.xlsx" → req = COLUMNAS_REQUERIDAS →
   main parse matplotlib d s
     = (Err (ValueError_columnas (name a) faltantes), s)).
Proof.
  intros Hreq Hglob Hpre Ha Hsub faltantes.
  assert (leer_archivos_excel d carpeta patron (Some req)
          = Err (ValueError_columnas (name a) faltantes)) as Hleer.
  { unfold leer_archivos_excel.
    assert (glob d carpeta patron ≠ []) as Hne
      by (rewrite Hglob; by destruct pre).
    rewrite (glob_no_vacio_existe d carpeta patron) by done. cbn [negb].
    destruct (glob d carpeta patron) as [|a0 archivos] eqn:Hg; [done|].
    rewrite Hglob.
    by rewrite (leer_cada_archivo_primer_incompleto d req pre a post t). }
  split; [|split; [|split; [|split; [|split]]]].
  - intros Hv. by apply Hsub, columnas_faltantes_vacio.
  - intros c. unfold faltantes.
    by rewrite elem_of_difference, !elem_of_list_to_set.
  - exact Hleer.
  - cbn [mensaje]. set_solver.
  - cbn [mensaje]. set_solver.
  - intros -> -> ->. by apply main_aborta_en_lectura.
Qed.

(** C8, as the code has it.  The test is [Path.exists()], which is true
    of any path that is there, directory or not.  [leer_archivos_excel]
    raises the directory-not-found error exactly when nothing exists at the
    path of the input directory, and the no-matching-files error exactly
    when something exists there and the pattern matches nothing below it;
    the latter is what it raises whenever the path is there without being a
    directory.  When either error is raised in [main], the run ends with it
    and the output side of the disk is as it was. *)
Theorem leer_archivos_excel_carpeta_o_patron parse matplotlib d (s : Salida)
    carpeta patron requeridas :
  (leer_archivos_excel d carpeta patron requeridas
     = Err (FileNotFoundError_carpeta carpeta)
   ↔ existe d carpeta = false) ∧
  (leer_archivos_excel d carpeta patron requeridas
     = Err (ValueError_sin_archivos patron carpeta)
   ↔ existe d carpeta = true ∧ glob d carpeta patron = []) ∧
  (existe d carpeta = true → ¬ carpeta_existe d carpeta →
   leer_archivos_excel d carpeta patron requeridas
     = Err (ValueError_sin_archivos patron carpeta)) ∧
  (existe d INPUT_DIR = false →
   main parse matplotlib d s = (Err (FileNotFoundError_carpeta INPUT_DIR), s)) ∧
  (existe d INPUT_DIR = true → glob d INPUT_DIR "*.xlsx" = [] →
   main parse matplotlib d s
     = (Err (ValueError_sin_archivos "*.xlsx" INPUT_DIR), s)).
Proof.
  assert (∀ archivos acc e,
    leer_cada_archivo d requeridas archivos acc = Err e →
    (∃ m, e = ErrorBiblioteca m) ∨ (∃ m, e = OSError m) ∨
    (∃ n f, e = ValueError_columnas n f)) as Hloop.
  { induction archivos as [|a archivos IH]; intros acc e; [done|].
    cbn [leer_cada_archivo]. unfold pd.read_excel.
    destruct (buscar a d) as [[|t|m]|]; cbn [mbind resultado_bind];
      [intros [= <-]; eauto| |intros [= <-]; eauto|intros [= <-]; eauto].
    destruct requeridas as [[|c req]|]; cbn [mbind resultado_bind];
      [apply IH| |apply IH].
    case_decide; cbn [mbind resultado_bind]; [intros [= <-]; eauto 6|apply IH]. }
  assert (∀ e, leer_archivos_excel d carpeta patron requeridas = Err e →
    existe d carpeta = true → glob d carpeta patron ≠ [] →
    e ≠ FileNotFoundError_carpeta carpeta ∧
    e ≠ ValueError_sin_archivos patron carpeta) as Hresto.
  { intros e. unfold leer_archivos_excel. intros He Hex Hg.
    rewrite Hex in He. cbn [negb] in He.
    destruct (glob d carpeta patron) as [|a archivos] eqn:Hglob; [done|].
    destruct (leer_cada_archivo d requeridas (a :: archivos) []) as [dfs|e']
      eqn:Hl; cbn [mbind resultado_bind] in He.
    - destruct dfs; simplify_eq/=. done.
    - simplify_eq. destruct (Hloop _ _ _ Hl) as [[m ->]|[[m ->]|(n & f & ->)]];
        done. }
  assert (leer_archivos_excel d carpeta patron requeridas
            = Err (ValueError_sin_archivos patron carpeta)
          ↔ existe d carpeta = true ∧ glob d carpeta patron = []) as Hsin.
  { split.
    + intros He. destruct (existe d carpeta) eqn:Hex.
      * split; [done|].
        destruct (decide (glob d carpeta patron = [])) as [Hg|Hg]; [done|].
        by destruct (Hresto _ He eq_refl Hg).
      * unfold leer_archivos_excel in He. by rewrite Hex in He.
    + intros [Hex Hg]. unfold leer_archivos_excel. by rewrite Hex, Hg. }
  split; [|split; [exact Hsin|split; [|split]]].
  - split.
    + intros He. destruct (existe d carpeta) eqn:Hex; [|done].
      destruct (decide (glob d carpeta patron = [])) as [Hg|Hg].
      * unfold leer_archivos_excel in He. by rewrite Hex, Hg in He.
      * by destruct (Hresto _ He eq_refl Hg).
    + intros Hex. unfold leer_archivos_excel. by rewrite Hex.
  - intros Hex Hno. apply Hsin. split; [done|].
    unfold glob, carpeta_existe in *.
    by destruct (buscar carpeta d) as [[]|].
  - intros Hex. apply main_aborta_en_lectura.
    unfold leer_archivos_excel. by rewrite Hex.
  - intros Hex Hg. apply main_aborta_en_lectura.
    unfold leer_archivos_excel. by rewrite Hex, Hg.
Qed.
End ingestion.

(** ** The dashboard and the report *)

Section reporte.
Implicit Types (s : Salida) (ws : Worksheet) (wb : Workbook).

Lemma existe_buscar {A} (d : list (Ruta * A)) p :
  existe d p = true ↔ is_Some (buscar p d).
Proof. unfold existe. apply bool_decide_eq_true. Qed.

Lemma escala_55 : qc 55 100 ≠ 1%Qc.
Proof. intros H. by apply (f_equal this) in H. Qed.
Lemma escala_6 : qc 6 10 ≠ 1%Qc.
Proof. intros H. by apply (f_equal this) in H. Qed.

(** One guarded insertion: an absent file is skipped, an image is placed. *)
Lemma insertar_si_existe s ws p celda escala :
  png_o_ausente s p → escala ≠ 1%Qc →
  (if existe s p then insertar_imagen_en_excel s ws p celda escala else Ok ws)
  = Ok (match colocada s p celda escala with
        | Some (c, img) => add_image img c ws
        | None => ws
        end).
Proof.
  intros [Hp|[img Hp]] Hesc; unfold colocada, insertar_imagen_en_excel, XLImage,
    existe; rewrite Hp.
  - by rewrite bool_decide_eq_false_2 by (by intros [? ?]).
  - rewrite bool_decide_eq_true_2 by eauto. cbn [negb mbind resultado_bind].
    by rewrite decide_True by done.
Qed.

(** C9. Whichever of the three chart files are absent when the dashboard is
    built, [crear_hoja_dashboard] returns normally; the sheet receives the
    same cells in every case, and exactly the images whose files are there,
    each at its anchor. *)
Theorem crear_hoja_dashboard_imagenes_ausentes s ws stats graficos_dir :
  png_o_ausente s (graficos_dir // "ventas_sucursal.png") →
  png_o_ausente s (graficos_dir // "categorias.png") →
  png_o_ausente s (graficos_dir // "tendencia.png") →
  ∃ ws',
    crear_hoja_dashboard s ws stats graficos_dir = Ok ws' ∧
    imagenes ws' = imagenes ws ++
      omap id
        [colocada s (graficos_dir // "ventas_sucursal.png") ("B", 14%nat) (qc 55 100);
         colocada s (graficos_dir // "categorias.png") ("I", 14%nat) (qc 55 100);
         colocada s (graficos_dir // "tendencia.png") ("B", 39%nat) (qc 6 10)] ∧
    celdas ws' = celdas ws ++ celdas_dashboard stats ∧
    title ws' = title ws ∧ datos ws' = datos ws.
Proof.
  intros H1 H2 H3. unfold crear_hoja_dashboard.
  rewrite (insertar_si_existe _ _ _ _ _ H1 escala_55). cbn [mbind resultado_bind].
  rewrite (insertar_si_existe _ _ _ _ _ H2 escala_55). cbn [mbind resultado_bind].
  rewrite (insertar_si_existe _ _ _ _ _ H3 escala_6). cbn [mbind resultado_bind].
  eexists. split; [reflexivity|].
  destruct (colocada s (graficos_dir // "ventas_sucursal.png") _ _) as [[c1 i1]|];
  destruct (colocada s (graficos_dir // "categorias.png") _ _) as [[c2 i2]|];
  destruct (colocada s (graficos_dir // "tendencia.png") _ _) as [[c3 i3]|];
    cbn; rewrite <- ?app_assoc, ?app_nil_r; done.
Qed.

Lemma crear_hoja_dashboard_title s ws stats graficos_dir ws' :
  crear_hoja_dashboard s ws stats graficos_dir = Ok ws' → title ws' = title ws.
Proof.
  unfold crear_hoja_dashboard, insertar_imagen_en_excel.
  repeat (match goal with
          | |- context [existe s ?p] => destruct (existe s p)
          | |- context [XLImage s ?p] => destruct (XLImage s p)
          end; cbn [negb mbind resultado_bind]; try done).
  all: by intros [= <-].
Qed.

Lemma sobre_hoja_titles nombre f wb wb' :
  (∀ ws ws', f ws = Ok ws' → title ws' = title ws) →
  sobre_hoja nombre f wb = Ok wb' → title <$> wb' = title <$> wb.
Proof.
  intros Hf. revert wb'.
  induction wb as [|ws wb IH]; intros wb'; cbn [sobre_hoja]; [done|].
  case_decide.
  - destruct (f ws) as [ws'|] eqn:Hws; cbn [mbind resultado_bind]; [|done].
    intros [= <-]. cbn. by rewrite (Hf _ _ Hws).
  - destruct (sobre_hoja nombre f wb) as [wb0|]; cbn [fmap resultado_fmap];
      [|done].
    intros [= <-]. cbn. by rewrite (IH wb0).
Qed.

Lemma buscar_reemplazar {A} p (a : A) (d : list (Ruta * A)) :
  buscar p (reemplazar p a d) = Some a.
Proof.
  induction d as [|[q b] d IH]; cbn.
  - by rewrite decide_True.
  - case_decide as Hq; cbn; [by rewrite decide_True | by rewrite decide_False].
Qed.

Lemma Run_bind_Ok {S A B} (m : Estado S A) (k : A → Estado S B)
    (x : S) b (x2 : S) :
  (m ≫= k) x = (Ok b, x2) →
  ∃ a x1, m x = (Ok a, x1) ∧ k a x1 = (Ok b, x2).
Proof.
  unfold mbind, Estado_bind. destruct (m x) as [[a|e] x1]; [eauto|done].
Qed.

Lemma elevar_Ok {S A} (r : resultado A) (x : S) a (x1 : S) :
  elevar r x = (Ok a, x1) → r = Ok a ∧ x1 = x.
Proof. unfold elevar. by intros [= -> ->]. Qed.

Lemma mirando_Ok {S A} (f : S → resultado A) (x : S) a (x1 : S) :
  mirando f x = (Ok a, x1) → f x = Ok a ∧ x1 = x.
Proof. unfold mirando. by intros [= -> ->]. Qed.

Lemma escribir_Ok p a s u s1 :
  escribir p a s = (Ok u, s1) → s1 = reemplazar p (FicheroS a) s.
Proof.
  unfold escribir. destruct (es_carpeta s (parent p)); cbn [negb]; [|done].
  destruct (buscar p s) as [[]|]; by intros [= _ <-].
Qed.

Lemma load_workbook_Ok p s wb s1 :
  load_workbook p s = (Ok wb, s1) →
  buscar p s = Some (FicheroS (Libro wb)) ∧ s1 = s.
Proof.
  unfold load_workbook. destruct (buscar p s) as [[|[]]|]; try done.
  by intros [= -> ->].
Qed.

(** C7, as the code has it.  The workbook that a successful run leaves at
    the output path has exactly five sheets, named, in this order,
    Dashboard, Datos_Consolidados, Top_Productos, Analisis_Vendedores and
    Resumen_Sucursales. *)
Theorem main_hojas_del_reporte parse matplotlib d s s' :
  main parse matplotlib d s = (Ok (), s') →
  ∃ wb,
    buscar (OUTPUT_DIR // "reporte_consolidado.xlsx") s'
      = Some (FicheroS (Libro wb)) ∧
    title <$> wb = ["Dashboard"; "Datos_Consolidados"; "Top_Productos";
                    "Analisis_Vendedores"; "Resumen_Sucursales"].
Proof.
  unfold main. intros H.
  apply Run_bind_Ok in H as (df & s0 & _ & H).
  destruct (analisis _ _) as [resultados filas'].
  apply Run_bind_Ok in H as (res & s2 & _ & H).
  destruct res as [[[[[stats ventas_sucursal] [top_cantidad top_monto]]
    vendedores_stats] categorias_stats] tendencia].
  apply Run_bind_Ok in H as (? & s3 & _ & H).
  apply Run_bind_Ok in H as (? & s4 & _ & H).
  apply Run_bind_Ok in H as (? & s5 & _ & H).
  apply Run_bind_Ok in H as (? & s6 & _ & H).
  apply Run_bind_Ok in H as (? & s7 & _ & H).
  destruct (decide (length top_cantidad = length top_monto)) as [Hlen|Hlen].
  2: { apply Run_bind_Ok in H as (? & s8 & _ & H). by apply elevar_Ok in H as [? _]. }
  apply Run_bind_Ok in H as (? & s8 & Hw & H). apply escribir_Ok in Hw.
  apply Run_bind_Ok in H as (wb0 & s9 & Hl & H).
  apply load_workbook_Ok in Hl as [Hl ->].
  rewrite Hw, buscar_reemplazar in Hl. injection Hl as <-.
  apply Run_bind_Ok in H as (wb1 & s9 & [H1 ->]%mirando_Ok & H).
  apply Run_bind_Ok in H as (wb2 & s9 & [H2 ->]%elevar_Ok & H).
  apply Run_bind_Ok in H as (wb3 & s9 & [H3 ->]%elevar_Ok & H).
  apply Run_bind_Ok in H as (wb4 & s9 & [H4 ->]%elevar_Ok & H).
  apply Run_bind_Ok in H as (wb5 & s9 & [H5 ->]%elevar_Ok & H).
  apply escribir_Ok in H. exists wb5. split.
  { by rewrite H, buscar_reemplazar. }
  apply sobre_hoja_titles in H1; [|intros ??; apply crear_hoja_dashboard_title].
  apply sobre_hoja_titles in H2; [|by intros ?? [= <-]].
  apply sobre_hoja_titles in H3; [|by intros ?? [= <-]].
  apply sobre_hoja_titles in H4; [|by intros ?? [= <-]].
  apply sobre_hoja_titles in H5; [|by intros ?? [= <-]].
  by rewrite H5, H4, H3, H2, H1.
Qed.

End reporte.

(** ** Decimal rounding *)

Section redondeo.
Implicit Types (x y : Qc) (k : Z) (decimals : nat).

Lemma Qfloor_Qc_of_Z k : Qfloor (Qc_of_Z k) = k.
Proof. apply Qfloor_Z. Qed.

Lemma rint_Qc_of_Z k : rint (Qc_of_Z k) = k.
Proof.
  unfold rint. rewrite Qfloor_Qc_of_Z.
  replace (Qc_of_Z k - Qc_of_Z k)%Qc with 0%Qc by ring.
  by rewrite decide_True.
Qed.

Lemma rint_cotas x : (Qfloor x ≤ rint x ≤ Qfloor x + 1)%Z.
Proof. unfold rint. repeat case_decide; try destruct (Z.even _); lia. Qed.

Lemma rint_mono x y : (x ≤ y)%Qc → (rint x ≤ rint y)%Z.
Proof.
  intros Hxy.
  assert (Qfloor x ≤ Qfloor y)%Z as Hf by (by apply Qfloor_resp_le).
  destruct (decide (Qfloor x = Qfloor y)) as [Heq|Hne].
  2: { pose proof (rint_cotas x). pose proof (rint_cotas y). lia. }
  assert (x - Qc_of_Z (Qfloor x) ≤ y - Qc_of_Z (Qfloor y))%Qc as Hr.
  { rewrite Heq. by apply Qcplus_le_mono_r. }
  unfold rint. rewrite <- Heq in *.
  set (rx := (x - Qc_of_Z (Qfloor x))%Qc) in *.
  set (ry := (y - Qc_of_Z (Qfloor x))%Qc) in *.
  destruct (decide (rx < qc 1 2)%Qc) as [H1|H1];
    destruct (decide (ry < qc 1 2)%Qc) as [H2|H2];
    destruct (decide (qc 1 2 < rx)%Qc) as [H3|H3];
    destruct (decide (qc 1 2 < ry)%Qc) as [H4|H4];
    try destruct (Z.even (Qfloor x)); try lia.
  all: exfalso.
  all: try (apply H1; by eapply Qcle_lt_trans).
  all: try (apply H4; by eapply Qclt_le_trans).
Qed.

Lemma escala_pos decimals : (0 < Qc_of_Z (10 ^ Z.of_nat decimals))%Qc.
Proof.
  rewrite <- Z2Qc_inj_0, <- Z2Qc_inj_lt. apply Z.pow_pos_nonneg; lia.
Qed.

Lemma escala_no_nula decimals : Qc_of_Z (10 ^ Z.of_nat decimals) ≠ 0%Qc.
Proof. intros H. pose proof (escala_pos decimals) as Hp. rewrite H in Hp.
  by apply Qclt_not_eq in Hp. Qed.

(** Rounding never reverses an order. *)
Lemma round_mono decimals x y :
  (x ≤ y)%Qc → (round decimals x ≤ round decimals y)%Qc.
Proof.
  intros Hxy. unfold round.
  pose proof (escala_pos decimals) as Hm.
  set (m := Qc_of_Z (10 ^ Z.of_nat decimals)) in *.
  unfold Qcdiv. apply Qcmult_le_mono_pos_r; [by apply Qcinv_pos|].
  apply (proj1 (Z2Qc_inj_le _ _)), rint_mono. by apply Qcmult_le_mono_pos_r.
Qed.

(** A rounded number is a fixed point of the rounding. *)
Lemma round_idem decimals x :
  round decimals (round decimals x) = round decimals x.
Proof.
  unfold round.
  pose proof (escala_no_nula decimals) as Hm.
  set (m := Qc_of_Z (10 ^ Z.of_nat decimals)) in *.
  replace (Qc_of_Z (rint (x * m)) / m * m)%Qc with (Qc_of_Z (rint (x * m)))
    by (by field).
  by rewrite rint_Qc_of_Z.
Qed.

Lemma round_0 decimals : round decimals 0 = 0%Qc.
Proof.
  unfold round. rewrite Qcmult_0_l.
  rewrite <- Z2Qc_inj_0, rint_Qc_of_Z.
  pose proof (escala_no_nula decimals). rewrite Z2Qc_inj_0. by field.
Qed.

(** [rint] moves a number by at most one half, and rounding to two
    decimals by at most half a cent. *)
Lemma rint_cerca x :
  (Qc_of_Z (rint x) - x ≤ qc 1 2 ∧ x - Qc_of_Z (rint x) ≤ qc 1 2)%Qc.
Proof.
  pose proof (Qfloor_le x) as H0. pose proof (Qlt_floor x) as H1.
  rewrite inject_Z_plus in H1.
  unfold rint.
  destruct (decide _) as [Ha|Ha]; [|destruct (decide _) as [Hb|Hb];
    [|destruct (Z.even _)]].
  all: apply Qcnot_lt_le in Ha || idtac.
  all: try apply Qcnot_lt_le in Hb.
  all: a_Q; try rewrite inject_Z_plus.
  all: change (inject_Z 1) with 1%Q in *.
  all: split; lra.
Qed.

Lemma round_cerca x :
  (round 2 x - x ≤ qc 1 200 ∧ x - round 2 x ≤ qc 1 200)%Qc.
Proof.
  destruct (rint_cerca (x * Qc_of_Z 100)) as [H1 H2].
  unfold round. change (10 ^ Z.of_nat 2) with 100.
  set (k := rint (x * Qc_of_Z 100)) in *. clearbody k.
  unfold Qcdiv, Qcinv in *. a_Q.
  change (/ inject_Z 100)%Q with (1 # 100)%Q.
  change (inject_Z 100) with (100 # 1)%Q in *.
  split; lra.
Qed.

Lemma round_nonneg decimals x : (0 ≤ x)%Qc → (0 ≤ round decimals x)%Qc.
Proof. intros H. rewrite <- (round_0 decimals). by apply round_mono. Qed.

Lemma round_numero_idem decimals (n : numero) :
  round_numero decimals (round_numero decimals n) = round_numero decimals n.
Proof. destruct n; cbn; by rewrite ?round_idem. Qed.
End redondeo.

(** ** Sums *)

Section sumas.
Implicit Types (l : list (option Qc)) (qs : list Qc).

Lemma suma_cons_Some q l : suma (Some q :: l) = (q + suma l)%Qc.
Proof. done. Qed.

Lemma suma_Permutation l l' : l ≡ₚ l' → suma l = suma l'.
Proof.
  unfold suma.
  induction 1 as [|c l l' _ IH|c c' l|l l' l'' _ IH1 _ IH2]; cbn.
  - done.
  - by rewrite IH.
  - destruct c, c'; cbn; try done. ring.
  - by rewrite IH1.
Qed.

Lemma suma_nonneg l :
  Forall (λ c, ∀ q, c = Some q → (0 ≤ q)%Qc) l → (0 ≤ suma l)%Qc.
Proof.
  unfold suma. induction 1 as [|[q|] l Hq _ IH]; cbn; [done| |done].
  apply Qcplus_nonneg_nonneg; [by apply Hq | done].
Qed.

Lemma suma_cociente qs (total : Qc) :
  total ≠ 0%Qc →
  suma (Some <$> ((λ q, q / total)%Qc <$> qs))
  = (suma (Some <$> qs) / total)%Qc.
Proof.
  intros Ht. unfold suma. induction qs as [|q qs IH]; cbn.
  - by field.
  - rewrite IH. by field.
Qed.
End sumas.

(** ** Sorting *)

Section ordenar_props.
Context {A : Type} (valor : A → Qc).
Implicit Types (l : list A) (P : relation A).

Lemma insertar_desc_Permutation x l : insertar_desc valor x l ≡ₚ x :: l.
Proof.
  induction l as [|y r IH]; cbn; [done|].
  case_decide; [done|]. by rewrite IH, Permutation_swap.
Qed.

Lemma sort_values_desc_Permutation l : sort_values_desc valor l ≡ₚ l.
Proof.
  induction l as [|x l IH]; cbn; [done|].
  by rewrite insertar_desc_Permutation, IH.
Qed.

Lemma antes_le P a b : antes valor P a b → (valor b ≤ valor a)%Qc.
Proof.
  intros [H|[-> _]]; [by apply Qclt_le_weak | apply Qcle_refl].
Qed.

Lemma insertar_desc_sorted P x l :
  (∀ y, y ∈ l → P x y) →
  StronglySorted (antes valor P) l →
  StronglySorted (antes valor P) (insertar_desc valor x l).
Proof.
  intros HP Hl. induction Hl as [|y r Hr IH Hy]; cbn.
  { repeat constructor. }
  case_decide as Hyx.
  - constructor; [by constructor|].
    apply Forall_forall. intros z Hz.
    assert (valor z ≤ valor x)%Qc as Hzx.
    { apply elem_of_cons in Hz as [->|Hz]; [done|].
      rewrite Forall_forall in Hy.
      eapply Qcle_trans; [eapply antes_le, Hy, Hz | done]. }
    destruct (Qcle_lt_or_eq _ _ Hzx) as [?|Heq]; [by left|].
    right. split; [done | by apply HP].
  - constructor.
    + apply IH. intros z Hz. apply HP. by right.
    + apply Forall_forall. intros z Hz.
      rewrite insertar_desc_Permutation in Hz.
      apply elem_of_cons in Hz as [->|Hz].
      * left. by apply Qclt_nge.
      * rewrite Forall_forall in Hy. by apply Hy.
Qed.

(** The definition sorts in descending order and leaves rows of equal value
    in the order of the input. *)
Lemma sort_values_desc_sorted P l :
  StronglySorted P l →
  StronglySorted (antes valor P) (sort_values_desc valor l).
Proof.
  induction 1 as [|x l Hl IH Hx]; [constructor|].
  change (sort_values_desc valor (x :: l))
    with (insertar_desc valor x (sort_values_desc valor l)).
  apply insertar_desc_sorted; [|done].
  intros y Hy. rewrite sort_values_desc_Permutation in Hy.
  rewrite Forall_forall in Hx. by apply Hx.
Qed.



Lemma StronglySorted_True_l l : StronglySorted (λ _ _ : A, True) l.
Proof. induction l; constructor; [done|]. by apply Forall_forall. Qed.

Lemma StronglySorted_impl (R1 R2 : relation A) l :
  (∀ a b, R1 a b → R2 a b) → StronglySorted R1 l → StronglySorted R2 l.
Proof.
  intros HR. induction 1; constructor; [done|].
  eapply Forall_impl; [done|]. auto.
Qed.
End ordenar_props.

(** ** Grouping *)

Section groupby_props.
Context {K : Type} `{EqDecision K} (le : relation K) `{RelDecision K K le}.
Context `{!PartialOrder le, !Total le}.
Implicit Types (clave : Venta → option K) (df : DataFrame).

Lemma groupby_claves clave df :
  (groupby le clave df).*1 = merge_sort le (remove_dups (omap clave df)).
Proof.
  unfold groupby. rewrite <- list_fmap_compose.
  rewrite <- (list_fmap_id (merge_sort _ _)) at 2. by apply list_fmap_ext.
Qed.

Lemma groupby_grupos clave df :
  groupby le clave df
  = (λ k, (k, grupo clave k df)) <$> (groupby le clave df).*1.
Proof.
  rewrite groupby_claves. done.
Qed.

Lemma elem_of_claves clave df k :
  k ∈ (groupby le clave df).*1 ↔ ∃ v, v ∈ df ∧ clave v = Some k.
Proof.
  rewrite groupby_claves, merge_sort_Permutation, elem_of_remove_dups.
  apply list_elem_of_omap.
Qed.

Lemma NoDup_claves clave df : NoDup (groupby le clave df).*1.
Proof.
  rewrite groupby_claves, merge_sort_Permutation. apply NoDup_remove_dups.
Qed.

(** The groups come in strictly ascending key order. *)
Lemma claves_ordenadas clave df :
  StronglySorted (strict le) (groupby le clave df).*1.
Proof.
  pose proof (NoDup_claves clave df) as Hnd.
  assert (StronglySorted le (groupby le clave df).*1) as Hs.
  { rewrite groupby_claves. apply StronglySorted_merge_sort; apply _. }
  induction Hs as [|k ks Hs IH Hk]; [constructor|].
  apply NoDup_cons in Hnd as [Hk' Hnd].
  constructor; [by apply IH|].
  apply Forall_forall. intros k' Hin. rewrite Forall_forall in Hk.
  split; [by apply Hk|].
  intros Hle. assert (k = k') as -> by (by apply (anti_symm le); [apply Hk|]).
  done.
Qed.
End groupby_props.

(** ** The summaries, group by group *)

Section formas.
Implicit Types (df : DataFrame).

Lemma groupby_fmap {B} (f : string → DataFrame → B) clave df :
  (λ '(k, g), f k g) <$> groupby String.le clave df
  = (λ k, f k (grupo clave k df)) <$> claves clave df.
Proof.
  unfold claves. rewrite (groupby_grupos String.le clave df) at 1.
  rewrite <- list_fmap_compose. by apply list_fmap_ext.
Qed.

Lemma analizar_ventas_por_sucursal_forma df :
  analizar_ventas_por_sucursal df
  = sort_values_desc ResumenSucursal.Total_Ventas
      (fila_sucursal df <$> claves Sucursal df).
Proof.
  unfold analizar_ventas_por_sucursal.
  rewrite (groupby_fmap (λ k g, (k, round 2 (suma (Total_Venta <$> g)),
                                    count (Fecha <$> g)))).
  f_equal. rewrite <- !list_fmap_compose. apply list_fmap_ext.
  intros i k _. unfold fila_sucursal, total_resumen, ventas_grupo.
  rewrite <- !list_fmap_compose. reflexivity.
Qed.

Lemma analizar_vendedores_forma df :
  analizar_vendedores df
  = sort_values_desc ResumenVendedor.Total_Ventas
      (fila_vendedor df <$> claves Vendedor df).
Proof.
  unfold analizar_vendedores.
  rewrite (groupby_fmap (λ k g, (k, round 2 (suma (Total_Venta <$> g)),
                                    count (Fecha <$> g)))).
  f_equal. rewrite <- !list_fmap_compose. by apply list_fmap_ext.
Qed.

Lemma analizar_categorias_forma df :
  analizar_categorias df
  = sort_values_desc ResumenCategoria.Total_Ventas
      (fila_categoria df <$> claves Categoría df).
Proof.
  unfold analizar_categorias.
  rewrite (groupby_fmap (λ k g, (k, round 2 (suma (Total_Venta <$> g)),
                                    round 2 (suma (Cantidad <$> g))))).
  f_equal. rewrite <- !list_fmap_compose. apply list_fmap_ext.
  intros i k _. unfold fila_categoria, total_resumen, ventas_grupo.
  rewrite <- !list_fmap_compose. reflexivity.
Qed.

Lemma groupby_sum_forma clave col df :
  groupby_sum String.le clave col df
  = (λ k, (k, suma (col <$> grupo clave k df))) <$> claves clave df.
Proof. unfold groupby_sum. apply (groupby_fmap (λ k g, (k, suma (col <$> g)))). Qed.
End formas.

(** ** Rankings *)

Section rankings.
Implicit Types (df : DataFrame).



End rankings.

(** ** Transaction counts *)

Section transacciones.
Implicit Types (df g : DataFrame).

Lemma count_filter {A} (f : Venta → option A) g :
  count (f <$> g) = length (filter (λ w, is_Some (f w)) g).
Proof.
  unfold count. induction g as [|w g IH]; [done|].
  rewrite filter_cons. csimpl. destruct (f w) as [a|] eqn:Hw.
  - rewrite decide_True by eauto. cbn. by f_equal.
  - rewrite decide_False by (by intros [? ?]). done.
Qed.

Lemma filter_length_lt {A} (P : A → Prop) `{∀ x, Decision (P x)}
    (l : list A) x :
  x ∈ l → ¬ P x → (length (filter P l) < length l)%nat.
Proof.
  intros Hx HP. induction l as [|y l IH]; [by apply elem_of_nil in Hx|].
  pose proof (length_filter P l) as Hle.
  rewrite filter_cons. apply elem_of_cons in Hx as [<-|Hx].
  - rewrite decide_False by done. cbn [length]. lia.
  - specialize (IH Hx). case_decide; cbn [length]; lia.
Qed.

Lemma elem_of_analizar_ventas_por_sucursal df r :
  r ∈ analizar_ventas_por_sucursal df
  ↔ ∃ k, k ∈ claves Sucursal df ∧ r = fila_sucursal df k.
Proof.
  rewrite analizar_ventas_por_sucursal_forma, sort_values_desc_Permutation,
    list_elem_of_fmap.
  split; [intros (k & -> & Hk) | intros (k & Hk & ->)]; eauto.
Qed.

Lemma elem_of_analizar_vendedores df r :
  r ∈ analizar_vendedores df
  ↔ ∃ k, k ∈ claves Vendedor df ∧ r = fila_vendedor df k.
Proof.
  rewrite analizar_vendedores_forma, sort_values_desc_Permutation,
    list_elem_of_fmap.
  split; [intros (k & -> & Hk) | intros (k & Hk & ->)]; eauto.
Qed.

Lemma elem_of_analizar_categorias df r :
  r ∈ analizar_categorias df
  ↔ ∃ k, k ∈ claves Categoría df ∧ r = fila_categoria df k.
Proof.
  rewrite analizar_categorias_forma, sort_values_desc_Permutation,
    list_elem_of_fmap.
  split; [intros (k & -> & Hk) | intros (k & Hk & ->)]; eauto.
Qed.

(** C10. A row whose date is null is left out of the transaction count of
    its branch and of its salesperson, while its revenue is part of the
    group's summed revenue: the count is the number of rows of the group
    with a non-null date, it is strictly below the number of rows of the
    group, and the revenue is the rounded sum over all rows of the group,
    this one included. *)
Theorem transacciones_sin_fecha_nula df v :
  v ∈ df → Fecha v = None →
  (∀ k, Sucursal v = Some k →
     ∃ r, r ∈ analizar_ventas_por_sucursal df ∧
       ResumenSucursal.Sucursal r = k ∧
       v ∈ grupo Sucursal k df ∧
       ResumenSucursal.Transacciones r
         = length (filter (λ w, is_Some (Fecha w)) (grupo Sucursal k df)) ∧
       (ResumenSucursal.Transacciones r < length (grupo Sucursal k df))%nat ∧
       ResumenSucursal.Total_Ventas r
         = round 2 (suma (Total_Venta <$> grupo Sucursal k df))) ∧
  (∀ k, Vendedor v = Some k →
     ∃ r, r ∈ analizar_vendedores df ∧
       ResumenVendedor.Vendedor r = k ∧
       v ∈ grupo Vendedor k df ∧
       ResumenVendedor.Transacciones r
         = length (filter (λ w, is_Some (Fecha w)) (grupo Vendedor k df)) ∧
       (ResumenVendedor.Transacciones r < length (grupo Vendedor k df))%nat ∧
       ResumenVendedor.Total_Ventas r
         = round 2 (suma (Total_Venta <$> grupo Vendedor k df))).
Proof.
  intros Hv Hf. split; intros k Hk.
  - exists (fila_sucursal df k).
    assert (v ∈ grupo Sucursal k df) as Hg by (by apply list_elem_of_filter).
    split; [|repeat split; try done].
    + apply elem_of_analizar_ventas_por_sucursal. exists k. split; [|done].
      apply (elem_of_claves String.le). eauto.
    + apply count_filter.
    + cbn. rewrite count_filter. eapply filter_length_lt; [done|].
      rewrite Hf. by intros [? ?].
  - exists (fila_vendedor df k).
    assert (v ∈ grupo Vendedor k df) as Hg by (by apply list_elem_of_filter).
    split; [|repeat split; try done].
    + apply elem_of_analizar_vendedores. exists k. split; [|done].
      apply (elem_of_claves String.le). eauto.
    + apply count_filter.
    + cbn. rewrite count_filter. eapply filter_length_lt; [done|].
      rewrite Hf. by intros [? ?].
Qed.
End transacciones.

(** ** Shares *)

Section participacion.
Implicit Types (df : DataFrame) (vs : list Qc).

Lemma suma_elem_le vs v :
  Forall (λ x, (0 ≤ x)%Qc) vs → v ∈ vs → (v ≤ suma (Some <$> vs))%Qc.
Proof.
  intros Hvs Hv. induction Hvs as [|x vs Hx Hvs IH]; [by apply elem_of_nil in Hv|].
  rewrite fmap_cons, suma_cons_Some.
  assert (0 ≤ suma (Some <$> vs))%Qc as Hs.
  { apply suma_nonneg, Forall_fmap. eapply Forall_impl; [done|].
    by intros y Hy q [= <-]. }
  apply elem_of_cons in Hv as [->|Hv].
  - rewrite <- (Qcplus_0_r x) at 1. by apply Qcplus_le_mono_l.
  - specialize (IH Hv). rewrite <- (Qcplus_0_l v).
    by apply Qcplus_le_compat.
Qed.

(** Non-negative amounts with a positive total: each share lies in [0,1]
    and the shares add up to 1. *)
Lemma cuotas vs :
  Forall (λ x, (0 ≤ x)%Qc) vs →
  (0 < suma (Some <$> vs))%Qc →
  Forall (λ q, (0 ≤ q ≤ 1)%Qc) ((λ v, v / suma (Some <$> vs))%Qc <$> vs) ∧
  suma (Some <$> ((λ v, v / suma (Some <$> vs))%Qc <$> vs)) = 1%Qc.
Proof.
  intros Hvs Ht. set (t := suma (Some <$> vs)) in *.
  assert (t ≠ 0%Qc) as Hne by (by apply not_eq_sym, Qclt_not_eq).
  split.
  - apply Forall_fmap, Forall_forall. intros v Hv. cbn.
    rewrite Forall_forall in Hvs. unfold Qcdiv. split.
    + apply Qcmult_nonneg_nonneg; [by apply Hvs|].
      by apply Qclt_le_weak, Qcinv_pos.
    + rewrite <- (Qcmult_inv_r t Hne).
      apply Qcmult_le_mono_nonneg_r; [by apply Qclt_le_weak, Qcinv_pos|].
      apply suma_elem_le; [by apply Forall_forall | done].
  - rewrite suma_cociente by done. fold t. by field.
Qed.

Lemma ventas_grupo_nonneg {K} `{EqDecision K} (clave : Venta → option K) k df :
  Forall (λ v, ∀ x, Total_Venta v = Some x → (0 ≤ x)%Qc) df →
  (0 ≤ ventas_grupo clave k df)%Qc.
Proof.
  intros Hdf. apply round_nonneg, suma_nonneg, Forall_fmap.
  unfold grupo. apply Forall_forall. intros v [_ Hv]%list_elem_of_filter.
  rewrite Forall_forall in Hdf. intros q Hq. exact (Hdf v Hv q Hq).
Qed.

Lemma suma_Some_le (l : list (option Qc)) x :
  Forall (λ c, ∀ q, c = Some q → (0 ≤ q)%Qc) l →
  Some x ∈ l → (x ≤ suma l)%Qc.
Proof.
  intros Hl Hx. induction Hl as [|c l Hc Hl IH]; [by apply elem_of_nil in Hx|].
  pose proof (suma_nonneg l Hl) as Hs.
  apply elem_of_cons in Hx as [<-|Hx].
  - rewrite suma_cons_Some, <- (Qcplus_0_r x) at 1. by apply Qcplus_le_mono_l.
  - specialize (IH Hx). destruct c as [q|]; [|done].
    rewrite suma_cons_Some, <- (Qcplus_0_l x).
    apply Qcplus_le_compat; [by apply Hc | done].
Qed.

Lemma suma_pos_elem (l : list (option Qc)) :
  (0 < suma l)%Qc → ∃ x, Some x ∈ l ∧ (0 < x)%Qc.
Proof.
  induction l as [|[q|] l IH]; intros Hs.
  - by apply Qclt_not_eq in Hs.
  - destruct (decide (0 < q)%Qc) as [Hq|Hq].
    + exists q. split; [left | done].
    + destruct IH as (x & Hx & Hpos).
      * rewrite suma_cons_Some in Hs. apply Qcle_ngt in Hq.
        apply Qclt_nge. intros Hle. apply (Qclt_not_le _ _ Hs).
        rewrite <- (Qcplus_0_r 0). by apply Qcplus_le_compat.
      * exists x. split; [by right | done].
  - destruct (IH Hs) as (x & Hx & Hpos). exists x. split; [by right | done].
Qed.

(** On a table of non-negative, rounded line totals in which every row has a
    key, a positive grand total makes the revenue column of the summary sum
    to a positive number. *)
Lemma total_resumen_positivo (clave : Venta → option string) df :
  Forall (λ v, ∀ x, Total_Venta v = Some x → (0 ≤ x)%Qc) df →
  Forall (λ v, ∀ x, Total_Venta v = Some x → round 2 x = x) df →
  Forall (λ v, is_Some (clave v)) df →
  (0 < suma (Total_Venta <$> df))%Qc →
  (0 < total_resumen clave df)%Qc.
Proof.
  intros Hpos Hred Hkey Hs.
  destruct (suma_pos_elem _ Hs) as (x & Hx & Hx0).
  apply list_elem_of_fmap in Hx as (v & Hvx & Hv).
  rewrite Forall_forall in Hred, Hkey.
  destruct (Hkey v Hv) as [k Hk].
  assert (x ≤ ventas_grupo clave k df)%Qc as Hle.
  { unfold ventas_grupo. rewrite <- (Hred v Hv x) by done. apply round_mono.
    apply suma_Some_le.
    - apply Forall_fmap, Forall_forall.
      intros w [_ Hw]%list_elem_of_filter q Hq.
      rewrite Forall_forall in Hpos. exact (Hpos w Hw q Hq).
    - rewrite Hvx. apply list_elem_of_fmap_2. by apply list_elem_of_filter. }
  eapply Qclt_le_trans; [exact Hx0|]. eapply Qcle_trans; [exact Hle|].
  unfold total_resumen. apply suma_elem_le.
  - apply Forall_fmap, Forall_forall. intros k' _.
    exact (ventas_grupo_nonneg clave k' df Hpos).
  - apply (list_elem_of_fmap_2 (λ k, ventas_grupo clave k df)).
    apply (elem_of_claves String.le). eauto.
Qed.

Lemma dividir_Fin (a b : Qc) : b ≠ 0%Qc → dividir a b = Fin (a / b)%Qc.
Proof. intros Hb. unfold dividir. by rewrite decide_False. Qed.

Lemma total_resumen_sucursal df :
  suma (Some <$> (ResumenSucursal.Total_Ventas <$> analizar_ventas_por_sucursal df))
  = total_resumen Sucursal df.
Proof.
  rewrite analizar_ventas_por_sucursal_forma. unfold total_resumen.
  apply suma_Permutation. rewrite sort_values_desc_Permutation.
  by rewrite <- !list_fmap_compose.
Qed.

Lemma total_resumen_categoria df :
  suma (Some <$> (ResumenCategoria.Total_Ventas <$> analizar_categorias df))
  = total_resumen Categoría df.
Proof.
  rewrite analizar_categorias_forma. unfold total_resumen.
  apply suma_Permutation. rewrite sort_values_desc_Permutation.
  by rewrite <- !list_fmap_compose.
Qed.

(** C4, as the code has it.  When no line total is negative and the revenue
    column of the per-branch (per-category) summary has a strictly positive
    sum, every share of that summary is a finite number in [0,1] and the
    shares add up to 1.  That sum is strictly positive as soon as the grand
    total is, provided the line totals are rounded to two decimals, as [main]
    computes them, and every row names its branch (its category). *)
Theorem participacion_en_rango_y_suma_uno df :
  Forall (λ v, ∀ x, Total_Venta v = Some x → (0 ≤ x)%Qc) df →
  ((0 < suma (Some <$> (ResumenSucursal.Total_Ventas
                          <$> analizar_ventas_por_sucursal df)))%Qc →
   ∃ qs,
     ResumenSucursal.Participacion <$> analizar_ventas_por_sucursal df
       = Fin <$> qs ∧
     Forall (λ q, (0 ≤ q ≤ 1)%Qc) qs ∧ suma (Some <$> qs) = 1%Qc) ∧
  ((0 < suma (Some <$> (ResumenCategoria.Total_Ventas
                          <$> analizar_categorias df)))%Qc →
   ∃ qs,
     ResumenCategoria.Participacion <$> analizar_categorias df = Fin <$> qs ∧
     Forall (λ q, (0 ≤ q ≤ 1)%Qc) qs ∧ suma (Some <$> qs) = 1%Qc) ∧
  (Forall (λ v, ∀ x, Total_Venta v = Some x → round 2 x = x) df →
   (0 < suma (Total_Venta <$> df))%Qc →
   (Forall (λ v, is_Some (Sucursal v)) df →
    (0 < suma (Some <$> (ResumenSucursal.Total_Ventas
                           <$> analizar_ventas_por_sucursal df)))%Qc) ∧
   (Forall (λ v, is_Some (Categoría v)) df →
    (0 < suma (Some <$> (ResumenCategoria.Total_Ventas
                           <$> analizar_categorias df)))%Qc)).
Proof.
  intros Hdf. split; [|split]; [intros Ht|intros Ht|].
  3: { intros Hred Hs. split; intros Hkey.
       - rewrite total_resumen_sucursal. by apply total_resumen_positivo.
       - rewrite total_resumen_categoria. by apply total_resumen_positivo. }
  - set (l := analizar_ventas_por_sucursal df) in *.
    set (vs := ResumenSucursal.Total_Ventas <$> l) in *.
    assert (suma (Some <$> vs) ≠ 0%Qc) as Hne by (by apply not_eq_sym, Qclt_not_eq).
    assert (∀ r, r ∈ l →
      ResumenSucursal.Participacion r
        = dividir (ResumenSucursal.Total_Ventas r) (suma (Some <$> vs)) ∧
      (0 ≤ ResumenSucursal.Total_Ventas r)%Qc) as Hr.
    { intros r (k & _ & ->)%elem_of_analizar_ventas_por_sucursal. cbn.
      unfold vs, l. rewrite total_resumen_sucursal.
      split; [done | by apply ventas_grupo_nonneg]. }
    destruct (cuotas vs) as [Hq Hs]; [|done|].
    { apply Forall_fmap, Forall_forall. intros r Hin. by apply Hr. }
    set (t := suma (Some <$> vs)) in *.
    exists ((λ v, v / t)%Qc <$> vs). split; [|done].
    unfold vs. rewrite <- !list_fmap_compose. apply list_fmap_ext.
    intros i r Hi. cbn. apply list_elem_of_lookup_2 in Hi.
    destruct (Hr r Hi) as [-> _]. by apply dividir_Fin.
  - set (l := analizar_categorias df) in *.
    set (vs := ResumenCategoria.Total_Ventas <$> l) in *.
    assert (suma (Some <$> vs) ≠ 0%Qc) as Hne by (by apply not_eq_sym, Qclt_not_eq).
    assert (∀ r, r ∈ l →
      ResumenCategoria.Participacion r
        = dividir (ResumenCategoria.Total_Ventas r) (suma (Some <$> vs)) ∧
      (0 ≤ ResumenCategoria.Total_Ventas r)%Qc) as Hr.
    { intros r (k & _ & ->)%elem_of_analizar_categorias. cbn.
      unfold vs, l. rewrite total_resumen_categoria.
      split; [done | by apply ventas_grupo_nonneg]. }
    destruct (cuotas vs) as [Hq Hs]; [|done|].
    { apply Forall_fmap, Forall_forall. intros r Hin. by apply Hr. }
    set (t := suma (Some <$> vs)) in *.
    exists ((λ v, v / t)%Qc <$> vs). split; [|done].
    unfold vs. rewrite <- !list_fmap_compose. apply list_fmap_ext.
    intros i r Hi. cbn. apply list_elem_of_lookup_2 in Hi.
    destruct (Hr r Hi) as [-> _]. by apply dividir_Fin.
Qed.
End participacion.

(** ** The analysis calls and the table they receive *)

Section marco.
Context (parse : string → option Z).
Implicit Types (df : DataFrame) (v : Venta).

Lemma to_datetime_Ok col fechas :
  to_datetime parse col = Ok fechas → Forall2 (convertida parse) col fechas.
Proof.
  unfold to_datetime.
  destruct (mapM _ col) as [l|] eqn:Hm; [|done]. intros [= <-].
  apply mapM_Some in Hm. eapply Forall2_impl; [done|].
  intros [[t|s]|] f; cbn; [by intros [= <-]| |by intros [= <-]].
  destruct (parse s) as [t|]; cbn; [|done]. intros [= <-]. eauto.
Qed.

Lemma con_Fecha_misma v : con_Fecha (Fecha v) v = v.
Proof. by destruct v. Qed.

Lemma coercion_marco df fechas :
  Forall2 (λ v f, convertida parse (Fecha v) f) df fechas →
  let df' := zip_with (λ v f, con_Fecha (Timestamp <$> f) v) df fechas in
  length df' = length df ∧
  (∀ i v', df' !! i = Some v' →
     ∃ v, df !! i = Some v ∧ v' = con_Fecha (Fecha v') v ∧
       (Fecha v' = Fecha v ∨
        ∃ s t, Fecha v = Some (FechaTexto s) ∧ parse s = Some t ∧
               Fecha v' = Some (Timestamp t))) ∧
  (Forall (λ v, ∀ s, Fecha v ≠ Some (FechaTexto s)) df → df' = df).
Proof.
  induction 1 as [|v f df fechas Hv _ IH]; cbn zeta; [done|].
  destruct IH as (IH1 & IH2 & IH3). cbn [zip_with]. repeat split.
  - cbn. by f_equal.
  - intros [|i] v'; cbn; [|apply IH2].
    intros [= <-]. exists v. split; [done|]. split; [done|]. cbn.
    unfold convertida in Hv. destruct (Fecha v) as [[t|s]|].
    + left. by subst.
    + destruct Hv as (t & Hp & ->). right. eauto.
    + left. by subst.
  - intros [Hv' Hdf]%Forall_cons. rewrite IH3 by done. f_equal.
    unfold convertida in Hv. destruct v as [[[t|s]|] ???????]; cbn in *.
    + by subst.
    + by destruct (Hv' s).
    + by subst.
Qed.

(** C3, as the code has it.  The five functions that only read the table
    leave it as they received it.  [analizar_tendencia_temporal] assigns
    the [Fecha] column: afterwards the table has the same rows, every cell
    outside [Fecha] is unchanged, and a [Fecha] cell is unchanged or is the
    timestamp its text denotes; the table is unchanged when the call raises
    and when no [Fecha] cell holds text.  The six calls of [main], made one
    after the other on the same table, leave it as that one call does. *)
Theorem analisis_y_tabla_recibida df :
  (llamar_r calcular_estadisticas_generales df).2 = df ∧
  (llamar analizar_ventas_por_sucursal df).2 = df ∧
  (∀ top_n, (llamar (λ d, analizar_top_productos d top_n) df).2 = df) ∧
  (llamar analizar_vendedores df).2 = df ∧
  (llamar analizar_categorias df).2 = df ∧
  (analisis parse df).2
    = match calcular_estadisticas_generales df with
      | Ok _ => (analizar_tendencia_temporal parse df).2
      | Err _ => df
      end ∧
  let df' := (analizar_tendencia_temporal parse df).2 in
  length df' = length df ∧
  (∀ i v', df' !! i = Some v' →
     ∃ v, df !! i = Some v ∧ v' = con_Fecha (Fecha v') v ∧
       (Fecha v' = Fecha v ∨
        ∃ s t, Fecha v = Some (FechaTexto s) ∧ parse s = Some t ∧
               Fecha v' = Some (Timestamp t))) ∧
  (∀ e, (analizar_tendencia_temporal parse df).1 = Err e → df' = df) ∧
  (Forall (λ v, ∀ s, Fecha v ≠ Some (FechaTexto s)) df → df' = df).
Proof.
  do 5 (split; [done|]). split.
  { unfold analisis, llamar_r, llamar, mirando, mbind, Estado_bind, mret,
      Estado_ret.
    destruct (calcular_estadisticas_generales df); [|done].
    by destruct (analizar_tendencia_temporal parse df) as [[?|?] ?]. }
  cbn zeta. unfold analizar_tendencia_temporal.
  destruct (to_datetime parse (Fecha <$> df)) as [fechas|e] eqn:Ht; cbn [fst snd].
  - apply to_datetime_Ok in Ht. rewrite Forall2_fmap_l in Ht.
    destruct (coercion_marco df fechas Ht) as (H1 & H2 & H3).
    repeat split; try done.
  - repeat split; try done.
    intros i v' Hi. exists v'. split; [done|].
    split; [by rewrite con_Fecha_misma | by left].
Qed.
End marco.

(** ** Where two-decimal rounding is applied *)

Section redondeo_agregados.
Context (parse : string → option Z).
Implicit Types (df : DataFrame) (t : Tabla).

Lemma round_series_redondeada {K} (s : Series K) :
  Forall (λ kv, round 2 kv.2 = kv.2) (round_series 2 s).
Proof.
  unfold round_series. apply Forall_fmap, Forall_forall.
  intros [k x] _. cbn. apply round_idem.
Qed.

(** C6, as the code has it.  Rounded to two decimals when computed: every
    line total (quantity times unit price), the summed revenue of every
    branch, salesperson and category, the summed quantity of every category,
    the mean ticket of every salesperson, the revenue of the top products
    and the daily revenue.  Stored as computed, without rounding: the
    grand-total revenue and the mean transaction value of the general
    statistics, and the shares of the per-branch and per-category
    summaries. *)
Theorem redondeo_al_agregar t df top_n :
  Forall (λ v, Total_Venta v
               = round 2 <$> (c ← Cantidad v; p ← Precio_Unitario v;
                              Some (c * p)%Qc))
         (filas (calcular_Total_Venta t)) ∧
  Forall (λ v, ∀ x, Total_Venta v = Some x → round 2 x = x)
         (filas (calcular_Total_Venta t)) ∧
  Forall (λ r, round 2 (ResumenSucursal.Total_Ventas r)
               = ResumenSucursal.Total_Ventas r)
         (analizar_ventas_por_sucursal df) ∧
  Forall (λ r, round 2 (ResumenVendedor.Total_Ventas r)
                 = ResumenVendedor.Total_Ventas r ∧
               round_numero 2 (ResumenVendedor.Ticket_Promedio r)
                 = ResumenVendedor.Ticket_Promedio r)
         (analizar_vendedores df) ∧
  Forall (λ r, round 2 (ResumenCategoria.Total_Ventas r)
                 = ResumenCategoria.Total_Ventas r ∧
               round 2 (ResumenCategoria.Unidades_Vendidas r)
                 = ResumenCategoria.Unidades_Vendidas r)
         (analizar_categorias df) ∧
  Forall (λ kv, round 2 kv.2 = kv.2) (analizar_top_productos df top_n).2 ∧
  (∀ tendencia, (analizar_tendencia_temporal parse df).1 = Ok tendencia →
     Forall (λ kv, round 2 kv.2 = kv.2) tendencia) ∧
  (∀ stats, calcular_estadisticas_generales df = Ok stats →
     total_ventas stats = suma (Total_Venta <$> df) ∧
     ticket_promedio stats = mean (Total_Venta <$> df)) ∧
  Forall (λ r, ResumenSucursal.Participacion r
               = dividir (ResumenSucursal.Total_Ventas r)
                   (suma (Some <$> (ResumenSucursal.Total_Ventas
                                      <$> analizar_ventas_por_sucursal df))))
         (analizar_ventas_por_sucursal df) ∧
  Forall (λ r, ResumenCategoria.Participacion r
               = dividir (ResumenCategoria.Total_Ventas r)
                   (suma (Some <$> (ResumenCategoria.Total_Ventas
                                      <$> analizar_categorias df))))
         (analizar_categorias df).
Proof.
  repeat split.
  - cbn [calcular_Total_Venta filas]. apply Forall_fmap, Forall_forall.
    by intros v _.
  - cbn [calcular_Total_Venta filas]. apply Forall_fmap, Forall_forall.
    intros v _ x. cbn.
    destruct (Cantidad v ≫= _) as [y|]; cbn; [|done].
    intros [= <-]. apply round_idem.
  - apply Forall_forall.
    intros r (k & _ & ->)%elem_of_analizar_ventas_por_sucursal.
    apply round_idem.
  - apply Forall_forall. intros r (k & _ & ->)%elem_of_analizar_vendedores.
    split; [apply round_idem | apply round_numero_idem].
  - apply Forall_forall. intros r (k & _ & ->)%elem_of_analizar_categorias.
    split; apply round_idem.
  - apply round_series_redondeada.
  - intros tendencia. unfold analizar_tendencia_temporal.
    destruct (to_datetime _ _); cbn [fst]; [|done].
    intros [= <-]. apply round_series_redondeada.
  - unfold calcular_estadisticas_generales in H.
    destruct (min_fecha _), (max_fecha _); by simplify_eq/=.
  - unfold calcular_estadisticas_generales in H.
    destruct (min_fecha _), (max_fecha _); by simplify_eq/=.
  - apply Forall_forall.
    intros r (k & _ & ->)%elem_of_analizar_ventas_por_sucursal.
    by rewrite total_resumen_sucursal.
  - apply Forall_forall.
    intros r (k & _ & ->)%elem_of_analizar_categorias.
    by rewrite total_resumen_categoria.
Qed.
End redondeo_agregados.

(** ** Ingestion: what a return and what a failed load mean *)

Section lectura.
Implicit Types (d : Entrada) (t df : Tabla) (archivos : list Ruta).

(** The loop stops at the first file that does not load. *)
Lemma leer_cada_archivo_ilegible d requeridas pre a post e acc :
  Forall (λ a', ∃ t', pd.read_excel d a' = Ok t' ∧ tiene_columnas requeridas t')
         pre →
  pd.read_excel d a = Err e →
  leer_cada_archivo d requeridas (pre ++ a :: post) acc = Err e.
Proof.
  intros Hpre Ha. revert acc.
  induction Hpre as [|a' pre (t' & Ha' & Hc') _ IH]; intros acc.
  - cbn [app leer_cada_archivo]. by rewrite Ha.
  - cbn [app leer_cada_archivo]. rewrite Ha'. cbn [mbind resultado_bind].
    destruct requeridas as [[|c req]|]; cbn [mbind resultado_bind];
      [apply IH| |apply IH].
    pose proof (proj2 (columnas_faltantes_vacio _ _) (Hc' _ eq_refl)) as Hv.
    rewrite decide_False by (intros Hne; exact (Hne Hv)). apply IH.
Qed.

(** X1. A file that does not load ends the ingestion with the exception of the
    loader, whatever files come after it, provided the files before it load
    and are complete; in [main] the run ends with that exception and the
    output side of the disk is as it was. *)
Theorem leer_archivos_excel_archivo_ilegible parse matplotlib d (s : Salida)
    carpeta patron requeridas pre a post e :
  glob d carpeta patron = pre ++ a :: post →
  Forall (λ a', ∃ t', pd.read_excel d a' = Ok t' ∧ tiene_columnas requeridas t')
         pre →
  pd.read_excel d a = Err e →
  leer_archivos_excel d carpeta patron requeridas = Err e ∧
  (carpeta = INPUT_DIR → patron = "*.xlsx" →
   requeridas = Some COLUMNAS_REQUERIDAS →
   main parse matplotlib d s = (Err e, s)).
Proof.
  intros Hglob Hpre Ha.
  assert (leer_archivos_excel d carpeta patron requeridas = Err e) as Hleer.
  { unfold leer_archivos_excel.
    rewrite (glob_no_vacio_existe d carpeta patron)
      by (rewrite Hglob; by destruct pre).
    cbn [negb]. rewrite Hglob.
    rewrite (leer_cada_archivo_ilegible d requeridas pre a post e []) by done.
    by destruct pre. }
  split; [done|]. intros -> -> ->. by apply main_aborta_en_lectura.
Qed.

Lemma leer_cada_archivo_Ok_inv d requeridas archivos acc dfs :
  leer_cada_archivo d requeridas archivos acc = Ok dfs →
  ∃ tablas,
    dfs = acc ++ tablas ∧
    Forall2 (λ a t, pd.read_excel d a = Ok t) archivos tablas ∧
    Forall (tiene_columnas requeridas) tablas.
Proof.
  revert acc. induction archivos as [|a archivos IH]; intros acc.
  - intros [= <-]. exists []. by rewrite app_nil_r.
  - cbn [leer_cada_archivo].
    destruct (pd.read_excel d a) as [t|e] eqn:Ha; cbn [mbind resultado_bind];
      [|done].
    assert (∀ r, r = Ok () ∨ (∃ e, r = Err e) →
      (r = Ok () → tiene_columnas requeridas t) →
      (r ≫= λ _, leer_cada_archivo d requeridas archivos (acc ++ [t])) = Ok dfs →
      ∃ tablas, dfs = acc ++ tablas ∧
        Forall2 (λ a t, pd.read_excel d a = Ok t) (a :: archivos) tablas ∧
        Forall (tiene_columnas requeridas) tablas) as Hpaso.
    { intros r [->|[e ->]] Hc; cbn [mbind resultado_bind]; [|done].
      intros (tablas & -> & H2 & Hcols)%IH. exists (t :: tablas).
      rewrite <- app_assoc. repeat split; [by constructor|].
      constructor; [by apply Hc | done]. }
    destruct requeridas as [[|c req]|].
    + apply Hpaso; [by left|]. intros _ req [= <-]. by intros x ?%elem_of_nil.
    + apply Hpaso; [case_decide; eauto|].
      case_decide as Hdec; [done|]. intros _ req' [= <-].
      apply columnas_faltantes_vacio.
      destruct (decide (list_to_set (C := gset string) (c :: req)
                          ∖ list_to_set (columns t) = ∅)); [done|].
      by destruct Hdec.
    + apply Hpaso; [by left|]. by intros _ req.
Qed.

Lemma elem_of_union_columnas (dfs : list Tabla) c :
  c ∈ pd.union_columnas dfs ↔ ∃ t, t ∈ dfs ∧ c ∈ columns t.
Proof.
  unfold pd.union_columnas.
  assert (∀ acc, c ∈ foldl (λ acc df, acc ++ filter (λ c, c ∉ acc)
                                             (remove_dups (columns df)))
                        acc dfs
                 ↔ c ∈ acc ∨ ∃ t, t ∈ dfs ∧ c ∈ columns t) as Hgen.
  { induction dfs as [|t dfs IH]; intros acc; cbn [foldl].
    - split; [by left|]. intros [?|(t & Ht%elem_of_nil & _)]; done.
    - rewrite IH, elem_of_app, list_elem_of_filter, elem_of_remove_dups.
      split.
      + intros [[?|[_ ?]]|(t' & Ht' & Hc)]; [by left|right..].
        * exists t. split; [left | done].
        * exists t'. split; [by right | done].
      + intros [?|(t' & [->|Ht']%elem_of_cons & Hc)]; [by left; left| |].
        * left. destruct (decide (c ∈ acc)); [by left | by right].
        * right. eauto. }
  rewrite Hgen. split; [intros [?%elem_of_nil|?]; done | by right].
Qed.

Lemma leer_archivos_excel_Ok_inv d carpeta patron requeridas df :
  leer_archivos_excel d carpeta patron requeridas = Ok df →
  existe d carpeta = true ∧
  glob d carpeta patron ≠ [] ∧
  ∃ tablas,
    Forall2 (λ a t, pd.read_excel d a = Ok t) (glob d carpeta patron) tablas ∧
    Forall (tiene_columnas requeridas) tablas ∧
    filas df = mjoin (filas <$> tablas) ∧
    (∀ c, c ∈ columns df ↔ ∃ t, t ∈ tablas ∧ c ∈ columns t) ∧
    (∀ req, requeridas = Some req → req ⊆ columns df).
Proof.
  unfold leer_archivos_excel.
  destruct (existe d carpeta); cbn [negb]; [|done].
  destruct (glob d carpeta patron) as [|a archivos] eqn:Hglob; [done|].
  destruct (leer_cada_archivo _ _ _ _) as [dfs|e] eqn:Hl;
    cbn [mbind resultado_bind]; [|done].
  apply leer_cada_archivo_Ok_inv in Hl as (tablas & -> & Hread & Hcols).
  cbn [app]. intros Hdf. split; [done|]. split; [done|].
  exists tablas. split; [done|]. split; [done|].
  destruct tablas as [|t tablas]; [by apply Forall2_nil_inv_r in Hread|].
  injection Hdf as <-. cbn [filas columns].
  split; [done|]. split; [apply elem_of_union_columnas|].
  intros req Hreq c Hc. apply elem_of_union_columnas.
  exists t. split; [left|]. apply Forall_cons in Hcols as [Ht _].
  by apply (Ht req Hreq).
Qed.

(** X2. [leer_archivos_excel] returns a table only if the directory exists, the
    pattern matches at least one file, and every matched file loads and has
    every required column.  The table then holds the rows of the files, one
    file after the other; its header is the union of their headers, and
    every required column is in it. *)
Theorem leer_archivos_excel_solo_si_todo_carga d carpeta patron requeridas df :
  leer_archivos_excel d carpeta patron requeridas = Ok df →
  existe d carpeta = true ∧
  glob d carpeta patron ≠ [] ∧
  ∃ tablas,
    Forall2 (λ a t, pd.read_excel d a = Ok t) (glob d carpeta patron) tablas ∧
    Forall (tiene_columnas requeridas) tablas ∧
    filas df = mjoin (filas <$> tablas) ∧
    (∀ c, c ∈ columns df ↔ ∃ t, t ∈ tablas ∧ c ∈ columns t) ∧
    (∀ req, requeridas = Some req → req ⊆ columns df).
Proof. apply leer_archivos_excel_Ok_inv. Qed.
End lectura.

(** ** The groups as a partition of the table *)

Section particion.
Context {K : Type} `{EqDecision K}.
Implicit Types (clave : Venta → option K) (df : DataFrame) (ks : list K).

Lemma mjoin_cons {A} (x : list A) (ls : list (list A)) :
  mjoin (x :: ls) = x ++ mjoin ls.
Proof. done. Qed.

Lemma filter_ninguno {A} (P : A → Prop) `{∀ x, Decision (P x)} (l : list A) :
  Forall (λ x, ¬ P x) l → filter P l = [].
Proof.
  induction 1 as [|x l Hx _ IH]; [done|].
  by rewrite filter_cons, decide_False by done.
Qed.

Lemma filter_todos {A} (P : A → Prop) `{∀ x, Decision (P x)} (l : list A) :
  Forall P l → filter P l = l.
Proof.
  induction 1 as [|x l Hx _ IH]; [done|].
  by rewrite filter_cons, decide_True, IH by done.
Qed.

Lemma filter_segun {A} (P Q : A → Prop) `{∀ x, Decision (P x)}
    `{∀ x, Decision (Q x)} (l : list A) :
  Forall (λ x, P x ↔ Q x) l → filter P l = filter Q l.
Proof.
  induction 1 as [|x l Hx _ IH]; [done|].
  rewrite !filter_cons, IH.
  destruct (decide (P x)), (decide (Q x)); try done; exfalso; tauto.
Qed.

Lemma filter_length_todos {A} (P : A → Prop) `{∀ x, Decision (P x)}
    (l : list A) :
  length (filter P l) = length l ↔ Forall P l.
Proof.
  split; [|intros HP; by rewrite filter_todos].
  intros Hlen. apply Forall_forall. intros x Hx.
  destruct (decide (P x)) as [|Hn]; [done|].
  pose proof (filter_length_lt P l x Hx Hn). lia.
Qed.

(** The groups of distinct keys, put one after the other, are the rows that
    bear one of those keys. *)
Lemma grupos_particion clave ks df :
  NoDup ks →
  mjoin ((λ k, grupo clave k df) <$> ks)
  ≡ₚ filter (λ v, clave v ∈ Some <$> ks) df.
Proof.
  induction 1 as [|k ks Hk _ IH].
  - rewrite filter_ninguno; [done|].
    apply Forall_forall. intros v _ Hin. by apply elem_of_nil in Hin.
  - rewrite !fmap_cons, mjoin_cons, IH. clear IH. unfold grupo.
    induction df as [|v df IHdf]; [done|].
    rewrite !filter_cons.
    destruct (decide (clave v = Some k)) as [Hv|Hv].
    + rewrite (decide_True (P := clave v ∈ Some k :: (Some <$> ks)))
        by (rewrite Hv; left).
      rewrite (decide_False (P := clave v ∈ Some <$> ks)).
      2: { rewrite Hv. by intros (k' & [= <-] & Hin)%list_elem_of_fmap. }
      cbn [app]. by rewrite IHdf.
    + destruct (decide (clave v ∈ Some <$> ks)) as [Hin|Hin].
      * rewrite (decide_True (P := clave v ∈ Some k :: (Some <$> ks)))
          by (by right).
        by rewrite <- Permutation_middle, IHdf.
      * rewrite (decide_False (P := clave v ∈ Some k :: (Some <$> ks)));
          [done|].
        by intros [?|?]%elem_of_cons.
Qed.

Context (le : relation K) `{RelDecision K K le}.

(** The groups of [groupby] are, together, the rows with a key. *)
Lemma grupos_de_claves clave df :
  mjoin ((λ k, grupo clave k df) <$> (groupby le clave df).*1)
  ≡ₚ filter (λ v, is_Some (clave v)) df.
Proof.
  rewrite grupos_particion by apply (NoDup_claves le).
  rewrite (filter_segun _ (λ v, is_Some (clave v))); [done|].
  apply Forall_forall. intros v Hv. split.
  - intros (k & -> & _)%list_elem_of_fmap. eauto.
  - intros [k Hk]. rewrite Hk. apply list_elem_of_fmap_2.
    apply (elem_of_claves le). eauto.
Qed.
End particion.

Section conservacion.
Implicit Types (df g : DataFrame) (l : list (option Qc)).

Lemma suma_app l1 l2 : suma (l1 ++ l2) = (suma l1 + suma l2)%Qc.
Proof.
  unfold suma. induction l1 as [|[q|] l1 IH]; cbn; [ring| |done].
  rewrite IH. ring.
Qed.

Lemma suma_join {A} (col : A → option Qc) (ls : list (list A)) :
  suma (col <$> mjoin ls) = suma (Some <$> ((λ x, suma (col <$> x)) <$> ls)).
Proof.
  induction ls as [|x ls IH]; [done|].
  by rewrite fmap_cons, mjoin_cons, fmap_app, suma_app, IH.
Qed.

Lemma count_app {A} (l1 l2 : list (option A)) :
  count (l1 ++ l2) = (count l1 + count l2)%nat.
Proof. unfold count. by rewrite omap_app, length_app. Qed.

Lemma count_join {A B} (f : A → option B) (ls : list (list A)) :
  count (f <$> mjoin ls) = sum_list ((λ x, count (f <$> x)) <$> ls).
Proof.
  induction ls as [|x ls IH]; [done|].
  by rewrite fmap_cons, mjoin_cons, fmap_app, count_app, IH.
Qed.

Lemma sum_list_Permutation (l1 l2 : list nat) :
  l1 ≡ₚ l2 → sum_list l1 = sum_list l2.
Proof. induction 1; cbn; lia. Qed.

Lemma omap_id_fmap {A B} (f : A → option B) (l : list A) :
  omap id (f <$> l) = omap f l.
Proof. induction l as [|x l IH]; [done|]. csimpl. by rewrite IH. Qed.

(** A number is a fixed point of the rounding exactly when it is a whole
    number of units of the last decimal. *)
Lemma round_fijo decimals (x : Qc) :
  round decimals x = x
  ↔ ∃ k : Z, x = (Qc_of_Z k / Qc_of_Z (10 ^ Z.of_nat decimals))%Qc.
Proof.
  split.
  - intros Hx. exists (rint (x * Qc_of_Z (10 ^ Z.of_nat decimals))).
    by rewrite <- Hx at 1.
  - intros [k ->]. unfold round.
    pose proof (escala_no_nula decimals) as Hm.
    set (m := Qc_of_Z (10 ^ Z.of_nat decimals)) in *.
    replace (Qc_of_Z k / m * m)%Qc with (Qc_of_Z k) by (by field).
    by rewrite rint_Qc_of_Z.
Qed.

Lemma round_fijo_mas decimals (x y : Qc) :
  round decimals x = x → round decimals y = y →
  round decimals (x + y) = (x + y)%Qc.
Proof.
  rewrite !round_fijo. intros [k ->] [k' ->]. exists (k + k')%Z.
  pose proof (escala_no_nula decimals) as Hm.
  rewrite Z2Qc_inj_add. by field.
Qed.

(** A sum of rounded amounts needs no rounding. *)
Lemma suma_redondeada decimals l :
  Forall (λ c, ∀ q, c = Some q → round decimals q = q) l →
  round decimals (suma l) = suma l.
Proof.
  unfold suma. induction 1 as [|[q|] l Hq _ IH]; cbn; [apply round_0| |done].
  apply round_fijo_mas; [by apply Hq | done].
Qed.

Lemma ventas_grupo_exacto {K} `{EqDecision K} (clave : Venta → option K) k df :
  Forall (λ v, ∀ x, Total_Venta v = Some x → round 2 x = x) df →
  ventas_grupo clave k df = suma (Total_Venta <$> grupo clave k df).
Proof.
  intros Hdf. apply suma_redondeada, Forall_fmap, Forall_forall.
  intros v [_ Hv]%list_elem_of_filter. rewrite Forall_forall in Hdf.
  exact (Hdf v Hv).
Qed.

(** With rounded line totals, the revenue column of a summary adds up to the
    revenue of the rows that have a key. *)
Lemma total_resumen_exacto (clave : Venta → option string) df :
  Forall (λ v, ∀ x, Total_Venta v = Some x → round 2 x = x) df →
  total_resumen clave df
  = suma (Total_Venta <$> filter (λ v, is_Some (clave v)) df).
Proof.
  intros Hdf. unfold total_resumen.
  assert ((λ k, ventas_grupo clave k df) <$> claves clave df
          = (λ k, suma (Total_Venta <$> grupo clave k df)) <$> claves clave df)
    as ->.
  { apply list_fmap_ext. intros i k _. by apply ventas_grupo_exacto. }
  transitivity
    (suma (Some <$> ((λ g, suma (Total_Venta <$> g))
                       <$> ((λ k, grupo clave k df) <$> claves clave df)))).
  { rewrite <- !list_fmap_compose. reflexivity. }
  rewrite <- suma_join. apply suma_Permutation, fmap_Permutation.
  apply (grupos_de_claves String.le).
Qed.

Lemma total_resumen_vendedor df :
  suma (Some <$> (ResumenVendedor.Total_Ventas <$> analizar_vendedores df))
  = total_resumen Vendedor df.
Proof.
  rewrite analizar_vendedores_forma. unfold total_resumen.
  apply suma_Permutation. rewrite sort_values_desc_Permutation.
  by rewrite <- !list_fmap_compose.
Qed.

Lemma estadisticas_Ok df stats :
  calcular_estadisticas_generales df = Ok stats →
  total_ventas stats = suma (Total_Venta <$> df) ∧
  total_transacciones stats = length df ∧
  ticket_promedio stats = mean (Total_Venta <$> df) ∧
  num_sucursales stats = nunique (Sucursal <$> df) ∧
  num_vendedores stats = nunique (Vendedor <$> df) ∧
  num_productos stats = nunique (Producto <$> df).
Proof.
  unfold calcular_estadisticas_generales.
  destruct (min_fecha _), (max_fecha _); cbn [mbind resultado_bind]; [|done..].
  by intros [= <-].
Qed.

(** X4. The revenue column of each grouped summary adds up to the revenue of the
    rows that have a key of that grouping; when every row has one, to the
    grand total of the general statistics.  The line totals are assumed
    rounded to two decimals, as [main] computes them. *)
Theorem ingresos_por_grupo_y_total df stats :
  Forall (λ v, ∀ x, Total_Venta v = Some x → round 2 x = x) df →
  calcular_estadisticas_generales df = Ok stats →
  (suma (Some <$> (ResumenSucursal.Total_Ventas
                     <$> analizar_ventas_por_sucursal df))
     = suma (Total_Venta <$> filter (λ v, is_Some (Sucursal v)) df) ∧
   suma (Some <$> (ResumenVendedor.Total_Ventas <$> analizar_vendedores df))
     = suma (Total_Venta <$> filter (λ v, is_Some (Vendedor v)) df) ∧
   suma (Some <$> (ResumenCategoria.Total_Ventas <$> analizar_categorias df))
     = suma (Total_Venta <$> filter (λ v, is_Some (Categoría v)) df)) ∧
  (Forall (λ v, is_Some (Sucursal v)) df →
   suma (Some <$> (ResumenSucursal.Total_Ventas
                     <$> analizar_ventas_por_sucursal df))
     = total_ventas stats) ∧
  (Forall (λ v, is_Some (Vendedor v)) df →
   suma (Some <$> (ResumenVendedor.Total_Ventas <$> analizar_vendedores df))
     = total_ventas stats) ∧
  (Forall (λ v, is_Some (Categoría v)) df →
   suma (Some <$> (ResumenCategoria.Total_Ventas <$> analizar_categorias df))
     = total_ventas stats).
Proof.
  intros Hdf (Ht & _)%estadisticas_Ok.
  rewrite total_resumen_sucursal, total_resumen_vendedor,
    total_resumen_categoria, !total_resumen_exacto, Ht by done.
  repeat split; try done; intros Hk; by rewrite filter_todos.
Qed.

Lemma transacciones_suma (clave : Venta → option string) df :
  sum_list ((λ k, count (Fecha <$> grupo clave k df)) <$> claves clave df)
  = length (filter (λ v, is_Some (Fecha v) ∧ is_Some (clave v)) df).
Proof.
  transitivity
    (sum_list ((λ g, count (Fecha <$> g))
                 <$> ((λ k, grupo clave k df) <$> claves clave df))).
  { rewrite <- !list_fmap_compose. reflexivity. }
  rewrite <- count_join, count_filter, <- list_filter_filter.
  unfold claves. by rewrite (grupos_de_claves String.le).
Qed.

Lemma transacciones_sucursal_suma df :
  sum_list (ResumenSucursal.Transacciones <$> analizar_ventas_por_sucursal df)
  = length (filter (λ v, is_Some (Fecha v) ∧ is_Some (Sucursal v)) df).
Proof.
  rewrite <- transacciones_suma, analizar_ventas_por_sucursal_forma.
  rewrite (sum_list_Permutation _
             (ResumenSucursal.Transacciones
                <$> (fila_sucursal df <$> claves Sucursal df)))
    by (by rewrite sort_values_desc_Permutation).
  by rewrite <- list_fmap_compose.
Qed.

Lemma transacciones_vendedor_suma df :
  sum_list (ResumenVendedor.Transacciones <$> analizar_vendedores df)
  = length (filter (λ v, is_Some (Fecha v) ∧ is_Some (Vendedor v)) df).
Proof.
  rewrite <- transacciones_suma, analizar_vendedores_forma.
  rewrite (sum_list_Permutation _
             (ResumenVendedor.Transacciones
                <$> (fila_vendedor df <$> claves Vendedor df)))
    by (by rewrite sort_values_desc_Permutation).
  by rewrite <- list_fmap_compose.
Qed.

(** X5. The transaction counts of the per-branch (per-salesperson) summary add
    up to the number of rows that have both a date and a branch (a
    salesperson).  They never exceed the transaction count of the general
    statistics, which counts every row, and they reach it exactly when no
    row lacks its date or its branch (its salesperson). *)
Theorem transacciones_por_grupo_y_total df stats :
  calcular_estadisticas_generales df = Ok stats →
  let por_sucursal :=
    sum_list (ResumenSucursal.Transacciones
                <$> analizar_ventas_por_sucursal df) in
  let por_vendedor :=
    sum_list (ResumenVendedor.Transacciones <$> analizar_vendedores df) in
  por_sucursal
    = length (filter (λ v, is_Some (Fecha v) ∧ is_Some (Sucursal v)) df) ∧
  por_vendedor
    = length (filter (λ v, is_Some (Fecha v) ∧ is_Some (Vendedor v)) df) ∧
  (por_sucursal ≤ total_transacciones stats)%nat ∧
  (por_vendedor ≤ total_transacciones stats)%nat ∧
  (por_sucursal = total_transacciones stats
   ↔ Forall (λ v, is_Some (Fecha v) ∧ is_Some (Sucursal v)) df) ∧
  (por_vendedor = total_transacciones stats
   ↔ Forall (λ v, is_Some (Fecha v) ∧ is_Some (Vendedor v)) df).
Proof.
  intros (_ & Hn & _)%estadisticas_Ok. cbn zeta.
  rewrite transacciones_sucursal_suma, transacciones_vendedor_suma, Hn.
  repeat split; try apply length_filter; try apply filter_length_todos.
Qed.

Lemma length_claves (clave : Venta → option string) df :
  length (claves clave df) = nunique (clave <$> df).
Proof.
  unfold claves, nunique.
  by rewrite (groupby_claves String.le), merge_sort_Permutation, omap_id_fmap.
Qed.

Lemma claves_sucursal df :
  ResumenSucursal.Sucursal <$> analizar_ventas_por_sucursal df
  ≡ₚ claves Sucursal df.
Proof.
  rewrite analizar_ventas_por_sucursal_forma, sort_values_desc_Permutation.
  rewrite <- list_fmap_compose. by rewrite <- (list_fmap_id (claves _ _)) at 2.
Qed.

Lemma claves_vendedor df :
  ResumenVendedor.Vendedor <$> analizar_vendedores df ≡ₚ claves Vendedor df.
Proof.
  rewrite analizar_vendedores_forma, sort_values_desc_Permutation.
  rewrite <- list_fmap_compose. by rewrite <- (list_fmap_id (claves _ _)) at 2.
Qed.

Lemma claves_categoria df :
  ResumenCategoria.Categoría <$> analizar_categorias df
  ≡ₚ claves Categoría df.
Proof.
  rewrite analizar_categorias_forma, sort_values_desc_Permutation.
  rewrite <- list_fmap_compose. by rewrite <- (list_fmap_id (claves _ _)) at 2.
Qed.

(** X6. Each grouped summary has one row for each distinct non-null value of its
    key column and no other row; the per-branch and per-salesperson summaries
    have as many rows as the general statistics count branches and
    salespersons. *)
Theorem una_fila_por_clave df stats :
  calcular_estadisticas_generales df = Ok stats →
  (length (analizar_ventas_por_sucursal df) = num_sucursales stats ∧
   NoDup (ResumenSucursal.Sucursal <$> analizar_ventas_por_sucursal df) ∧
   ∀ k, k ∈ ResumenSucursal.Sucursal <$> analizar_ventas_por_sucursal df
        ↔ ∃ v, v ∈ df ∧ Sucursal v = Some k) ∧
  (length (analizar_vendedores df) = num_vendedores stats ∧
   NoDup (ResumenVendedor.Vendedor <$> analizar_vendedores df) ∧
   ∀ k, k ∈ ResumenVendedor.Vendedor <$> analizar_vendedores df
        ↔ ∃ v, v ∈ df ∧ Vendedor v = Some k) ∧
  (length (analizar_categorias df) = nunique (Categoría <$> df) ∧
   NoDup (ResumenCategoria.Categoría <$> analizar_categorias df) ∧
   ∀ k, k ∈ ResumenCategoria.Categoría <$> analizar_categorias df
        ↔ ∃ v, v ∈ df ∧ Categoría v = Some k).
Proof.
  intros (_ & _ & _ & Hs & Hv & _)%estadisticas_Ok. rewrite Hs, Hv.
  rewrite <- !length_claves.
  split; [|split]; (split; [|split]).
  - by rewrite <- (length_fmap ResumenSucursal.Sucursal), claves_sucursal.
  - rewrite claves_sucursal. apply (NoDup_claves String.le).
  - intros k. rewrite claves_sucursal. apply (elem_of_claves String.le).
  - by rewrite <- (length_fmap ResumenVendedor.Vendedor), claves_vendedor.
  - rewrite claves_vendedor. apply (NoDup_claves String.le).
  - intros k. rewrite claves_vendedor. apply (elem_of_claves String.le).
  - by rewrite <- (length_fmap ResumenCategoria.Categoría), claves_categoria.
  - rewrite claves_categoria. apply (NoDup_claves String.le).
  - intros k. rewrite claves_categoria. apply (elem_of_claves String.le).
Qed.
End conservacion.

(** ** The top products *)

Section top_productos.
Implicit Types (df : DataFrame).

Lemma elem_of_nlargest {A} (valor : A → Qc) n (l : list A) a :
  a ∈ nlargest valor n l → a ∈ l.
Proof.
  unfold nlargest. intros (i & Hi & _)%elem_of_take.
  rewrite <- (sort_values_desc_Permutation valor l).
  by eapply list_elem_of_lookup_2.
Qed.

(** What [nlargest] leaves out is no larger than what it keeps. *)
Lemma nlargest_cola {A} (valor : A → Qc) n (l : list A) a b :
  a ∈ nlargest valor n l → b ∈ l → b ∉ nlargest valor n l →
  (valor b ≤ valor a)%Qc.
Proof.
  unfold nlargest. intros Ha Hb Hnb.
  pose proof (sort_values_desc_sorted valor _ l (StronglySorted_True_l l)) as Hs.
  rewrite <- (sort_values_desc_Permutation valor l) in Hb.
  rewrite <- (take_drop (Z.to_nat n) (sort_values_desc valor l)) in Hb, Hs.
  apply elem_of_app in Hb as [?|Hb]; [done|].
  eapply antes_le. exact (StronglySorted_app_1_elem_of _ _ _ _ _ Hs Ha Hb).
Qed.

Lemma length_nlargest {A} (valor : A → Qc) n (l : list A) :
  length (nlargest valor n l) = (Z.to_nat n `min` length l)%nat.
Proof.
  unfold nlargest. by rewrite length_take, sort_values_desc_Permutation.
Qed.

Lemma round_series_claves {K} decimals (s : Series K) :
  (round_series decimals s).*1 = s.*1.
Proof.
  unfold round_series. rewrite <- list_fmap_compose.
  apply list_fmap_ext. by intros i [k x] _.
Qed.

Lemma elem_of_round_series {K} decimals (s : Series K) k x :
  (k, x) ∈ round_series decimals s
  ↔ ∃ y, (k, y) ∈ s ∧ x = round decimals y.
Proof.
  unfold round_series. rewrite list_elem_of_fmap. split.
  - intros ([k' y] & [= -> ->] & Hin). eauto.
  - intros (y & Hin & ->). by exists (k, y).
Qed.

Lemma groupby_sum_claves (clave : Venta → option string) col df :
  (groupby_sum String.le clave col df).*1 = claves clave df.
Proof.
  rewrite groupby_sum_forma, <- list_fmap_compose.
  by rewrite <- (list_fmap_id (claves _ _)) at 2.
Qed.

Lemma elem_of_groupby_sum (clave : Venta → option string) col df k x :
  (k, x) ∈ groupby_sum String.le clave col df
  ↔ (∃ v, v ∈ df ∧ clave v = Some k) ∧ x = suma (col <$> grupo clave k df).
Proof.
  rewrite groupby_sum_forma, list_elem_of_fmap. split.
  - intros (k' & [= -> ->] & Hk). split; [|done].
    by apply (elem_of_claves String.le).
  - intros [Hk ->]. exists k. split; [done|].
    by apply (elem_of_claves String.le).
Qed.

(** X8. Each entry of a top list is a product of the table with its summed
    quantity (its summed revenue, rounded), and a product of the table that
    is left out of a top list has no more than any product listed in it. *)
Theorem top_productos_son_los_mayores df top_n :
  (∀ k x, (k, x) ∈ (analizar_top_productos df top_n).1 →
     (∃ v, v ∈ df ∧ Producto v = Some k) ∧
     x = suma (Cantidad <$> grupo Producto k df)) ∧
  (∀ k x, (k, x) ∈ (analizar_top_productos df top_n).2 →
     (∃ v, v ∈ df ∧ Producto v = Some k) ∧
     x = round 2 (suma (Total_Venta <$> grupo Producto k df))) ∧
  (∀ k v k' x', v ∈ df → Producto v = Some k →
     k ∉ (analizar_top_productos df top_n).1.*1 →
     (k', x') ∈ (analizar_top_productos df top_n).1 →
     (suma (Cantidad <$> grupo Producto k df) ≤ x')%Qc) ∧
  (∀ k v k' x', v ∈ df → Producto v = Some k →
     k ∉ (analizar_top_productos df top_n).2.*1 →
     (k', x') ∈ (analizar_top_productos df top_n).2 →
     (round 2 (suma (Total_Venta <$> grupo Producto k df)) ≤ x')%Qc).
Proof.
  unfold analizar_top_productos. cbn [fst snd].
  split; [|split; [|split]].
  - intros k x Hin%elem_of_nlargest. by apply elem_of_groupby_sum.
  - intros k x (y & Hin%elem_of_nlargest & ->)%elem_of_round_series.
    apply elem_of_groupby_sum in Hin as [Hk ->]. done.
  - intros k v k' x' Hv Hk Hout Hin.
    eapply (nlargest_cola snd _ _ (k', x')
              (k, suma (Cantidad <$> grupo Producto k df))); [exact Hin| |].
    + apply elem_of_groupby_sum. eauto.
    + intros Hk'. apply Hout. by apply (list_elem_of_fmap_2 fst) in Hk'.
  - intros k v k' x' Hv Hk Hout
      (y & Hin & ->)%elem_of_round_series.
    apply round_mono.
    eapply (nlargest_cola snd _ _ (k', y)
              (k, suma (Total_Venta <$> grupo Producto k df))); [exact Hin| |].
    + apply elem_of_groupby_sum. eauto.
    + intros Hk'. apply Hout. rewrite round_series_claves.
      by apply (list_elem_of_fmap_2 fst) in Hk'.
Qed.
End top_productos.

(** ** Quotients: shares and mean tickets *)

Section cocientes.
Implicit Types (df : DataFrame).

Lemma dividir_por_cero (a : Qc) :
  dividir a 0 = if decide (a = 0%Qc) then NaN else Inf (bool_decide (a < 0)%Qc).
Proof. unfold dividir. by rewrite decide_True. Qed.

Lemma participacion_sucursal df r :
  r ∈ analizar_ventas_por_sucursal df →
  ResumenSucursal.Participacion r
  = dividir (ResumenSucursal.Total_Ventas r)
      (suma (Some <$> (ResumenSucursal.Total_Ventas
                         <$> analizar_ventas_por_sucursal df))).
Proof.
  intros (k & _ & ->)%elem_of_analizar_ventas_por_sucursal.
  by rewrite total_resumen_sucursal.
Qed.

Lemma participacion_categoria df r :
  r ∈ analizar_categorias df →
  ResumenCategoria.Participacion r
  = dividir (ResumenCategoria.Total_Ventas r)
      (suma (Some <$> (ResumenCategoria.Total_Ventas
                         <$> analizar_categorias df))).
Proof.
  intros (k & _ & ->)%elem_of_analizar_categorias.
  by rewrite total_resumen_categoria.
Qed.

Lemma suma_ceros (l : list (option Qc)) :
  Forall (λ c, c = None ∨ c = Some 0%Qc) l → suma l = 0%Qc.
Proof.
  induction 1 as [|c l [->| ->] _ IH]; [done|exact IH|].
  by rewrite suma_cons_Some, IH, Qcplus_0_l.
Qed.

Lemma ventas_grupo_sin_ingresos (clave : Venta → option string) k df :
  Forall (λ v, Total_Venta v = None ∨ Total_Venta v = Some 0%Qc) df →
  ventas_grupo clave k df = 0%Qc.
Proof.
  intros Hdf. unfold ventas_grupo, grupo.
  rewrite suma_ceros; [apply round_0|].
  apply Forall_fmap, Forall_forall. intros v [_ Hv]%list_elem_of_filter.
  rewrite Forall_forall in Hdf. by apply Hdf.
Qed.

Lemma total_resumen_sin_ingresos (clave : Venta → option string) df :
  Forall (λ v, Total_Venta v = None ∨ Total_Venta v = Some 0%Qc) df →
  total_resumen clave df = 0%Qc.
Proof.
  intros Hdf. unfold total_resumen. apply suma_ceros.
  apply Forall_fmap, Forall_fmap, Forall_forall. intros k _. cbn.
  right. f_equal. by apply ventas_grupo_sin_ingresos.
Qed.

(** X9. A table without revenue: when every line total is zero or blank,
    the per-branch and the per-category summary still have their row for
    each branch and each category, with a revenue of zero, and every share
    is [NaN]: the division by the zero total raises nothing. *)
Theorem participacion_sin_ingresos df :
  Forall (λ v, Total_Venta v = None ∨ Total_Venta v = Some 0%Qc) df →
  (∀ k, k ∈ claves Sucursal df →
     ∃ r, r ∈ analizar_ventas_por_sucursal df ∧
          ResumenSucursal.Sucursal r = k) ∧
  Forall (λ r, ResumenSucursal.Total_Ventas r = 0%Qc ∧
               ResumenSucursal.Participacion r = NaN)
         (analizar_ventas_por_sucursal df) ∧
  (∀ k, k ∈ claves Categoría df →
     ∃ r, r ∈ analizar_categorias df ∧ ResumenCategoria.Categoría r = k) ∧
  Forall (λ r, ResumenCategoria.Total_Ventas r = 0%Qc ∧
               ResumenCategoria.Participacion r = NaN)
         (analizar_categorias df).
Proof.
  intros Hdf. split; [|split; [|split]].
  - intros k Hk. exists (fila_sucursal df k).
    split; [|done]. apply elem_of_analizar_ventas_por_sucursal. eauto.
  - apply Forall_forall.
    intros r (k & _ & ->)%elem_of_analizar_ventas_por_sucursal. cbn.
    rewrite ventas_grupo_sin_ingresos, total_resumen_sin_ingresos by done.
    split; [done|]. by rewrite dividir_por_cero, decide_True.
  - intros k Hk. exists (fila_categoria df k).
    split; [|done]. apply elem_of_analizar_categorias. eauto.
  - apply Forall_forall.
    intros r (k & _ & ->)%elem_of_analizar_categorias. cbn.
    rewrite ventas_grupo_sin_ingresos, total_resumen_sin_ingresos by done.
    split; [done|]. by rewrite dividir_por_cero, decide_True.
Qed.

(** X10. The mean ticket of a salesperson divides the revenue as stored,
    that is already rounded, by the number of the salesperson's rows that
    have a date, not by the number of rows, and is rounded to cents
    again: it lies within half a cent of that quotient.  A salesperson none
    of whose rows has a date has a count of zero and a mean ticket that is
    no number: [NaN] without revenue, an infinity otherwise; no exception is
    raised. *)
Theorem ticket_promedio_por_vendedor df r :
  r ∈ analizar_vendedores df →
  let n := ResumenVendedor.Transacciones r in
  let ventas := ResumenVendedor.Total_Ventas r in
  (n = length (filter (λ v, is_Some (Fecha v))
                 (grupo Vendedor (ResumenVendedor.Vendedor r) df))) ∧
  (n = 0%nat
   ↔ Forall (λ v, Fecha v = None)
        (grupo Vendedor (ResumenVendedor.Vendedor r) df)) ∧
  (n ≠ 0%nat →
   ∃ t, ResumenVendedor.Ticket_Promedio r = Fin t ∧
     (t - ventas / Qc_of_Z (Z.of_nat n) ≤ qc 1 200)%Qc ∧
     (ventas / Qc_of_Z (Z.of_nat n) - t ≤ qc 1 200)%Qc) ∧
  (n = 0%nat →
   ResumenVendedor.Ticket_Promedio r
   = if decide (ventas = 0%Qc) then NaN
     else Inf (bool_decide (ventas < 0)%Qc)).
Proof.
  intros (k & _ & ->)%elem_of_analizar_vendedores. cbn.
  set (g := grupo Vendedor k df).
  split; [by rewrite count_filter|]. split; [|split].
  - rewrite count_filter. split.
    + intros Hn. apply Forall_forall. intros v Hv.
      destruct (Fecha v) as [f|] eqn:Hf; [|done].
      assert (v ∈ filter (λ w, is_Some (Fecha w)) g) as Hin
        by (apply list_elem_of_filter; split; [by rewrite Hf|done]).
      apply length_zero_iff_nil in Hn. rewrite Hn in Hin.
      by apply elem_of_nil in Hin.
    + intros Hg. rewrite filter_ninguno; [done|].
      eapply Forall_impl; [exact Hg|]. intros v -> [? ?]. done.
  - intros Hn. rewrite dividir_Fin.
    2: { rewrite <- Z2Qc_inj_0. intros Hq%Z2Qc_inj. lia. }
    eexists. split; [done|]. apply round_cerca.
  - intros Hn. rewrite Hn. change (Z.of_nat 0) with 0%Z.
    rewrite Z2Qc_inj_0, dividir_por_cero. by case_decide.
Qed.
End cocientes.

(** ** The daily series *)

Section tendencia.
Context (parse : string → option Z).
Implicit Types (df : DataFrame) (v : Venta).

Lemma groupby_sum_fmap {K} `{EqDecision K} (le : relation K)
    `{RelDecision K K le} (clave clave' : Venta → option K)
    (col col' : Venta → option Qc) (f : Venta → Venta) df :
  (∀ v, clave (f v) = clave' v) → (∀ v, col (f v) = col' v) →
  groupby_sum le clave col (f <$> df) = groupby_sum le clave' col' df.
Proof.
  intros Hk Hc. unfold groupby_sum, groupby.
  rewrite <- !list_fmap_compose.
  assert (omap clave (f <$> df) = omap clave' df) as ->.
  { induction df as [|v df IH]; [done|]. csimpl. by rewrite Hk, IH. }
  apply list_fmap_ext. intros i k _. cbn. f_equal.
  induction df as [|v df IH]; [done|].
  rewrite fmap_cons, !filter_cons, Hk.
  case_decide; [|done]. rewrite !fmap_cons, Hc. unfold suma in *. cbn.
  by rewrite IH.
Qed.

Lemma to_datetime_instante df :
  Forall (λ v, ∀ s, Fecha v = Some (FechaTexto s) → is_Some (parse s)) df →
  to_datetime parse (Fecha <$> df) = Ok (instante parse <$> df).
Proof.
  intros Hdf. unfold to_datetime.
  erewrite mapM_Some_2; [done|].
  apply Forall2_fmap, Forall_Forall2_diag.
  eapply Forall_impl; [exact Hdf|]. intros v Hv. cbn beta in Hv.
  unfold instante.
  destruct (Fecha v) as [[t|s]|]; [done| |done].
  destruct (Hv s eq_refl) as [t ->]. done.
Qed.

Lemma to_datetime_falla_si df e :
  to_datetime parse (Fecha <$> df) = Err e →
  ∃ v s, v ∈ df ∧ Fecha v = Some (FechaTexto s) ∧ parse s = None.
Proof.
  unfold to_datetime.
  destruct (mapM _ _) as [l|] eqn:Hm; [done|]. intros _.
  apply mapM_None_1, Exists_exists in Hm as (c & Hc & Hn).
  apply list_elem_of_fmap in Hc as (v & -> & Hv).
  destruct (Fecha v) as [[t|s]|] eqn:Hf; [done| |done].
  exists v, s. repeat split; [done..|].
  by destruct (parse s).
Qed.

Lemma instante_coercion v :
  instante parse (coercion parse v) = instante parse v.
Proof.
  unfold coercion. unfold instante at 1. cbn [Fecha con_Fecha].
  by destruct (instante parse v).
Qed.

Lemma coercion_coercion v :
  coercion parse (coercion parse v) = coercion parse v.
Proof. unfold coercion at 1. rewrite instante_coercion. by destruct v. Qed.

Lemma zip_coercion df :
  zip_with (λ v f, con_Fecha (Timestamp <$> f) v) df (instante parse <$> df)
  = coercion parse <$> df.
Proof. induction df as [|v df IH]; [done|]. csimpl. by rewrite IH. Qed.

Lemma groupby_sum_fst {K} `{EqDecision K} (le : relation K)
    `{RelDecision K K le} (clave : Venta → option K) col df :
  (groupby_sum le clave col df).*1 = (groupby le clave df).*1.
Proof.
  unfold groupby_sum. rewrite <- list_fmap_compose.
  apply list_fmap_ext. by intros i [k g] _.
Qed.

(** When every text date parses, the series is the grouping of the table by
    the instant of each row, and the table is left with those instants as
    its dates. *)
Lemma tendencia_Ok df :
  Forall (λ v, ∀ s, Fecha v = Some (FechaTexto s) → is_Some (parse s)) df →
  analizar_tendencia_temporal parse df
  = (Ok (round_series 2 (groupby_sum Z.le (instante parse) Total_Venta df)),
     coercion parse <$> df).
Proof.
  intros Hdf. unfold analizar_tendencia_temporal.
  rewrite to_datetime_instante, zip_coercion by done.
  do 3 f_equal. apply groupby_sum_fmap; [|done].
  intros v. unfold timestamp_de, coercion. cbn [Fecha con_Fecha].
  by destruct (instante parse v).
Qed.

Lemma tendencia_Ok_inv df tendencia :
  (analizar_tendencia_temporal parse df).1 = Ok tendencia →
  Forall (λ v, ∀ s, Fecha v = Some (FechaTexto s) → is_Some (parse s)) df.
Proof.
  unfold analizar_tendencia_temporal.
  destruct (to_datetime parse (Fecha <$> df)) as [fechas|e] eqn:Ht; [|done].
  intros _. apply Forall_forall. intros v Hv s Hs.
  destruct (parse s) as [t|] eqn:Hp; [done|]. exfalso.
  unfold to_datetime in Ht.
  destruct (mapM _ _) as [l|] eqn:Hm; [|done].
  assert (is_Some (mapM (λ c, match c with
                              | None => Some None
                              | Some (Timestamp t) => Some (Some t)
                              | Some (FechaTexto s) => Some <$> parse s
                              end) (Fecha <$> df))) as Hsome by (by rewrite Hm).
  apply mapM_is_Some_1 in Hsome. rewrite Forall_fmap, Forall_forall in Hsome.
  specialize (Hsome v Hv). cbn in Hsome. rewrite Hs, Hp in Hsome.
  by destruct Hsome.
Qed.

(** X12. The series that [analizar_tendencia_temporal] returns, read on the
    table as the call leaves it.  That table has the rows it had, each with
    its cells outside [Fecha]; no date of it is a text, a blank date is
    still blank and a timestamp is the same timestamp.  The series has one
    entry for each instant that is the date of some row of it, in
    chronological order, and the entry is the revenue of the rows of that
    instant, added up and then rounded.  Rows are grouped by the instant, so
    that two rows of the same day at different times are two entries; rows
    without a date are in no entry. *)
Theorem tendencia_por_instante df tendencia df' :
  analizar_tendencia_temporal parse df = (Ok tendencia, df') →
  length df' = length df ∧
  (∀ i v', df' !! i = Some v' →
     ∃ v, df !! i = Some v ∧ v' = con_Fecha (Fecha v') v ∧
       (∀ x, Fecha v' ≠ Some (FechaTexto x)) ∧
       (Fecha v = None → Fecha v' = None) ∧
       (∀ t, Fecha v = Some (Timestamp t) → Fecha v' = Some (Timestamp t))) ∧
  StronglySorted Z.lt tendencia.*1 ∧
  (∀ t, t ∈ tendencia.*1 ↔ ∃ v', v' ∈ df' ∧ Fecha v' = Some (Timestamp t)) ∧
  (∀ t x, (t, x) ∈ tendencia →
     x = round 2 (suma (Total_Venta
                          <$> filter (λ v', Fecha v' = Some (Timestamp t)) df'))).
Proof.
  intros Ht.
  assert (Forall (λ v, ∀ s, Fecha v = Some (FechaTexto s) → is_Some (parse s))
            df) as Hdf by (apply (tendencia_Ok_inv _ tendencia); by rewrite Ht).
  rewrite tendencia_Ok in Ht by done. injection Ht as <- <-.
  assert (∀ v t, Fecha (coercion parse v) = Some (Timestamp t)
                 ↔ instante parse v = Some t) as Hco.
  { intros v t. unfold coercion. cbn [Fecha con_Fecha].
    destruct (instante parse v) as [t'|]; cbn; [|done].
    split; by intros [= ->]. }
  split; [apply length_fmap|]. split; [|split; [|split]].
  - intros i v'. rewrite list_lookup_fmap.
    destruct (df !! i) as [v|]; [|done]. intros [= <-].
    exists v. split; [done|]. unfold coercion, instante. cbn [Fecha con_Fecha].
    split; [done|].
    destruct (Fecha v) as [[t|x]|]; cbn; [done| |done].
    destruct (parse x); cbn; repeat split; done.
  - rewrite round_series_claves, groupby_sum_fst.
    eapply StronglySorted_impl; [|apply (claves_ordenadas Z.le)].
    intros a b [Hab Hba]. lia.
  - intros t. rewrite round_series_claves, groupby_sum_fst.
    rewrite (elem_of_claves Z.le). split.
    + intros (v & Hv & Hi). exists (coercion parse v).
      split; [by apply list_elem_of_fmap_2 | by apply Hco].
    + intros (v' & (v & -> & Hv)%list_elem_of_fmap & Hf).
      exists v. split; [done | by apply Hco].
  - intros t x (y & Hin & ->)%elem_of_round_series. f_equal.
    unfold groupby_sum, groupby in Hin. rewrite <- list_fmap_compose in Hin.
    apply list_elem_of_fmap in Hin as (k & [= <- ->] & _).
    clear Hdf. induction df as [|v df IH]; [done|].
    rewrite fmap_cons, !filter_cons.
    destruct (decide (instante parse v = Some t)) as [Hi|Hi].
    + rewrite decide_True by (by apply Hco). rewrite !fmap_cons.
      unfold suma in *. cbn. by rewrite IH.
    + rewrite decide_False by (by rewrite Hco). exact IH.
Qed.

Lemma suma_de_grupos {K} `{EqDecision K} (le : relation K)
    `{RelDecision K K le} (clave : Venta → option K) df :
  Forall (λ v, ∀ x, Total_Venta v = Some x → round 2 x = x) df →
  suma (Some <$> ((λ k, ventas_grupo clave k df) <$> (groupby le clave df).*1))
  = suma (Total_Venta <$> filter (λ v, is_Some (clave v)) df).
Proof.
  intros Hdf.
  assert ((λ k, ventas_grupo clave k df) <$> (groupby le clave df).*1
          = (λ k, suma (Total_Venta <$> grupo clave k df))
              <$> (groupby le clave df).*1) as ->.
  { apply list_fmap_ext. intros i k _. by apply ventas_grupo_exacto. }
  transitivity
    (suma (Some <$> ((λ g, suma (Total_Venta <$> g))
                       <$> ((λ k, grupo clave k df)
                              <$> (groupby le clave df).*1)))).
  { rewrite <- !list_fmap_compose. reflexivity. }
  rewrite <- suma_join. apply suma_Permutation, fmap_Permutation.
  apply (grupos_de_claves le).
Qed.

(** X13. With line totals rounded to two decimals, as [main] computes them, the
    daily revenues add up to the revenue of the rows that have a date; when
    every row has one, to the grand total of the general statistics. *)
Theorem tendencia_suma_el_total df tendencia :
  Forall (λ v, ∀ x, Total_Venta v = Some x → round 2 x = x) df →
  (analizar_tendencia_temporal parse df).1 = Ok tendencia →
  suma (Some <$> tendencia.*2)
    = suma (Total_Venta <$> filter (λ v, is_Some (Fecha v)) df) ∧
  (Forall (λ v, is_Some (Fecha v)) df →
   ∀ stats, calcular_estadisticas_generales df = Ok stats →
     suma (Some <$> tendencia.*2) = total_ventas stats).
Proof.
  intros Hred Ht. pose proof (tendencia_Ok_inv _ _ Ht) as Hdf.
  rewrite tendencia_Ok in Ht by done. injection Ht as <-.
  assert (suma (Some <$> (round_series 2
            (groupby_sum Z.le (instante parse) Total_Venta df)).*2)
          = suma (Total_Venta <$> filter (λ v, is_Some (Fecha v)) df)) as Hs.
  { rewrite (filter_segun (λ v, is_Some (Fecha v))
               (λ v, is_Some (instante parse v))).
    2: { eapply Forall_impl; [exact Hdf|]. intros v Hv. cbn beta in Hv.
         unfold instante. destruct (Fecha v) as [[t|x]|].
         - split; eauto.
         - split; [intros _; by apply Hv | eauto].
         - split; by intros [? ?]. }
    rewrite <- (suma_de_grupos Z.le (instante parse)) by done.
    do 2 f_equal. unfold round_series, groupby_sum.
    rewrite (groupby_grupos Z.le) at 1.
    rewrite <- !list_fmap_compose. by apply list_fmap_ext. }
  split; [exact Hs|].
  intros Hf stats (Htot & _)%estadisticas_Ok.
  by rewrite Hs, Htot, filter_todos.
Qed.

(** X14. A second call of [analizar_tendencia_temporal] on the table the first
    call has left finds only timestamps: it returns the same series and
    leaves the table as it found it. *)
Theorem tendencia_idempotente df tendencia df' :
  analizar_tendencia_temporal parse df = (Ok tendencia, df') →
  Forall (λ v, ∀ s, Fecha v ≠ Some (FechaTexto s)) df' ∧
  analizar_tendencia_temporal parse df' = (Ok tendencia, df').
Proof.
  intros Ht.
  assert (Forall (λ v, ∀ s, Fecha v = Some (FechaTexto s) → is_Some (parse s))
            df) as Hdf by (apply (tendencia_Ok_inv _ tendencia); by rewrite Ht).
  rewrite tendencia_Ok in Ht by done. injection Ht as <- <-.
  assert (Forall (λ v, ∀ s, Fecha v ≠ Some (FechaTexto s))
            (coercion parse <$> df)) as Hsin.
  { apply Forall_fmap, Forall_forall. intros v _ s. unfold coercion. cbn.
    by destruct (instante parse v). }
  split; [done|].
  rewrite tendencia_Ok.
  2: { eapply Forall_impl; [exact Hsin|]. intros v Hv s Hs. by destruct (Hv s). }
  f_equal.
  - do 2 f_equal. apply groupby_sum_fmap; [|done]. apply instante_coercion.
  - rewrite <- list_fmap_compose. apply list_fmap_ext.
    intros i v _. apply coercion_coercion.
Qed.
End tendencia.

(** ** The reporting period *)

Section periodo.
Implicit Types (df : DataFrame) (ts : list Z).

Lemma foldr_min_cota t ts :
  foldr Z.min t ts ∈ t :: ts ∧ ∀ x, x ∈ t :: ts → (foldr Z.min t ts ≤ x)%Z.
Proof.
  induction ts as [|a ts [IH1 IH2]]; cbn [foldr].
  - split; [left|]. intros x ->%list_elem_of_singleton. done.
  - split.
    + destruct (Z.min_spec a (foldr Z.min t ts)) as [[_ ->]|[_ ->]].
      * right. left.
      * apply elem_of_cons in IH1 as [->|?]; [left | right; by right].
    + intros x Hx.
      assert (x = a ∨ x ∈ t :: ts) as [->|Hx'].
      { apply elem_of_cons in Hx as [->|[->|?]%elem_of_cons];
          [right; left | by left | right; by right]. }
      * lia.
      * specialize (IH2 x Hx'). lia.
Qed.

Lemma foldr_max_cota t ts :
  foldr Z.max t ts ∈ t :: ts ∧ ∀ x, x ∈ t :: ts → (x ≤ foldr Z.max t ts)%Z.
Proof.
  induction ts as [|a ts [IH1 IH2]]; cbn [foldr].
  - split; [left|]. intros x ->%list_elem_of_singleton. done.
  - split.
    + destruct (Z.max_spec a (foldr Z.max t ts)) as [[_ ->]|[_ ->]].
      * apply elem_of_cons in IH1 as [->|?]; [left | right; by right].
      * right. left.
    + intros x Hx.
      assert (x = a ∨ x ∈ t :: ts) as [->|Hx'].
      { apply elem_of_cons in Hx as [->|[->|?]%elem_of_cons];
          [right; left | by left | right; by right]. }
      * lia.
      * specialize (IH2 x Hx'). lia.
Qed.

Lemma fechas_sin_texto df :
  Forall (λ v, ∀ s, Fecha v ≠ Some (FechaTexto s)) df →
  omap id (Fecha <$> df) = Timestamp <$> omap timestamp_de df.
Proof.
  induction 1 as [|v df Hv _ IH]; [done|].
  csimpl. rewrite IH. unfold timestamp_de.
  destruct (Fecha v) as [[t|s]|]; [done| |done]. by destruct (Hv s).
Qed.

Lemma extremo_timestamps elige_z elige_s df :
  Forall (λ v, ∀ s, Fecha v ≠ Some (FechaTexto s)) df →
  extremo elige_z elige_s (Fecha <$> df)
  = Ok (match omap timestamp_de df with
        | [] => None
        | t :: ts => Some (Timestamp (foldr elige_z t ts))
        end).
Proof.
  intros Hdf. unfold extremo. rewrite fechas_sin_texto by done.
  destruct (omap timestamp_de df) as [|t ts]; [done|].
  rewrite fmap_cons.
  change (Timestamp t :: (Timestamp <$> ts)) with (Timestamp <$> t :: ts).
  unfold solo_timestamps. by rewrite mapM_fmap_Some.
Qed.

Lemma elem_of_omap_timestamp_de df t :
  t ∈ omap timestamp_de df ↔ ∃ v, v ∈ df ∧ Fecha v = Some (Timestamp t).
Proof.
  rewrite list_elem_of_omap. unfold timestamp_de. split.
  - intros (v & Hv & Ht). exists v. split; [done|].
    destruct (Fecha v) as [[t'|s]|]; by simplify_eq.
  - intros (v & Hv & Ht). exists v. by rewrite Ht.
Qed.

Lemma estadisticas_sin_texto df :
  Forall (λ v, ∀ s, Fecha v ≠ Some (FechaTexto s)) df →
  ∃ stats, calcular_estadisticas_generales df = Ok stats.
Proof.
  intros Hdf. unfold calcular_estadisticas_generales, min_fecha, max_fecha.
  rewrite !extremo_timestamps by done. cbn [mbind resultado_bind]. eauto.
Qed.

(** X11. On a table whose dates are timestamps or blank,
    [calcular_estadisticas_generales] returns; the period it reports is
    blank when no row has a date, and otherwise it begins at the earliest
    and ends at the latest date of the table, both of them dates of some
    row. *)
Theorem periodo_de_las_estadisticas df :
  Forall (λ v, ∀ s, Fecha v ≠ Some (FechaTexto s)) df →
  ∃ stats,
    calcular_estadisticas_generales df = Ok stats ∧
    (Forall (λ v, Fecha v = None) df →
     fecha_inicio stats = None ∧ fecha_fin stats = None) ∧
    (∀ v t, v ∈ df → Fecha v = Some (Timestamp t) →
       ∃ t0 t1,
         fecha_inicio stats = Some (Timestamp t0) ∧
         fecha_fin stats = Some (Timestamp t1) ∧
         (t0 ≤ t ≤ t1)%Z ∧
         (∃ v0, v0 ∈ df ∧ Fecha v0 = Some (Timestamp t0)) ∧
         (∃ v1, v1 ∈ df ∧ Fecha v1 = Some (Timestamp t1))).
Proof.
  intros Hdf. unfold calcular_estadisticas_generales, min_fecha, max_fecha.
  rewrite !extremo_timestamps by done. cbn [mbind resultado_bind].
  eexists. split; [reflexivity|]. cbn [fecha_inicio fecha_fin].
  pose proof (elem_of_omap_timestamp_de df) as Hts.
  destruct (omap timestamp_de df) as [|t0 ts].
  - split; [done|]. intros v t Hv Ht.
    assert (t ∈ []) as Hin by (apply Hts; eauto). by apply elem_of_nil in Hin.
  - split.
    + intros Hnone. exfalso.
      destruct (proj1 (Hts t0)) as (v & Hv & Ht); [left|].
      rewrite Forall_forall in Hnone. by rewrite (Hnone v Hv) in Ht.
    + intros v t Hv Ht.
      destruct (foldr_min_cota t0 ts) as [Hmin1 Hmin2].
      destruct (foldr_max_cota t0 ts) as [Hmax1 Hmax2].
      assert (t ∈ t0 :: ts) as Hin by (apply Hts; eauto).
      exists (foldr Z.min t0 ts), (foldr Z.max t0 ts).
      split; [done|]. split; [done|].
      split; [split; [by apply Hmin2 | by apply Hmax2]|].
      split; by apply Hts.
Qed.
End periodo.

(** ** A successful run, step by step *)

Section informe.
Context (parse : string → option Z) (matplotlib : Grafico → resultado Imagen).
Implicit Types (ws : Worksheet) (wb : Workbook) (df : DataFrame).

Lemma buscar_reemplazar_ne {A} p q (a : A) (d : list (Ruta * A)) :
  p ≠ q → buscar p (reemplazar q a d) = buscar p d.
Proof.
  intros Hpq. induction d as [|[r b] d IH]; cbn.
  - by rewrite decide_False by done.
  - destruct (decide (r = q)) as [->|Hr]; cbn.
    + by rewrite !decide_False by done.
    + case_decide; [done | exact IH].
Qed.

Lemma sobre_hoja_aqui nombre f ws wb :
  title ws = nombre →
  sobre_hoja nombre f (ws :: wb) = (ws' ← f ws; Ok (ws' :: wb)).
Proof. intros Ht. cbn [sobre_hoja]. by rewrite decide_True. Qed.

Lemma sobre_hoja_sigue nombre f ws wb :
  title ws ≠ nombre →
  sobre_hoja nombre f (ws :: wb) = ((ws ::.) <$> sobre_hoja nombre f wb).
Proof. intros Ht. cbn [sobre_hoja]. by rewrite decide_False. Qed.

Lemma analisis_Ok_inv df stats ventas tc tm vend cat tend filas' :
  analisis parse df
    = (Ok (stats, ventas, (tc, tm), vend, cat, tend), filas') →
  calcular_estadisticas_generales df = Ok stats ∧
  ventas = analizar_ventas_por_sucursal df ∧
  (tc, tm) = analizar_top_productos df 10 ∧
  vend = analizar_vendedores df ∧
  cat = analizar_categorias df ∧
  analizar_tendencia_temporal parse df = (Ok tend, filas').
Proof.
  unfold analisis, llamar_r, llamar, mirando, mbind, Estado_bind, mret,
    Estado_ret.
  destruct (calcular_estadisticas_generales df) as [st|]; [|done].
  destruct (analizar_tendencia_temporal parse df) as [[t|] f]; [|done].
  intros H. injection H as <- <- <- <- <- <- <- <-. done.
Qed.

(** The dashboard when the three charts are on the disk. *)
Lemma crear_hoja_dashboard_tres (x : Salida) ws stats graficos_dir img1 img2 img3 :
  buscar (graficos_dir // "ventas_sucursal.png") x = Some (FicheroS (Png img1)) →
  buscar (graficos_dir // "categorias.png") x = Some (FicheroS (Png img2)) →
  buscar (graficos_dir // "tendencia.png") x = Some (FicheroS (Png img3)) →
  ∃ ws',
    crear_hoja_dashboard x ws stats graficos_dir = Ok ws' ∧
    imagenes ws' = imagenes ws ++
      [(("B", 14%nat), a_escala (qc 55 100) img1);
       (("I", 14%nat), a_escala (qc 55 100) img2);
       (("B", 39%nat), a_escala (qc 6 10) img3)] ∧
    celdas ws' = celdas ws ++ celdas_dashboard stats ∧
    title ws' = title ws ∧ datos ws' = datos ws ∧ tablas ws' = tablas ws.
Proof.
  intros H1 H2 H3. unfold crear_hoja_dashboard.
  rewrite (insertar_si_existe x _ _ _ _ (or_intror (ex_intro _ img1 H1)) escala_55).
  cbn [mbind resultado_bind].
  rewrite (insertar_si_existe x _ _ _ _ (or_intror (ex_intro _ img2 H2)) escala_55).
  cbn [mbind resultado_bind].
  rewrite (insertar_si_existe x _ _ _ _ (or_intror (ex_intro _ img3 H3)) escala_6).
  cbn [mbind resultado_bind].
  unfold colocada. rewrite H1, H2, H3.
  eexists. split; [reflexivity|].
  cbn. by rewrite <- !app_assoc.
Qed.

(** Everything a successful run has done, in the order of [main]. *)
Lemma main_Ok_inv d (s s' : Salida) :
  main parse matplotlib d s = (Ok (), s') →
  ∃ (df0 : Tabla) stats tendencia filas' s3 s4 img1 img2 img3 dashboard,
    let df := filas (calcular_Total_Venta df0) in
    let ventas_sucursal := analizar_ventas_por_sucursal df in
    let top := analizar_top_productos df 10 in
    let vendedores_stats := analizar_vendedores df in
    let categorias_stats := analizar_categorias df in
    let s7 :=
      reemplazar (GRAFICOS_DIR // "tendencia.png") (FicheroS (Png img3))
        (reemplazar (GRAFICOS_DIR // "categorias.png") (FicheroS (Png img2))
           (reemplazar (GRAFICOS_DIR // "ventas_sucursal.png")
              (FicheroS (Png img1)) s4)) in
    let ws_datos :=
      hoja "Datos_Consolidados"
        (DConsolidado (con_filas filas' (calcular_Total_Venta df0))) in
    let ws_top :=
      hoja "Top_Productos"
        (DTop (zip_with (λ '(pc, c) '(pm, m), (pc, c, "", pm, m))
                        top.1 top.2)) in
    let ws_vendedores :=
      hoja "Analisis_Vendedores" (DVendedores vendedores_stats) in
    let ws_sucursales :=
      hoja "Resumen_Sucursales" (DSucursales ventas_sucursal) in
    let s8 :=
      reemplazar output_file
        (FicheroS (Libro [hoja "Dashboard" DVacio; ws_datos; ws_top;
                          ws_vendedores; ws_sucursales])) s7 in
    let ultima_fila := (max_row ws_sucursales + 1)%nat in
    leer_archivos_excel d INPUT_DIR "*.xlsx" (Some COLUMNAS_REQUERIDAS)
      = Ok df0 ∧
    calcular_estadisticas_generales df = Ok stats ∧
    analizar_tendencia_temporal parse df = (Ok tendencia, filas') ∧
    length top.1 = length top.2 ∧
    mkdir OUTPUT_DIR s = (Ok (), s3) ∧
    mkdir GRAFICOS_DIR s3 = (Ok (), s4) ∧
    matplotlib
      (GBarras ((λ r, (ResumenSucursal.Sucursal r, ResumenSucursal.Total_Ventas r))
                  <$> ventas_sucursal) "Ventas Totales por Sucursal")
      = Ok img1 ∧
    matplotlib
      (GCircular ((λ r, (ResumenCategoria.Categoría r,
                         ResumenCategoria.Total_Ventas r))
                    <$> categorias_stats)
                 "Distribución de Ventas por Categoría")
      = Ok img2 ∧
    matplotlib (GLinea tendencia "Evolución de Ventas Diarias") = Ok img3 ∧
    crear_hoja_dashboard s8 (hoja "Dashboard" DVacio) stats GRAFICOS_DIR
      = Ok dashboard ∧
    s' = reemplazar output_file
           (FicheroS (Libro
              [dashboard;
               crear_tabla_excel ws_datos
                 (("A", 1%nat), ("H", max_row ws_datos))
                 "TablaDatosConsolidados";
               asignar ("D", 1%nat) (VTexto "MÁS RENTABLES (Por Monto)")
                 (asignar ("A", 1%nat) (VTexto "MÁS VENDIDOS (Por Cantidad)")
                    ws_top);
               crear_tabla_excel ws_vendedores
                 (("A", 1%nat), ("D", max_row ws_vendedores))
                 "TablaVendedores";
               asignar ("D", ultima_fila) (VSuma "D" 2 (ultima_fila - 1))
                 (asignar ("C", ultima_fila) (VSuma "C" 2 (ultima_fila - 1))
                    (asignar ("B", ultima_fila) (VSuma "B" 2 (ultima_fila - 1))
                       (asignar ("A", ultima_fila) (VTexto "TOTAL")
                          ws_sucursales)))]))
           s8.
Proof.
  unfold main. intros H.
  apply Run_bind_Ok in H as (df0 & s0 & [Hleer ->]%elevar_Ok & H).
  destruct (analisis _ _) as [resultados filas'] eqn:Han.
  apply Run_bind_Ok in H as (res & s2 & [-> ->]%elevar_Ok & H).
  destruct res as [[[[[stats ventas_sucursal] [top_cantidad top_monto]]
    vendedores_stats] categorias_stats] tendencia].
  apply analisis_Ok_inv in Han as (Hstats & -> & Htop & -> & -> & Htend).
  apply Run_bind_Ok in H as ([] & s3 & Hmk1 & H).
  apply Run_bind_Ok in H as ([] & s4 & Hmk2 & H).
  apply Run_bind_Ok in H as ([] & s5 & Hg1 & H).
  apply Run_bind_Ok in Hg1 as (img1 & ? & [Hi1 ->]%elevar_Ok & ->%escribir_Ok).
  apply Run_bind_Ok in H as ([] & s6 & Hg2 & H).
  apply Run_bind_Ok in Hg2 as (img2 & ? & [Hi2 ->]%elevar_Ok & ->%escribir_Ok).
  apply Run_bind_Ok in H as ([] & s7 & Hg3 & H).
  apply Run_bind_Ok in Hg3 as (img3 & ? & [Hi3 ->]%elevar_Ok & ->%escribir_Ok).
  destruct (decide (length top_cantidad = length top_monto)) as [Hlen|Hlen].
  2: { apply Run_bind_Ok in H as (? & s8 & _ & H). by apply elevar_Ok in H as [? _]. }
  apply Run_bind_Ok in H as ([] & s8 & ->%escribir_Ok & H).
  apply Run_bind_Ok in H as (wb0 & s9 & Hl & H).
  apply load_workbook_Ok in Hl as [Hl ->].
  rewrite buscar_reemplazar in Hl. injection Hl as <-.
  apply Run_bind_Ok in H as (wb1 & s9 & [H1 ->]%mirando_Ok & H).
  cbn [app] in H1. rewrite sobre_hoja_aqui in H1 by done.
  destruct (crear_hoja_dashboard _ _ _ _) as [dashboard|] eqn:Hdash;
    cbn [mbind resultado_bind] in H1; [|done].
  injection H1 as <-.
  pose proof (crear_hoja_dashboard_title _ _ _ _ _ Hdash) as Htitle.
  cbn [title hoja] in Htitle.
  apply Run_bind_Ok in H as (wb2 & s9 & [H2 ->]%elevar_Ok & H).
  rewrite sobre_hoja_sigue in H2 by (by rewrite Htitle).
  rewrite sobre_hoja_aqui in H2 by done.
  cbn [mbind resultado_bind fmap resultado_fmap] in H2. injection H2 as <-.
  apply Run_bind_Ok in H as (wb3 & s9 & [H3 ->]%elevar_Ok & H).
  rewrite sobre_hoja_sigue in H3 by (by rewrite Htitle).
  rewrite sobre_hoja_sigue in H3 by done.
  rewrite sobre_hoja_aqui in H3 by done.
  cbn [mbind resultado_bind fmap resultado_fmap] in H3. injection H3 as <-.
  apply Run_bind_Ok in H as (wb4 & s9 & [H4 ->]%elevar_Ok & H).
  rewrite sobre_hoja_sigue in H4 by (by rewrite Htitle).
  rewrite !sobre_hoja_sigue in H4 by done.
  rewrite sobre_hoja_aqui in H4 by done.
  cbn [mbind resultado_bind fmap resultado_fmap] in H4. injection H4 as <-.
  apply Run_bind_Ok in H as (wb5 & s9 & [H5 ->]%elevar_Ok & H).
  rewrite sobre_hoja_sigue in H5 by (by rewrite Htitle).
  rewrite !sobre_hoja_sigue in H5 by done.
  rewrite sobre_hoja_aqui in H5 by done.
  cbn [mbind resultado_bind fmap resultado_fmap] in H5. injection H5 as <-.
  apply escribir_Ok in H.
  exists df0, stats, tendencia, filas', s3, s4, img1, img2, img3, dashboard.
  cbn zeta. rewrite <- Htop. cbn [fst snd].
  repeat split; done.
Qed.

Ltac rutas_distintas :=
  let Hr := fresh in intros Hr; vm_compute in Hr; discriminate Hr.

(** After the three charts and a workbook have been written, the charts are
    where they were put. *)
Lemma graficos_en_disco (x : Salida) img1 img2 img3 a :
  let s8 :=
    reemplazar output_file a
      (reemplazar (GRAFICOS_DIR // "tendencia.png") (FicheroS (Png img3))
         (reemplazar (GRAFICOS_DIR // "categorias.png") (FicheroS (Png img2))
            (reemplazar (GRAFICOS_DIR // "ventas_sucursal.png")
               (FicheroS (Png img1)) x))) in
  buscar (GRAFICOS_DIR // "ventas_sucursal.png") s8 = Some (FicheroS (Png img1)) ∧
  buscar (GRAFICOS_DIR // "categorias.png") s8 = Some (FicheroS (Png img2)) ∧
  buscar (GRAFICOS_DIR // "tendencia.png") s8 = Some (FicheroS (Png img3)).
Proof.
  cbn zeta. split; [|split].
  - rewrite !buscar_reemplazar_ne by rutas_distintas. apply buscar_reemplazar.
  - rewrite !buscar_reemplazar_ne by rutas_distintas. apply buscar_reemplazar.
  - rewrite buscar_reemplazar_ne by rutas_distintas. apply buscar_reemplazar.
Qed.

Lemma max_row_hoja nombre dat :
  dat ≠ DVacio → max_row (hoja nombre dat) = filas_de_datos dat.
Proof.
  intros Hd. unfold max_row. cbn [hoja celdas datos fmap list_fmap foldr].
  destruct dat; cbn [filas_de_datos]; [done|lia..].
Qed.

(** X19. The dashboard of a successful run: its cells are the title, the period
    and the six indicators of the general statistics of the consolidated
    table, and the three chart titles; the three charts that the run has
    just rendered are always there, anchored at B14, I14 and B39 and scaled
    to 55, 55 and 60 per cent of the size of the rendered files, which are
    left in the chart directory. *)
Theorem main_dashboard_completo d (s s' : Salida) :
  main parse matplotlib d s = (Ok (), s') →
  ∃ (df0 : Tabla) stats tendencia wb ws img1 img2 img3,
    let df := filas (calcular_Total_Venta df0) in
    leer_archivos_excel d INPUT_DIR "*.xlsx" (Some COLUMNAS_REQUERIDAS)
      = Ok df0 ∧
    calcular_estadisticas_generales df = Ok stats ∧
    (analizar_tendencia_temporal parse df).1 = Ok tendencia ∧
    matplotlib
      (GBarras ((λ r, (ResumenSucursal.Sucursal r, ResumenSucursal.Total_Ventas r))
                  <$> analizar_ventas_por_sucursal df)
               "Ventas Totales por Sucursal")
      = Ok img1 ∧
    matplotlib
      (GCircular ((λ r, (ResumenCategoria.Categoría r,
                         ResumenCategoria.Total_Ventas r))
                    <$> analizar_categorias df)
                 "Distribución de Ventas por Categoría")
      = Ok img2 ∧
    matplotlib (GLinea tendencia "Evolución de Ventas Diarias") = Ok img3 ∧
    buscar output_file s' = Some (FicheroS (Libro wb)) ∧
    wb !! 0%nat = Some ws ∧
    title ws = "Dashboard" ∧
    datos ws = DVacio ∧
    celdas ws = celdas_dashboard stats ∧
    imagenes ws =
      [(("B", 14%nat), a_escala (qc 55 100) img1);
       (("I", 14%nat), a_escala (qc 55 100) img2);
       (("B", 39%nat), a_escala (qc 6 10) img3)] ∧
    buscar (GRAFICOS_DIR // "ventas_sucursal.png") s'
      = Some (FicheroS (Png img1)) ∧
    buscar (GRAFICOS_DIR // "categorias.png") s' = Some (FicheroS (Png img2)) ∧
    buscar (GRAFICOS_DIR // "tendencia.png") s' = Some (FicheroS (Png img3)).
Proof.
  intros (df0 & stats & tendencia & filas' & s3 & s4 & img1 & img2 & img3
          & dashboard & H)%main_Ok_inv.
  cbn zeta in H.
  destruct H as (Hleer & Hstats & Htend & _ & _ & _ & Hi1 & Hi2 & Hi3
                 & Hdash & ->).
  match type of Hdash with
  | crear_hoja_dashboard (reemplazar _ ?a ?y) _ _ _ = _ =>
      destruct (graficos_en_disco s4 img1 img2 img3 a) as (Hp1 & Hp2 & Hp3)
  end.
  destruct (crear_hoja_dashboard_tres _ (hoja "Dashboard" DVacio) stats
              GRAFICOS_DIR img1 img2 img3 Hp1 Hp2 Hp3)
    as (ws & Hws & Himg & Hcel & Htit & Hdat & _).
  rewrite Hdash in Hws. injection Hws as <-.
  exists df0, stats, tendencia. eexists _, dashboard, img1, img2, img3.
  cbn zeta. rewrite Htend.
  split; [done|]. split; [done|]. split; [done|].
  split; [done|]. split; [done|]. split; [done|].
  split; [apply buscar_reemplazar|].
  split; [done|]. split; [done|]. split; [done|]. split; [done|].
  split; [done|].
  rewrite !(buscar_reemplazar_ne _ output_file) by rutas_distintas.
  rewrite (buscar_reemplazar_ne _ output_file) in Hp1 by rutas_distintas.
  rewrite (buscar_reemplazar_ne _ output_file) in Hp2 by rutas_distintas.
  rewrite (buscar_reemplazar_ne _ output_file) in Hp3 by rutas_distintas.
  done.
Qed.

(** X20. The data sheet of a successful run holds the consolidated table: the
    rows of the input files with their line totals, in order, with every
    date stored as a timestamp (the coercion that
    [analizar_tendencia_temporal] makes on the shared table reaches the
    sheet).  Its header is that of the input plus [Total_Venta].  The Excel
    table made on the sheet spans the header row and every data row, over
    the columns A to H. *)
Theorem main_hoja_de_datos d (s s' : Salida) :
  main parse matplotlib d s = (Ok (), s') →
  ∃ (df0 : Tabla) wb ws T,
    leer_archivos_excel d INPUT_DIR "*.xlsx" (Some COLUMNAS_REQUERIDAS)
      = Ok df0 ∧
    buscar output_file s' = Some (FicheroS (Libro wb)) ∧
    wb !! 1%nat = Some ws ∧
    title ws = "Datos_Consolidados" ∧
    datos ws = DConsolidado T ∧
    filas T = coercion parse <$> filas (calcular_Total_Venta df0) ∧
    length (filas T) = length (filas df0) ∧
    Forall (λ v, ∀ x, Fecha v ≠ Some (FechaTexto x)) (filas T) ∧
    (∀ c, c ∈ columns T ↔ c ∈ columns df0 ∨ c = "Total_Venta") ∧
    COLUMNAS_REQUERIDAS ⊆ columns T ∧
    celdas ws = [] ∧ imagenes ws = [] ∧
    tablas ws = [("TablaDatosConsolidados",
                  (("A", 1%nat), ("H", S (length (filas df0)))))].
Proof.
  intros (df0 & stats & tendencia & filas' & s3 & s4 & img1 & img2 & img3
          & dashboard & H)%main_Ok_inv.
  cbn zeta in H.
  destruct H as (Hleer & Hstats & Htend & _ & _ & _ & _ & _ & _ & _ & ->).
  assert (filas' = coercion parse <$> filas (calcular_Total_Venta df0)) as ->.
  { rewrite tendencia_Ok in Htend; [by injection Htend as _ <-|].
    apply (tendencia_Ok_inv parse _ tendencia). by rewrite Htend. }
  exists df0. eexists _, _, _.
  split; [done|]. split; [apply buscar_reemplazar|].
  split; [reflexivity|]. split; [reflexivity|]. split; [reflexivity|].
  cbn [filas columns con_filas calcular_Total_Venta].
  split; [done|]. split; [by rewrite !length_fmap|].
  split.
  { apply Forall_fmap, Forall_forall. intros v _ x. unfold coercion. cbn.
    by destruct (instante parse _). }
  split.
  { intros c. case_decide as Hin.
    - split; [by left|]. by intros [?| ->].
    - rewrite elem_of_app, list_elem_of_singleton. done. }
  split.
  { apply leer_archivos_excel_Ok_inv in Hleer as (_ & _ & tablas & _ & _ & _ & _ & Hreq).
    intros c Hc. specialize (Hreq _ eq_refl c Hc).
    case_decide; [done|]. apply elem_of_app. by left. }
  split; [done|]. split; [done|].
  cbn [tablas crear_tabla_excel hoja app]. rewrite max_row_hoja by done.
  cbn [filas_de_datos filas con_filas]. by rewrite !length_fmap.
Qed.

Lemma length_analizar_ventas_por_sucursal df :
  length (analizar_ventas_por_sucursal df) = nunique (Sucursal <$> df).
Proof.
  by rewrite <- length_claves, <- (length_fmap ResumenSucursal.Sucursal),
    claves_sucursal.
Qed.

Lemma length_analizar_vendedores df :
  length (analizar_vendedores df) = nunique (Vendedor <$> df).
Proof.
  by rewrite <- length_claves, <- (length_fmap ResumenVendedor.Vendedor),
    claves_vendedor.
Qed.

(** X23. The branch sheet of a successful run holds the per-branch summary, one
    row per branch, and below its last row the totals row: the label TOTAL
    and three formulas, each the sum of its column from row 2 to the row of
    the last branch. *)
Theorem main_fila_de_totales d (s s' : Salida) :
  main parse matplotlib d s = (Ok (), s') →
  ∃ (df0 : Tabla) stats wb ws,
    let resumen :=
      analizar_ventas_por_sucursal (filas (calcular_Total_Venta df0)) in
    let n := num_sucursales stats in
    leer_archivos_excel d INPUT_DIR "*.xlsx" (Some COLUMNAS_REQUERIDAS)
      = Ok df0 ∧
    calcular_estadisticas_generales (filas (calcular_Total_Venta df0))
      = Ok stats ∧
    buscar output_file s' = Some (FicheroS (Libro wb)) ∧
    wb !! 4%nat = Some ws ∧
    title ws = "Resumen_Sucursales" ∧
    datos ws = DSucursales resumen ∧
    length resumen = n ∧
    celdas ws =
      [(("A", n + 2)%nat, VTexto "TOTAL");
       (("B", n + 2)%nat, VSuma "B" 2 (n + 1));
       (("C", n + 2)%nat, VSuma "C" 2 (n + 1));
       (("D", n + 2)%nat, VSuma "D" 2 (n + 1))] ∧
    imagenes ws = [] ∧ tablas ws = [].
Proof.
  intros (df0 & stats & tendencia & filas' & s3 & s4 & img1 & img2 & img3
          & dashboard & H)%main_Ok_inv.
  cbn zeta in H.
  destruct H as (Hleer & Hstats & _ & _ & _ & _ & _ & _ & _ & _ & ->).
  pose proof (estadisticas_Ok _ _ Hstats) as (_ & _ & _ & Hn & _).
  exists df0, stats. eexists _, _. cbn zeta.
  split; [done|]. split; [done|]. split; [apply buscar_reemplazar|].
  split; [reflexivity|]. split; [reflexivity|]. split; [reflexivity|].
  split; [by rewrite length_analizar_ventas_por_sucursal|].
  split; [|done].
  cbn [celdas asignar hoja app]. rewrite max_row_hoja by done.
  cbn [filas_de_datos]. rewrite length_analizar_ventas_por_sucursal, <- Hn.
  replace (S (num_sucursales stats) + 1 - 1)%nat
    with (num_sucursales stats + 1)%nat by lia.
  by replace (S (num_sucursales stats) + 1)%nat
    with (num_sucursales stats + 2)%nat by lia.
Qed.

(** X22. The salesperson sheet of a successful run holds the per-salesperson
    summary, one row per salesperson, and the Excel table made on it spans
    the header row and every one of those rows, over the columns A to D. *)
Theorem main_hoja_de_vendedores d (s s' : Salida) :
  main parse matplotlib d s = (Ok (), s') →
  ∃ (df0 : Tabla) stats wb ws,
    let resumen := analizar_vendedores (filas (calcular_Total_Venta df0)) in
    leer_archivos_excel d INPUT_DIR "*.xlsx" (Some COLUMNAS_REQUERIDAS)
      = Ok df0 ∧
    calcular_estadisticas_generales (filas (calcular_Total_Venta df0))
      = Ok stats ∧
    buscar output_file s' = Some (FicheroS (Libro wb)) ∧
    wb !! 3%nat = Some ws ∧
    title ws = "Analisis_Vendedores" ∧
    datos ws = DVendedores resumen ∧
    length resumen = num_vendedores stats ∧
    celdas ws = [] ∧ imagenes ws = [] ∧
    tablas ws = [("TablaVendedores",
                  (("A", 1%nat), ("D", S (num_vendedores stats))))].
Proof.
  intros (df0 & stats & tendencia & filas' & s3 & s4 & img1 & img2 & img3
          & dashboard & H)%main_Ok_inv.
  cbn zeta in H.
  destruct H as (Hleer & Hstats & _ & _ & _ & _ & _ & _ & _ & _ & ->).
  pose proof (estadisticas_Ok _ _ Hstats) as (_ & _ & _ & _ & Hn & _).
  exists df0, stats. eexists _, _. cbn zeta.
  split; [done|]. split; [done|]. split; [apply buscar_reemplazar|].
  split; [reflexivity|]. split; [reflexivity|]. split; [reflexivity|].
  split; [by rewrite length_analizar_vendedores|].
  split; [done|]. split; [done|].
  cbn [tablas crear_tabla_excel hoja app]. rewrite max_row_hoja by done.
  cbn [filas_de_datos]. by rewrite length_analizar_vendedores, <- Hn.
Qed.

(** X21. The products sheet of a successful run puts the two top lists of
    [analizar_top_productos] side by side: its row [i] holds the product
    ranked [i] by quantity with its quantity, an empty spacer, and the
    product ranked [i] by revenue with its revenue.  The two lists have the
    same length, ten or the number of products if that is less, so that
    building the sheet never fails.  The cells A1 and D1 of the header are
    then overwritten with the two titles. *)
Theorem main_hoja_de_productos d (s s' : Salida) :
  main parse matplotlib d s = (Ok (), s') →
  ∃ (df0 : Tabla) stats wb ws filas_top,
    let top := analizar_top_productos (filas (calcular_Total_Venta df0)) 10 in
    leer_archivos_excel d INPUT_DIR "*.xlsx" (Some COLUMNAS_REQUERIDAS)
      = Ok df0 ∧
    calcular_estadisticas_generales (filas (calcular_Total_Venta df0))
      = Ok stats ∧
    buscar output_file s' = Some (FicheroS (Libro wb)) ∧
    wb !! 2%nat = Some ws ∧
    title ws = "Top_Productos" ∧
    datos ws = DTop filas_top ∧
    length filas_top = (10 `min` num_productos stats)%nat ∧
    (∀ i, filas_top !! i
          = (top.1 !! i) ≫= λ '(pc, c),
            (top.2 !! i) ≫= λ '(pm, m), Some (pc, c, "", pm, m)) ∧
    celdas ws = [(("A", 1%nat), VTexto "MÁS VENDIDOS (Por Cantidad)");
                 (("D", 1%nat), VTexto "MÁS RENTABLES (Por Monto)")] ∧
    imagenes ws = [] ∧ tablas ws = [].
Proof.
  intros (df0 & stats & tendencia & filas' & s3 & s4 & img1 & img2 & img3
          & dashboard & H)%main_Ok_inv.
  cbn zeta in H.
  destruct H as (Hleer & Hstats & _ & Hlen & _ & _ & _ & _ & _ & _ & ->).
  pose proof (estadisticas_Ok _ _ Hstats) as (_ & _ & _ & _ & _ & Hn).
  exists df0, stats. eexists _, _, _. cbn zeta.
  split; [done|]. split; [done|]. split; [apply buscar_reemplazar|].
  split; [reflexivity|]. split; [reflexivity|]. split; [reflexivity|].
  split.
  { rewrite length_zip_with, <- Hlen, Nat.min_id.
    unfold analizar_top_productos. cbn [fst].
    by rewrite length_nlargest, <- (length_fmap fst), groupby_sum_claves,
      length_claves, Hn. }
  split; [|done].
  intros i. rewrite lookup_zip_with.
  set (t1 := (analizar_top_productos _ 10).1).
  set (t2 := (analizar_top_productos _ 10).2).
  destruct (t1 !! i) as [[pc c]|]; [|reflexivity].
  destruct (t2 !! i) as [[pm m]|]; reflexivity.
Qed.

(** *** Placing an image *)

Lemma int_escala (w : Z) (escala : Qc) :
  (0 ≤ w)%Z → (0 ≤ escala ≤ 1)%Qc → (0 ≤ int (Qc_of_Z w * escala) ≤ w)%Z.
Proof.
  intros Hw [H0 H1].
  assert (0 ≤ Qc_of_Z w)%Qc as Hw'
    by (rewrite <- Z2Qc_inj_0; by apply (proj1 (Z2Qc_inj_le _ _))).
  assert (0 ≤ Qc_of_Z w * escala)%Qc as Hq by (by apply Qcmult_nonneg_nonneg).
  assert (Qc_of_Z w * escala ≤ Qc_of_Z w)%Qc as Hle.
  { rewrite <- (Qcmult_1_l (Qc_of_Z w)) at 2. rewrite (Qcmult_comm _ escala).
    by apply Qcmult_le_mono_nonneg_r. }
  unfold int. rewrite decide_True by done. split.
  - rewrite <- (Qfloor_Qc_of_Z 0). apply Qfloor_resp_le.
    by rewrite Z2Qc_inj_0.
  - rewrite <- (Qfloor_Qc_of_Z w) at 2. by apply Qfloor_resp_le.
Qed.

Lemma int_cerca (q : Qc) :
  (0 ≤ q)%Qc → (q - 1 ≤ Qc_of_Z (int q) ≤ q + 1)%Qc.
Proof.
  intros Hq. unfold int. rewrite decide_True by done.
  pose proof (Qfloor_le q) as H0. pose proof (Qlt_floor q) as H1.
  rewrite inject_Z_plus in H1. change (inject_Z 1) with 1%Q in H1.
  change 1%Qc with (Q2Qc 1). a_Q. split; lra.
Qed.

(** X15. [insertar_imagen_en_excel] raises its file-not-found error exactly when
    the path does not exist.  On an image file it returns the sheet with
    that one image added at the anchor and nothing else changed.  The image
    keeps its size at scale 1; at a scale between 0 and 1 each side is an
    integer between 0 and the original side, within one pixel of the
    original side times the scale. *)
Theorem insertar_imagen_en_excel_casos (x : Salida) ws p celda escala :
  (insertar_imagen_en_excel x ws p celda escala
     = Err (FileNotFoundError_imagen p)
   ↔ existe x p = false) ∧
  (∀ img, buscar p x = Some (FicheroS (Png img)) →
     ∃ img',
       insertar_imagen_en_excel x ws p celda escala
         = Ok (add_image img' celda ws) ∧
       (escala = 1%Qc → img' = img) ∧
       ((0 ≤ escala ≤ 1)%Qc → (0 ≤ width img)%Z → (0 ≤ height img)%Z →
        (0 ≤ width img' ≤ width img)%Z ∧
        (0 ≤ height img' ≤ height img)%Z ∧
        (Qc_of_Z (width img) * escala - 1 ≤ Qc_of_Z (width img')
           ≤ Qc_of_Z (width img) * escala + 1)%Qc ∧
        (Qc_of_Z (height img) * escala - 1 ≤ Qc_of_Z (height img')
           ≤ Qc_of_Z (height img) * escala + 1)%Qc)) ∧
  (∀ ws', insertar_imagen_en_excel x ws p celda escala = Ok ws' →
     ∃ img,
       imagenes ws' = imagenes ws ++ [(celda, img)] ∧
       celdas ws' = celdas ws ∧ datos ws' = datos ws ∧
       title ws' = title ws ∧ tablas ws' = tablas ws).
Proof.
  unfold insertar_imagen_en_excel, XLImage, existe.
  split; [|split].
  - destruct (buscar p x) as [[|[img| |]]|] eqn:Hb.
    all: try (rewrite bool_decide_eq_true_2 by eauto;
              cbn [negb mbind resultado_bind]; split; done).
    rewrite bool_decide_eq_false_2 by (by intros [? ?]). done.
  - intros img Hb. rewrite Hb, bool_decide_eq_true_2 by eauto.
    cbn [negb mbind resultado_bind].
    destruct (decide (escala ≠ 1%Qc)) as [Hne|Heq].
    + eexists. split; [done|]. split; [done|].
      intros He Hw Hh. cbn [width height].
      assert (∀ w, (0 ≤ w)%Z → (0 ≤ Qc_of_Z w * escala)%Qc) as Hpos.
      { intros w Hw'. apply Qcmult_nonneg_nonneg; [|apply He].
        rewrite <- Z2Qc_inj_0. by apply (proj1 (Z2Qc_inj_le _ _)). }
      split; [by apply int_escala|]. split; [by apply int_escala|].
      split; apply int_cerca; by apply Hpos.
    + apply dec_stable in Heq. subst escala.
      exists img. split; [done|]. split; [done|].
      intros _ Hw Hh. rewrite !Qcmult_1_r.
      split; [lia|]. split; [lia|].
      assert (∀ q : Qc, (q - 1 ≤ q ≤ q + 1)%Qc) as Hq.
      { intros q. change 1%Qc with (Q2Qc 1). a_Q. split; lra. }
      split; apply Hq.
  - intros ws'. destruct (buscar p x) as [[|[img| |]]|].
    all: try (rewrite bool_decide_eq_true_2 by eauto;
              cbn [negb mbind resultado_bind]; done).
    2: { rewrite bool_decide_eq_false_2 by (by intros [? ?]). done. }
    rewrite bool_decide_eq_true_2 by eauto. cbn [negb mbind resultado_bind].
    intros [= <-]. eexists. done.
Qed.

(** *** The line totals *)

(** X3. Computing the line totals, PASO 2 of [main], keeps the rows, their
    order and their labels, and every cell of the seven input columns.  A
    line total is blank exactly when the quantity or the unit price is.
    The header gains [Total_Venta] once, at its end, and computing the
    totals again changes nothing. *)
Theorem calcular_Total_Venta_invariantes (t : Tabla) :
  length (filas (calcular_Total_Venta t)) = length (filas t) ∧
  index (calcular_Total_Venta t) = index t ∧
  (∀ i v', filas (calcular_Total_Venta t) !! i = Some v' →
     ∃ v, filas t !! i = Some v ∧ v' = con_Total_Venta (Total_Venta v') v ∧
       (Total_Venta v' = None ↔ Cantidad v = None ∨ Precio_Unitario v = None)) ∧
  (∀ c, c ∈ columns (calcular_Total_Venta t)
        ↔ c ∈ columns t ∨ c = "Total_Venta") ∧
  ("Total_Venta" ∉ columns t →
   columns (calcular_Total_Venta t) = columns t ++ ["Total_Venta"]) ∧
  calcular_Total_Venta (calcular_Total_Venta t) = calcular_Total_Venta t.
Proof.
  split; [by cbn; rewrite length_fmap|]. split; [done|].
  split; [|split; [|split]].
  - intros i v'. cbn [calcular_Total_Venta filas].
    rewrite list_lookup_fmap.
    destruct (filas t !! i) as [v|]; [|done]. intros [= <-].
    exists v. split; [done|]. split; [done|]. cbn.
    destruct (Cantidad v) as [c|], (Precio_Unitario v) as [q|]; cbn; split;
      intros H; try done; try (by left); try (by right); by destruct H.
  - intros c. cbn [calcular_Total_Venta columns]. case_decide as Hin.
    + split; [by left|]. by intros [?| ->].
    + by rewrite elem_of_app, list_elem_of_singleton.
  - intros Hn. cbn [calcular_Total_Venta columns]. by rewrite decide_False.
  - unfold calcular_Total_Venta. cbn [columns index filas]. f_equal.
    + destruct (decide ("Total_Venta" ∈ columns t)) as [Hin|Hin].
      * by rewrite decide_True.
      * rewrite decide_True; [done|]. apply elem_of_app. right. left.
    + rewrite <- list_fmap_compose. apply list_fmap_ext. by intros i v _.
Qed.

(** *** When a run succeeds, and what a failed run leaves *)

Lemma Run_bind_eq {S A B} (m : Estado S A) (k : A → Estado S B) (x x1 : S) a :
  m x = (Ok a, x1) → (m ≫= k) x = k a x1.
Proof. unfold mbind, Estado_bind. by intros ->. Qed.

Lemma Run_bind_Err {S A B} (m : Estado S A) (k : A → Estado S B) (x x1 : S) e :
  m x = (Err e, x1) → (m ≫= k) x = (Err e, x1).
Proof. unfold mbind, Estado_bind. by intros ->. Qed.

Lemma buscar_app {A} p (l1 l2 : list (Ruta * A)) :
  buscar p (l1 ++ l2)
  = match buscar p l1 with Some a => Some a | None => buscar p l2 end.
Proof.
  induction l1 as [|[q b] l1 IH]; cbn; [done|]. by case_decide.
Qed.

Lemma es_carpeta_buscar (x : Salida) p :
  buscar p x = Some CarpetaS → es_carpeta x p = true.
Proof. intros Hp. unfold es_carpeta. destruct p; [done|]. by rewrite Hp. Qed.

Lemma mkdir_Ok_si p (x : Salida) :
  buscar p x = None ∨ buscar p x = Some CarpetaS →
  es_carpeta x (parent p) = true →
  ∃ x1, mkdir p x = (Ok (), x1) ∧
    buscar p x1 = Some CarpetaS ∧
    ∀ q, q ≠ p → buscar q x1 = buscar q x.
Proof.
  intros [Hp|Hp] Hpar; unfold mkdir; rewrite Hp.
  - rewrite Hpar. eexists. split; [done|]. split.
    + rewrite buscar_app, Hp. cbn. by rewrite decide_True.
    + intros q Hq. rewrite buscar_app. destruct (buscar q x); [done|].
      cbn. by rewrite decide_False.
  - by exists x.
Qed.

Lemma escribir_Ok_si p a (x : Salida) :
  es_carpeta x (parent p) = true → buscar p x ≠ Some CarpetaS →
  escribir p a x = (Ok (), reemplazar p (FicheroS a) x).
Proof.
  unfold escribir. intros -> Hp. cbn [negb].
  by destruct (buscar p x) as [[|?]|].
Qed.

Lemma top_productos_misma_longitud df top_n :
  length (analizar_top_productos df top_n).1
  = length (analizar_top_productos df top_n).2.
Proof.
  unfold analizar_top_productos, round_series. cbn [fst snd].
  by rewrite length_fmap, !length_nlargest, <- !(length_fmap fst),
    !groupby_sum_claves.
Qed.

Lemma analisis_Ok_si df stats tendencia filas' :
  calcular_estadisticas_generales df = Ok stats →
  analizar_tendencia_temporal parse df = (Ok tendencia, filas') →
  analisis parse df
  = (Ok (stats, analizar_ventas_por_sucursal df, analizar_top_productos df 10,
         analizar_vendedores df, analizar_categorias df, tendencia), filas').
Proof.
  intros Hs Ht.
  unfold analisis, llamar_r, llamar, mirando, mbind, Estado_bind, mret,
    Estado_ret.
  by rewrite Hs, Ht.
Qed.

Lemma analisis_Err df e :
  (analisis parse df).1 = Err e → analisis parse df = (Err e, df).
Proof.
  unfold analisis, llamar_r, llamar, mirando, mbind, Estado_bind, mret,
    Estado_ret.
  destruct (calcular_estadisticas_generales df) as [st|]; [|by intros [= ->]].
  unfold analizar_tendencia_temporal.
  destruct (to_datetime parse (Fecha <$> df)); [done|]. by intros [= ->].
Qed.

(** The output side after the two directories have been made. *)
Lemma directorios_hechos (s : Salida) :
  salida_utilizable s →
  ∃ s3 s4,
    mkdir OUTPUT_DIR s = (Ok (), s3) ∧
    mkdir GRAFICOS_DIR s3 = (Ok (), s4) ∧
    buscar OUTPUT_DIR s4 = Some CarpetaS ∧
    buscar GRAFICOS_DIR s4 = Some CarpetaS ∧
    ∀ q, q ≠ OUTPUT_DIR → q ≠ GRAFICOS_DIR → buscar q s4 = buscar q s.
Proof.
  intros (Ho & Hg & _).
  destruct (mkdir_Ok_si OUTPUT_DIR s Ho eq_refl) as (s3 & Hm3 & Ho3 & Hq3).
  destruct (mkdir_Ok_si GRAFICOS_DIR s3) as (s4 & Hm4 & Hg4 & Hq4).
  { rewrite Hq3 by rutas_distintas. exact Hg. }
  { by apply es_carpeta_buscar. }
  exists s3, s4. repeat split; try done.
  - rewrite Hq4 by rutas_distintas. exact Ho3.
  - intros q Hqo Hqg. by rewrite Hq4, Hq3.
Qed.

Lemma crear_grafico_barras_Ok data titulo output_path img (x x1 : Salida) :
  matplotlib (GBarras data titulo) = Ok img →
  escribir output_path (Png img) x = (Ok (), x1) →
  crear_grafico_barras matplotlib data titulo output_path x = (Ok (), x1).
Proof.
  intros Hi Hw. unfold crear_grafico_barras.
  erewrite Run_bind_eq; [exact Hw|]. unfold elevar. by rewrite Hi.
Qed.

Lemma crear_grafico_circular_Ok data titulo output_path img (x x1 : Salida) :
  matplotlib (GCircular data titulo) = Ok img →
  escribir output_path (Png img) x = (Ok (), x1) →
  crear_grafico_circular matplotlib data titulo output_path x = (Ok (), x1).
Proof.
  intros Hi Hw. unfold crear_grafico_circular.
  erewrite Run_bind_eq; [exact Hw|]. unfold elevar. by rewrite Hi.
Qed.

Lemma crear_grafico_linea_Ok data titulo output_path img (x x1 : Salida) :
  matplotlib (GLinea data titulo) = Ok img →
  escribir output_path (Png img) x = (Ok (), x1) →
  crear_grafico_linea matplotlib data titulo output_path x = (Ok (), x1).
Proof.
  intros Hi Hw. unfold crear_grafico_linea.
  erewrite Run_bind_eq; [exact Hw|]. unfold elevar. by rewrite Hi.
Qed.

Lemma main_Ok_si d (s : Salida) (df0 : Tabla) stats tendencia filas'
    img1 img2 img3 :
  let df := filas (calcular_Total_Venta df0) in
  salida_utilizable s →
  leer_archivos_excel d INPUT_DIR "*.xlsx" (Some COLUMNAS_REQUERIDAS)
    = Ok df0 →
  calcular_estadisticas_generales df = Ok stats →
  analizar_tendencia_temporal parse df = (Ok tendencia, filas') →
  matplotlib
    (GBarras ((λ r, (ResumenSucursal.Sucursal r, ResumenSucursal.Total_Ventas r))
                <$> analizar_ventas_por_sucursal df)
             "Ventas Totales por Sucursal")
    = Ok img1 →
  matplotlib
    (GCircular ((λ r, (ResumenCategoria.Categoría r,
                       ResumenCategoria.Total_Ventas r))
                  <$> analizar_categorias df)
               "Distribución de Ventas por Categoría")
    = Ok img2 →
  matplotlib (GLinea tendencia "Evolución de Ventas Diarias") = Ok img3 →
  ∃ s', main parse matplotlib d s = (Ok (), s').
Proof.
  intros df Hs Hleer Hstats Htend Hi1 Hi2 Hi3.
  destruct (directorios_hechos s Hs) as (s3 & s4 & Hm3 & Hm4 & Ho4 & Hg4 & Hq4).
  destruct Hs as (_ & _ & Hf).
  apply Forall_cons in Hf as [Hp1 Hf]. apply Forall_cons in Hf as [Hp2 Hf].
  apply Forall_cons in Hf as [Hp3 Hf]. apply Forall_cons in Hf as [Hpo _].
  rewrite <- (Hq4 _) in Hp1 by rutas_distintas.
  rewrite <- (Hq4 _) in Hp2 by rutas_distintas.
  rewrite <- (Hq4 _) in Hp3 by rutas_distintas.
  rewrite <- (Hq4 _) in Hpo by rutas_distintas.
  enough ((main parse matplotlib d s).1 = Ok ()) as Hfin.
  { exists (main parse matplotlib d s).2. rewrite <- Hfin.
    apply surjective_pairing. }
  unfold main.
  erewrite Run_bind_eq; [|unfold elevar; by rewrite Hleer].
  fold df. rewrite (analisis_Ok_si df stats tendencia filas') by done.
  erewrite Run_bind_eq; [|reflexivity].
  cbn beta iota.
  pose proof (top_productos_misma_longitud df 10) as Hlen.
  destruct (analizar_top_productos df 10) as [tc tm]. cbn [fst snd] in Hlen.
  erewrite Run_bind_eq; [|exact Hm3].
  erewrite Run_bind_eq; [|exact Hm4].
  erewrite Run_bind_eq.
  2: { eapply crear_grafico_barras_Ok; [exact Hi1|].
       apply escribir_Ok_si; [by apply es_carpeta_buscar|exact Hp1]. }
  erewrite Run_bind_eq.
  2: { eapply crear_grafico_circular_Ok; [exact Hi2|].
       apply escribir_Ok_si.
       - apply es_carpeta_buscar.
         by rewrite buscar_reemplazar_ne by rutas_distintas.
       - by rewrite buscar_reemplazar_ne by rutas_distintas. }
  erewrite Run_bind_eq.
  2: { eapply crear_grafico_linea_Ok; [exact Hi3|].
       apply escribir_Ok_si.
       - apply es_carpeta_buscar.
         by rewrite !buscar_reemplazar_ne by rutas_distintas.
       - by rewrite !buscar_reemplazar_ne by rutas_distintas. }
  rewrite decide_True by done.
  erewrite Run_bind_eq.
  2: { apply escribir_Ok_si.
       - apply es_carpeta_buscar.
         by rewrite !buscar_reemplazar_ne by rutas_distintas.
       - by rewrite !buscar_reemplazar_ne by rutas_distintas. }
  match goal with |- ((_ ≫= _) ?x).1 = _ => remember x as s8 eqn:Hs8 end.
  assert (buscar OUTPUT_DIR s8 = Some CarpetaS) as Ho8
    by (rewrite Hs8; by rewrite !buscar_reemplazar_ne by rutas_distintas).
  destruct (crear_hoja_dashboard_tres s8 (hoja "Dashboard" DVacio) stats
              (OUTPUT_DIR // "graficos_temp") img1 img2 img3)
    as (dash & Hdash & _ & _ & Htit & _).
  { rewrite Hs8. rewrite !buscar_reemplazar_ne by rutas_distintas.
    apply buscar_reemplazar. }
  { rewrite Hs8. rewrite !buscar_reemplazar_ne by rutas_distintas.
    apply buscar_reemplazar. }
  { rewrite Hs8. rewrite buscar_reemplazar_ne by rutas_distintas.
    apply buscar_reemplazar. }
  cbn [title hoja] in Htit.
  assert (buscar (OUTPUT_DIR // "reporte_consolidado.xlsx") s8
          = Some (FicheroS (Libro
              [hoja "Dashboard" DVacio;
               hoja "Datos_Consolidados"
                 (DConsolidado (con_filas filas' (calcular_Total_Venta df0)));
               hoja "Top_Productos"
                 (DTop (zip_with (λ '(pc, c) '(pm, m), (pc, c, "", pm, m))
                                 tc tm));
               hoja "Analisis_Vendedores"
                 (DVendedores (analizar_vendedores df));
               hoja "Resumen_Sucursales"
                 (DSucursales (analizar_ventas_por_sucursal df))]))) as Hwb.
  { rewrite Hs8. apply buscar_reemplazar. }
  erewrite Run_bind_eq; [|unfold load_workbook; by rewrite Hwb].
  erewrite Run_bind_eq.
  2: { unfold mirando. rewrite sobre_hoja_aqui by done.
       rewrite Hdash. reflexivity. }
  erewrite Run_bind_eq.
  2: { unfold elevar. rewrite sobre_hoja_sigue by (by rewrite Htit).
       rewrite sobre_hoja_aqui by done. reflexivity. }
  erewrite Run_bind_eq.
  2: { unfold elevar. rewrite sobre_hoja_sigue by (by rewrite Htit).
       rewrite sobre_hoja_sigue by done.
       rewrite sobre_hoja_aqui by done. reflexivity. }
  erewrite Run_bind_eq.
  2: { unfold elevar. rewrite sobre_hoja_sigue by (by rewrite Htit).
       rewrite !sobre_hoja_sigue by done.
       rewrite sobre_hoja_aqui by done. reflexivity. }
  erewrite Run_bind_eq.
  2: { unfold elevar. rewrite sobre_hoja_sigue by (by rewrite Htit).
       rewrite !sobre_hoja_sigue by done.
       rewrite sobre_hoja_aqui by done. reflexivity. }
  rewrite escribir_Ok_si; [done|by apply es_carpeta_buscar|by rewrite Hwb].
Qed.

(** The rows of a table consolidated from workbooks whose date cells are
    all timestamps have a timestamp each. *)
Lemma fechas_de_los_libros d (df0 : Tabla) :
  libros_con_filas_y_fechas d →
  leer_archivos_excel d INPUT_DIR "*.xlsx" (Some COLUMNAS_REQUERIDAS)
    = Ok df0 →
  Forall (λ v, ∃ i, Fecha v = Some (Timestamp i))
    (filas (calcular_Total_Venta df0)).
Proof.
  intros Hl (_ & _ & tablas & Hread & _ & Hfilas & _)%leer_archivos_excel_Ok_inv.
  cbn [calcular_Total_Venta filas]. apply Forall_fmap. rewrite Hfilas.
  apply Forall_join, Forall_fmap, Forall_forall.
  intros t [j Hj]%list_elem_of_lookup_1.
  destruct (Forall2_lookup_r _ _ _ _ _ Hread Hj) as (a & Ha & Hat).
  destruct (Hl a t (list_elem_of_lookup_2 _ _ _ Ha) Hat) as [_ Hf].
  eapply Forall_impl; [exact Hf|]. by intros v [i Hv]; exists i.
Qed.

(** On such rows the two analysis calls that can raise return, and the
    daily series leaves the table as it is. *)
Lemma analisis_con_fechas df :
  Forall (λ v, ∃ i, Fecha v = Some (Timestamp i)) df →
  (∃ stats, calcular_estadisticas_generales df = Ok stats) ∧
  (∃ tendencia, analizar_tendencia_temporal parse df = (Ok tendencia, df)).
Proof.
  intros Hdf. split.
  - apply estadisticas_sin_texto.
    eapply Forall_impl; [exact Hdf|]. intros v [i Hv] x. by rewrite Hv.
  - rewrite tendencia_Ok.
    2: { eapply Forall_impl; [exact Hdf|]. intros v [i Hv] x. by rewrite Hv. }
    eexists. f_equal.
    induction Hdf as [|v df [i Hv] _ IH]; [done|].
    rewrite fmap_cons, IH. f_equal.
    unfold coercion, instante. rewrite Hv. by destruct v; cbn in *; subst.
Qed.


(** X17. A date typed as text that the date parser does not read ends the run
    with an exception before anything is written: the output side of the
    disk is as it was. *)
Theorem main_fecha_ilegible d (s : Salida) (df0 : Tabla) v x :
  leer_archivos_excel d INPUT_DIR "*.xlsx" (Some COLUMNAS_REQUERIDAS)
    = Ok df0 →
  v ∈ filas df0 → Fecha v = Some (FechaTexto x) → parse x = None →
  ∃ e, main parse matplotlib d s = (Err e, s).
Proof.
  intros Hleer Hv Hf Hp.
  set (df := filas (calcular_Total_Venta df0)).
  assert (∃ e, analisis parse df = (Err e, df)) as [e Han].
  { destruct (analisis parse df) as [[res|e] f] eqn:Han.
    - exfalso.
      destruct res as [[[[[stats ventas] [tc tm]] vend] cat] tend].
      apply analisis_Ok_inv in Han as (_ & _ & _ & _ & _ & Htend).
      assert (Forall (λ w, ∀ y, Fecha w = Some (FechaTexto y)
                                → is_Some (parse y)) df) as Hdf
        by (apply (tendencia_Ok_inv parse df tend); by rewrite Htend).
      rewrite Forall_forall in Hdf.
      destruct (Hdf (con_Total_Venta
                       (round 2 <$> (c ← Cantidad v; p ← Precio_Unitario v;
                                     Some (c * p)%Qc)) v)) with x
        as [t Ht]; [|done|by rewrite Hp in Ht].
      unfold df. cbn [calcular_Total_Venta filas].
      by apply (list_elem_of_fmap_2
                  (λ v, con_Total_Venta
                          (round 2 <$> (c ← Cantidad v; p ← Precio_Unitario v;
                                        Some (c * p)%Qc)) v)).
    - exists e. rewrite <- Han. apply analisis_Err. by rewrite Han. }
  exists e. unfold main.
  erewrite Run_bind_eq; [|unfold elevar; by rewrite Hleer].
  fold df. rewrite Han. by erewrite Run_bind_Err.
Qed.

Lemma reemplazar_mismo {A} p (a : A) (l : list (Ruta * A)) :
  buscar p l = Some a → reemplazar p a l = l.
Proof.
  induction l as [|[q b] l IH]; cbn; [done|].
  case_decide; [by intros [= ->] | intros Hb; by rewrite IH].
Qed.

Lemma reemplazar_reemplazar {A} p (a b : A) (l : list (Ruta * A)) :
  reemplazar p a (reemplazar p b l) = reemplazar p a l.
Proof.
  induction l as [|[q c] l IH]; cbn.
  - by rewrite decide_True.
  - case_decide; cbn; [by rewrite decide_True|].
    by rewrite decide_False, IH by done.
Qed.

Lemma mkdir_Ok_buscar p (x x1 : Salida) :
  mkdir p x = (Ok (), x1) →
  buscar p x1 = Some CarpetaS ∧ ∀ q, q ≠ p → buscar q x1 = buscar q x.
Proof.
  unfold mkdir. destruct (buscar p x) as [[|a]|] eqn:Hp; [|done|].
  - by intros [= <-].
  - destruct (es_carpeta x (parent p)); [|done]. intros [= <-]. split.
    + rewrite buscar_app, Hp. cbn. by rewrite decide_True.
    + intros q Hq. rewrite buscar_app. destruct (buscar q x); [done|].
      cbn. by rewrite decide_False.
Qed.

Lemma mkdir_existente p (x : Salida) :
  buscar p x = Some CarpetaS → mkdir p x = (Ok (), x).
Proof. unfold mkdir. by intros ->. Qed.

(** The dashboard depends on the disk only through the three chart files. *)
Lemma crear_hoja_dashboard_ext (x y : Salida) ws stats graficos_dir :
  buscar (graficos_dir // "ventas_sucursal.png") x
    = buscar (graficos_dir // "ventas_sucursal.png") y →
  buscar (graficos_dir // "categorias.png") x
    = buscar (graficos_dir // "categorias.png") y →
  buscar (graficos_dir // "tendencia.png") x
    = buscar (graficos_dir // "tendencia.png") y →
  crear_hoja_dashboard x ws stats graficos_dir
  = crear_hoja_dashboard y ws stats graficos_dir.
Proof.
  intros H1 H2 H3.
  unfold crear_hoja_dashboard, insertar_imagen_en_excel, XLImage, existe.
  by rewrite H1, H2, H3.
Qed.

(** X24. Running the program again on the same input, over the output that a
    successful run has left, succeeds and leaves the same output: the
    directories are found, and each chart and the workbook are rewritten in
    place with the content they already have. *)
Theorem main_idempotente d (s s' : Salida) :
  main parse matplotlib d s = (Ok (), s') →
  main parse matplotlib d s' = (Ok (), s').
Proof.
  intros H. pose proof H as H0.
  apply main_Ok_inv in H
    as (df0 & stats & tendencia & filas' & s3 & s4 & img1 & img2 & img3
        & dashboard & H).
  cbn zeta in H.
  destruct H as (Hleer & Hstats & Htend & Hlen & Hm3 & Hm4 & Hi1 & Hi2 & Hi3
                 & Hdash & Hs').
  apply mkdir_Ok_buscar in Hm3 as [Ho3 _].
  apply mkdir_Ok_buscar in Hm4 as [Hg4 Hq4].
  assert (buscar OUTPUT_DIR s4 = Some CarpetaS) as Ho4
    by (by rewrite Hq4 by rutas_distintas).
  match type of Hdash with
  | crear_hoja_dashboard (reemplazar _ ?a ?y) _ _ _ = _ =>
      pose proof (graficos_en_disco s4 img1 img2 img3 a) as (Hp1 & Hp2 & Hp3);
      remember a as writer eqn:Hwriter;
      remember y as s7 eqn:Hs7
  end.
  match type of Hs' with
  | _ = reemplazar _ ?b _ => remember b as final eqn:Hfinal
  end.
  assert (buscar OUTPUT_DIR s' = Some CarpetaS) as Ho'.
  { rewrite Hs', Hs7. by rewrite !buscar_reemplazar_ne by rutas_distintas. }
  assert (buscar GRAFICOS_DIR s' = Some CarpetaS) as Hg'.
  { rewrite Hs', Hs7. by rewrite !buscar_reemplazar_ne by rutas_distintas. }
  assert (buscar (GRAFICOS_DIR // "ventas_sucursal.png") s'
          = Some (FicheroS (Png img1))) as Hp1'
    by (rewrite Hs'; by rewrite buscar_reemplazar_ne by rutas_distintas).
  assert (buscar (GRAFICOS_DIR // "categorias.png") s'
          = Some (FicheroS (Png img2))) as Hp2'
    by (rewrite Hs'; by rewrite buscar_reemplazar_ne by rutas_distintas).
  assert (buscar (GRAFICOS_DIR // "tendencia.png") s'
          = Some (FicheroS (Png img3))) as Hp3'
    by (rewrite Hs'; by rewrite buscar_reemplazar_ne by rutas_distintas).
  assert (buscar output_file s' = Some final) as Hout'
    by (rewrite Hs'; apply buscar_reemplazar).
  assert (salida_utilizable s') as Hutil.
  { split; [by right|]. split; [by right|].
    repeat constructor; by rewrite ?Hp1', ?Hp2', ?Hp3', ?Hout', ?Hfinal. }
  destruct (main_Ok_si d s' df0 stats tendencia filas' img1 img2 img3
              Hutil Hleer Hstats Htend Hi1 Hi2 Hi3) as [s'' H2].
  rewrite H2. f_equal.
  apply main_Ok_inv in H2
    as (df0' & stats' & tendencia' & filas'' & s3' & s4' & img1' & img2'
        & img3' & dashboard' & H2).
  cbn zeta in H2.
  destruct H2 as (Hleer' & Hstats' & Htend' & _ & Hm3' & Hm4' & Hi1' & Hi2'
                  & Hi3' & Hdash' & ->).
  rewrite Hleer in Hleer'. injection Hleer' as <-.
  rewrite Hstats in Hstats'. injection Hstats' as <-.
  rewrite Htend in Htend'. injection Htend' as <- <-.
  rewrite Hi1 in Hi1'. injection Hi1' as <-.
  rewrite Hi2 in Hi2'. injection Hi2' as <-.
  rewrite Hi3 in Hi3'. injection Hi3' as <-.
  rewrite (mkdir_existente _ _ Ho') in Hm3'. injection Hm3' as <-.
  rewrite (mkdir_existente _ _ Hg') in Hm4'. injection Hm4' as <-.
  rewrite <- Hwriter in Hdash' |- *.
  rewrite (reemplazar_mismo _ _ s' Hp1') in Hdash' |- *.
  rewrite (reemplazar_mismo _ _ s' Hp2') in Hdash' |- *.
  rewrite (reemplazar_mismo _ _ s' Hp3') in Hdash' |- *.
  assert (dashboard' = dashboard) as ->.
  { rewrite (crear_hoja_dashboard_ext _ (reemplazar output_file writer s7))
      in Hdash'.
    - rewrite Hdash in Hdash'. by injection Hdash'.
    - rewrite buscar_reemplazar_ne by rutas_distintas. by rewrite Hp1', Hp1.
    - rewrite buscar_reemplazar_ne by rutas_distintas. by rewrite Hp2', Hp2.
    - rewrite buscar_reemplazar_ne by rutas_distintas. by rewrite Hp3', Hp3. }
  rewrite reemplazar_reemplazar, <- Hfinal.
  by apply reemplazar_mismo.
Qed.

Lemma crear_grafico_circular_Err data titulo output_path e (x : Salida) :
  matplotlib (GCircular data titulo) = Err e →
  crear_grafico_circular matplotlib data titulo output_path x = (Err e, x).
Proof.
  intros Hi. unfold crear_grafico_circular.
  erewrite Run_bind_Err; [done|]. unfold elevar. by rewrite Hi.
Qed.

(** X18. A chart that the plotting library refuses ends the run with the
    exception of the library, and with part of the output written.  With
    workbooks that each have at least one data row and a timestamp in every
    date cell, so that the analysis is through: when the bar chart has been
    rendered and the pie chart fails, the two directories exist and the bar
    chart is on the disk, while the other two charts and the report are as
    they were before the run. *)
Theorem main_grafico_fallido d (s : Salida) (df0 : Tabla) img1 e :
  let df := filas (calcular_Total_Venta df0) in
  salida_utilizable s →
  libros_con_filas_y_fechas d →
  leer_archivos_excel d INPUT_DIR "*.xlsx" (Some COLUMNAS_REQUERIDAS)
    = Ok df0 →
  matplotlib
    (GBarras ((λ r, (ResumenSucursal.Sucursal r, ResumenSucursal.Total_Ventas r))
                <$> analizar_ventas_por_sucursal df)
             "Ventas Totales por Sucursal")
    = Ok img1 →
  matplotlib
    (GCircular ((λ r, (ResumenCategoria.Categoría r,
                       ResumenCategoria.Total_Ventas r))
                  <$> analizar_categorias df)
               "Distribución de Ventas por Categoría")
    = Err e →
  ∃ s',
    main parse matplotlib d s = (Err e, s') ∧
    buscar OUTPUT_DIR s' = Some CarpetaS ∧
    buscar GRAFICOS_DIR s' = Some CarpetaS ∧
    buscar (GRAFICOS_DIR // "ventas_sucursal.png") s'
      = Some (FicheroS (Png img1)) ∧
    buscar (GRAFICOS_DIR // "categorias.png") s'
      = buscar (GRAFICOS_DIR // "categorias.png") s ∧
    buscar (GRAFICOS_DIR // "tendencia.png") s'
      = buscar (GRAFICOS_DIR // "tendencia.png") s ∧
    buscar output_file s' = buscar output_file s.
Proof.
  intros df Hs Hl Hleer Hi1 Hi2.
  destruct (analisis_con_fechas df) as [[stats Hstats] [tendencia Htend]];
    [by apply (fechas_de_los_libros d)|].
  destruct (directorios_hechos s Hs) as (s3 & s4 & Hm3 & Hm4 & Ho4 & Hg4 & Hq4).
  destruct Hs as (_ & _ & Hf). apply Forall_cons in Hf as [Hp1 _].
  rewrite <- (Hq4 _) in Hp1 by rutas_distintas.
  exists (reemplazar (GRAFICOS_DIR // "ventas_sucursal.png")
            (FicheroS (Png img1)) s4).
  split.
  { unfold main.
    erewrite Run_bind_eq; [|unfold elevar; by rewrite Hleer].
    fold df.
    rewrite (analisis_Ok_si df stats tendencia df) by done.
    erewrite Run_bind_eq; [|reflexivity].
    cbn beta iota.
    destruct (analizar_top_productos df 10) as [tc tm].
    erewrite Run_bind_eq; [|exact Hm3].
    erewrite Run_bind_eq; [|exact Hm4].
    erewrite Run_bind_eq.
    2: { eapply crear_grafico_barras_Ok; [exact Hi1|].
         apply escribir_Ok_si; [by apply es_carpeta_buscar|exact Hp1]. }
    erewrite Run_bind_Err; [done|]. by apply crear_grafico_circular_Err. }
  split; [by rewrite buscar_reemplazar_ne by rutas_distintas|].
  split; [by rewrite buscar_reemplazar_ne by rutas_distintas|].
  split; [apply buscar_reemplazar|].
  split; [|split];
    rewrite buscar_reemplazar_ne by rutas_distintas;
    apply Hq4; rutas_distintas.
Qed.
End informe.

(** ** The logger *)

Section registro.
Implicit Types (ls : Loggers) (name : string).

Lemma getLogger_insert name l ls :
  logging.getLogger name (<[logging.nombre name := l]> ls) = l.
Proof. unfold logging.getLogger. by rewrite lookup_insert_eq. Qed.

Lemma getLogger_insert_ne name otro l ls :
  logging.nombre otro ≠ logging.nombre name →
  logging.getLogger otro (<[logging.nombre name := l]> ls)
  = logging.getLogger otro ls.
Proof. intros Hn. unfold logging.getLogger. by rewrite lookup_insert_ne. Qed.

(** X25. Two calls of [setup_logger] for the same logger, with any two levels.
    The second call returns the same logger, gives it the second level and
    adds no handler.  A logger that had no handler gets exactly one from the
    first call, and that handler keeps the level of the first call whatever
    the second level is; a logger that had handlers is given none.  Every
    other logger is as it was. *)
Theorem setup_logger_sin_duplicados name (n1 n2 : Z) ls :
  let ls1 := (setup_logger name n1 ls).2 in
  let ls2 := (setup_logger name n2 ls1).2 in
  (setup_logger name n2 ls1).1 = (setup_logger name n1 ls).1 ∧
  Logger.level (logging.getLogger name ls1) = n1 ∧
  Logger.level (logging.getLogger name ls2) = n2 ∧
  Logger.handlers (logging.getLogger name ls2)
    = Logger.handlers (logging.getLogger name ls1) ∧
  (Logger.handlers (logging.getLogger name ls) = [] →
   ∃ h, Logger.handlers (logging.getLogger name ls1) = [h] ∧
        Handler.level h = n1) ∧
  (Logger.handlers (logging.getLogger name ls) ≠ [] →
   Logger.handlers (logging.getLogger name ls1)
     = Logger.handlers (logging.getLogger name ls)) ∧
  (∀ otro, logging.nombre otro ≠ logging.nombre name →
     logging.getLogger otro ls2 = logging.getLogger otro ls).
Proof.
  cbn zeta. unfold setup_logger. cbn [fst snd].
  rewrite !getLogger_insert. cbn [Logger.handlers Logger.level].
  destruct (Logger.handlers (logging.getLogger name ls)) as [|h hs] eqn:Hh;
    cbn [app Logger.handlers Logger.level].
  - repeat split; try done; [eauto|].
    intros otro Hn. by rewrite !getLogger_insert_ne.
  - repeat split; try done.
    intros otro Hn. by rewrite !getLogger_insert_ne.
Qed.
End registro.

(** ** The statements on sample data *)

Lemma main_disco_ej_Ok :
  (main parse_iso matplotlib_ej disco_ej []).1 = Ok ().
Proof. vm_compute. reflexivity. Qed.

Lemma leer_archivos_excel_consolida_witness :
  ∃ df,
    leer_archivos_excel disco_ej INPUT_DIR "*.xlsx" (Some COLUMNAS_REQUERIDAS)
      = Ok df ∧
    length (filas df) = 3%nat ∧
    filas df = filas tabla_centro ++ filas tabla_norte ∧
    index df = [0; 1; 2]%nat.
Proof.
  destruct (leer_archivos_excel_consolida disco_ej INPUT_DIR "*.xlsx"
              (Some COLUMNAS_REQUERIDAS)
              [INPUT_DIR // "ventas_sucursal_centro.xlsx";
               INPUT_DIR // "ventas_sucursal_norte.xlsx"]
              [tabla_centro; tabla_norte])
    as (df & Hdf & Hlen & Hfilas & _ & Hidx).
  - reflexivity.
  - discriminate.
  - repeat constructor.
  - constructor; [|constructor; [|constructor]];
      intros req [= <-]; reflexivity.
  - exists df. rewrite Hidx, Hlen, Hfilas. repeat split; try reflexivity. exact Hdf.
Defined.

Lemma leer_archivos_excel_columnas_faltantes_witness :
  leer_archivos_excel disco_sin_sucursal INPUT_DIR "*.xlsx"
    (Some COLUMNAS_REQUERIDAS)
    = Err (ValueError_columnas "ventas_sucursal_sur.xlsx" {[ "Sucursal" ]}) ∧
  main parse_iso matplotlib_ej disco_sin_sucursal []
    = (Err (ValueError_columnas "ventas_sucursal_sur.xlsx" {[ "Sucursal" ]}), []).
Proof.
  destruct (leer_archivos_excel_columnas_faltantes parse_iso matplotlib_ej
              disco_sin_sucursal [] INPUT_DIR "*.xlsx" COLUMNAS_REQUERIDAS
              [INPUT_DIR // "ventas_sucursal_centro.xlsx"]
              (INPUT_DIR // "ventas_sucursal_sur.xlsx")
              [INPUT_DIR // "ventas_sucursal_este.xlsx"]
              tabla_sin_sucursal)
    as (_ & _ & Hleer & _ & _ & Hmain).
  - discriminate.
  - reflexivity.
  - constructor; [|constructor]. exists tabla_centro.
    split; reflexivity.
  - reflexivity.
  - intros Hsub.
    assert ("Sucursal" ∈ columns tabla_sin_sucursal) as Hin
      by (apply Hsub; calcula).
    revert Hin. calcula.
  - assert ((list_to_set COLUMNAS_REQUERIDAS
             ∖ list_to_set (columns tabla_sin_sucursal) : gset string)
            = {[ "Sucursal" ]}) as Heq by calcula.
    rewrite Heq in Hleer, Hmain.
    split; [exact Hleer | exact (Hmain eq_refl eq_refl eq_refl)].
Defined.

Lemma crear_hoja_dashboard_imagenes_ausentes_witness :
  ∃ ws',
    crear_hoja_dashboard salida_sin_categorias (hoja "Dashboard" DVacio)
      (mkStats 0%Qc 0 NaN None None 0 0 0) (OUTPUT_DIR // "graficos_temp")
      = Ok ws' ∧
    imagenes ws'
      = [(("B", 14%nat), {| width := 1650; height := 990 |});
         (("B", 39%nat), {| width := 1440; height := 900 |})].
Proof.
  destruct (crear_hoja_dashboard_imagenes_ausentes salida_sin_categorias
              (hoja "Dashboard" DVacio) (mkStats 0%Qc 0 NaN None None 0 0 0)
              (OUTPUT_DIR // "graficos_temp"))
    as (ws' & Hws & Himg & _).
  - right. eexists. reflexivity.
  - left. reflexivity.
  - right. eexists. reflexivity.
  - exists ws'. split; [exact Hws|]. rewrite Himg. vm_compute. reflexivity.
Defined.

Lemma main_hojas_del_reporte_witness :
  ∃ wb,
    buscar (OUTPUT_DIR // "reporte_consolidado.xlsx")
           (main parse_iso matplotlib_ej disco_ej []).2
      = Some (FicheroS (Libro wb)) ∧
    title <$> wb = ["Dashboard"; "Datos_Consolidados"; "Top_Productos";
                    "Analisis_Vendedores"; "Resumen_Sucursales"].
Proof.
  apply (main_hojas_del_reporte parse_iso matplotlib_ej disco_ej []).
  rewrite <- main_disco_ej_Ok. apply surjective_pairing.
Defined.

Lemma transacciones_sin_fecha_nula_witness :
  ∃ r, r ∈ analizar_ventas_por_sucursal df_sin_fecha ∧
    ResumenSucursal.Sucursal r = "Norte" ∧
    ResumenSucursal.Transacciones r = 1%nat ∧
    length (grupo Sucursal "Norte" df_sin_fecha) = 2%nat ∧
    ResumenSucursal.Total_Ventas r = qc 110 1.
Proof.
  destruct (transacciones_sin_fecha_nula df_sin_fecha venta_sin_fecha)
    as [Hs _].
  - unfold df_sin_fecha. apply elem_of_app. right. apply list_elem_of_singleton.
    reflexivity.
  - reflexivity.
  - destruct (Hs "Norte" eq_refl) as (r & Hr & Hk & _ & Hn & _ & Hv).
    exists r. split; [exact Hr|]. split; [exact Hk|].
    rewrite Hn, Hv.
    split; [vm_compute; reflexivity|].
    split; [vm_compute; reflexivity | qc_calc].
Defined.

Lemma participacion_en_rango_y_suma_uno_witness :
  ∃ qs,
    ResumenSucursal.Participacion <$> analizar_ventas_por_sucursal df_ej
      = Fin <$> qs ∧
    Forall (λ q, (0 ≤ q ≤ 1)%Qc) qs ∧ suma (Some <$> qs) = 1%Qc.
Proof.
  assert (Forall (λ v, ∀ x, Total_Venta v = Some x → (0 ≤ x)%Qc) df_ej) as Hpos.
  { repeat constructor; intros x [= <-]; calcula. }
  destruct (participacion_en_rango_y_suma_uno df_ej Hpos) as (Hs & _ & Hgran).
  apply Hs. apply Hgran.
  - repeat constructor; intros x [= <-]; apply round_idem.
  - calcula.
  - repeat constructor; eexists; reflexivity.
Defined.

(** The sheet without [Sucursal] is among the matched files of
    [disco_ilegible_y_sin_sucursal], and the ingestion ends with the
    exception of the file listed before it, which names neither the sheet nor
    a column. *)
Lemma columnas_faltantes_tras_un_ilegible :
  (∃ p t,
     p ∈ glob disco_ilegible_y_sin_sucursal INPUT_DIR "*.xlsx" ∧
     pd.read_excel disco_ilegible_y_sin_sucursal p = Ok t ∧
     ¬ COLUMNAS_REQUERIDAS ⊆ columns t) ∧
  leer_archivos_excel disco_ilegible_y_sin_sucursal INPUT_DIR "*.xlsx"
    (Some COLUMNAS_REQUERIDAS)
    = Err (ErrorBiblioteca "File is not a zip file") ∧
  (∀ archivo faltantes,
     leer_archivos_excel disco_ilegible_y_sin_sucursal INPUT_DIR "*.xlsx"
       (Some COLUMNAS_REQUERIDAS)
     ≠ Err (ValueError_columnas archivo faltantes)).
Proof.
  split; [|split; [reflexivity | discriminate]].
  exists (INPUT_DIR // "ventas_sucursal_sur.xlsx"), tabla_sin_sucursal.
  split; [calcula|]. split; [reflexivity|].
  intros Hsub.
  assert ("Sucursal" ∈ columns tabla_sin_sucursal) as Hin
    by (apply Hsub; calcula).
  revert Hin. calcula.
Qed.

(** In [disco_input_fichero] there is no input directory, a regular file
    stands at its path; the error raised is not the directory-not-found one
    but the no-matching-files one. *)
Lemma carpeta_que_es_un_fichero :
  ¬ carpeta_existe disco_input_fichero INPUT_DIR ∧
  leer_archivos_excel disco_input_fichero INPUT_DIR "*.xlsx"
    (Some COLUMNAS_REQUERIDAS)
    = Err (ValueError_sin_archivos "*.xlsx" INPUT_DIR) ∧
  leer_archivos_excel disco_input_fichero INPUT_DIR "*.xlsx"
    (Some COLUMNAS_REQUERIDAS)
    ≠ Err (FileNotFoundError_carpeta INPUT_DIR).
Proof.
  split; [discriminate|]. split; [reflexivity | discriminate].
Qed.

(** The table of [df_fechas_texto] is not the same after
    [analizar_tendencia_temporal]: its dates have become timestamps. *)
Lemma tendencia_cambia_la_tabla :
  (analizar_tendencia_temporal parse_iso df_fechas_texto).2 ≠ df_fechas_texto.
Proof.
  intros H. apply (f_equal (fmap Fecha)) in H. vm_compute in H. discriminate.
Qed.

(** With a return in the table the grand total is positive and yet a share
    falls outside [0,1]: Centro has 300 of a total of 200. *)
Lemma participacion_fuera_de_rango :
  (0 < suma (Total_Venta <$> df_devolucion))%Qc ∧
  ¬ Forall (λ x, ∃ q, x = Fin q ∧ (0 ≤ q ≤ 1)%Qc)
      (ResumenSucursal.Participacion <$> analizar_ventas_por_sucursal df_devolucion).
Proof.
  split; [calcula|].
  assert (ResumenSucursal.Participacion <$> analizar_ventas_por_sucursal df_devolucion
          = [Fin (qc 3 2); Fin (qc (-1) 2)]) as -> by calcula.
  intros [(q & [= <-] & _ & Hq) _]%Forall_cons.
  revert Hq. apply Qclt_not_le. calcula.
Qed.


(** The mean transaction value of [tabla_tercios], 40/3, is stored as it is,
    not rounded to two decimals. *)
Lemma ticket_promedio_sin_redondear :
  ∃ stats,
    calcular_estadisticas_generales (filas (calcular_Total_Venta tabla_tercios))
      = Ok stats ∧
    ticket_promedio stats = Fin (qc 40 3) ∧
    round_numero 2 (ticket_promedio stats) ≠ ticket_promedio stats.
Proof.
  assert (match calcular_estadisticas_generales
                  (filas (calcular_Total_Venta tabla_tercios)) with
          | Ok st => ticket_promedio st
          | Err _ => NaN
          end = Fin (qc 40 3)) as Hm by calcula.
  destruct (calcular_estadisticas_generales _) as [stats|e]; [|discriminate Hm].
  exists stats. split; [done|]. rewrite Hm. split; [done|]. calcula.
Qed.

(** A successful run on [disco_ej] saves a workbook whose sheets do not bear
    the English names. *)
Lemma main_hojas_no_en_ingles :
  ∃ s' wb,
    main parse_iso matplotlib_ej disco_ej [] = (Ok (), s') ∧
    buscar (OUTPUT_DIR // "reporte_consolidado.xlsx") s'
      = Some (FicheroS (Libro wb)) ∧
    title <$> wb ≠ ["Dashboard"; "Consolidated_Data"; "Top_Products";
                    "Salesperson_Analysis"; "Branch_Summary"].
Proof.
  pose proof main_disco_ej_Ok as Hr.
  assert (match buscar (OUTPUT_DIR // "reporte_consolidado.xlsx")
                  (main parse_iso matplotlib_ej disco_ej []).2 with
          | Some (FicheroS (Libro wb)) => title <$> wb
          | _ => []
          end
          = ["Dashboard"; "Datos_Consolidados"; "Top_Productos";
             "Analisis_Vendedores"; "Resumen_Sucursales"]) as Ht
    by (vm_compute; reflexivity).
  destruct (main parse_iso matplotlib_ej disco_ej []) as [r s'].
  cbn [fst snd] in Hr, Ht. subst r.
  destruct (buscar _ s') as [[|[img|wb|]]|] eqn:Hb; try discriminate Ht.
  exists s', wb. split; [reflexivity|]. split; [exact Hb|].
  rewrite Ht. discriminate.
Qed.

Lemma leer_archivos_excel_archivo_ilegible_witness :
  leer_archivos_excel disco_ilegible INPUT_DIR "*.xlsx"
    (Some COLUMNAS_REQUERIDAS)
    = Err (ErrorBiblioteca "File is not a zip file") ∧
  main parse_iso matplotlib_ej disco_ilegible []
    = (Err (ErrorBiblioteca "File is not a zip file"), []).
Proof.
  destruct (leer_archivos_excel_archivo_ilegible parse_iso matplotlib_ej
              disco_ilegible [] INPUT_DIR "*.xlsx" (Some COLUMNAS_REQUERIDAS)
              [INPUT_DIR // "ventas_sucursal_centro.xlsx"]
              (INPUT_DIR // "ventas_sucursal_este.xlsx")
              [INPUT_DIR // "ventas_sucursal_norte.xlsx"]
              (ErrorBiblioteca "File is not a zip file"))
    as [Hleer Hmain].
  - reflexivity.
  - constructor; [|constructor]. exists tabla_centro.
    split; [reflexivity|]. intros req [= <-]. reflexivity.
  - reflexivity.
  - split; [exact Hleer | exact (Hmain eq_refl eq_refl eq_refl)].
Defined.

Lemma leer_archivos_excel_solo_si_todo_carga_witness :
  ∃ tablas,
    Forall2 (λ a t, pd.read_excel disco_ej a = Ok t)
      (glob disco_ej INPUT_DIR "*.xlsx") tablas ∧
    ∀ c, c ∈ COLUMNAS_REQUERIDAS → ∃ t, t ∈ tablas ∧ c ∈ columns t.
Proof.
  destruct (leer_archivos_excel_solo_si_todo_carga disco_ej INPUT_DIR "*.xlsx"
              (Some COLUMNAS_REQUERIDAS)
              (mkTabla COLUMNAS_REQUERIDAS [0; 1; 2]%nat
                 (filas tabla_centro ++ filas tabla_norte)))
    as (_ & _ & tablas & Hread & _ & _ & Hcols & Hreq).
  - reflexivity.
  - exists tablas. split; [exact Hread|].
    intros c Hc. exact (proj1 (Hcols c) (Hreq _ eq_refl c Hc)).
Defined.

Lemma df_ej_sin_texto :
  Forall (λ v, ∀ s, Fecha v ≠ Some (FechaTexto s)) df_ej.
Proof. repeat constructor; intros s Hs; discriminate Hs. Qed.

Lemma df_ej_redondeado :
  Forall (λ v, ∀ x, Total_Venta v = Some x → round 2 x = x) df_ej.
Proof. repeat constructor; intros x [= <-]; apply round_idem. Qed.

Lemma ingresos_por_grupo_y_total_witness :
  ∃ stats,
    calcular_estadisticas_generales df_ej = Ok stats ∧
    suma (Some <$> (ResumenSucursal.Total_Ventas
                      <$> analizar_ventas_por_sucursal df_ej))
      = total_ventas stats.
Proof.
  destruct (estadisticas_sin_texto df_ej df_ej_sin_texto) as [stats Hstats].
  exists stats. split; [exact Hstats|].
  destruct (ingresos_por_grupo_y_total df_ej stats df_ej_redondeado Hstats)
    as (_ & Hs & _).
  apply Hs. repeat constructor; eexists; reflexivity.
Defined.

Lemma transacciones_por_grupo_y_total_witness :
  ∃ stats,
    calcular_estadisticas_generales df_sin_fecha = Ok stats ∧
    (sum_list (ResumenSucursal.Transacciones
                 <$> analizar_ventas_por_sucursal df_sin_fecha)
     ≤ total_transacciones stats)%nat.
Proof.
  destruct (estadisticas_sin_texto df_sin_fecha) as [stats Hstats].
  { repeat constructor; intros s Hs; discriminate Hs. }
  exists stats. split; [exact Hstats|].
  destruct (transacciones_por_grupo_y_total df_sin_fecha stats Hstats)
    as (_ & _ & Hle & _).
  exact Hle.
Defined.

Lemma una_fila_por_clave_witness :
  ∃ stats,
    calcular_estadisticas_generales df_ej = Ok stats ∧
    length (analizar_ventas_por_sucursal df_ej) = num_sucursales stats.
Proof.
  destruct (estadisticas_sin_texto df_ej df_ej_sin_texto) as [stats Hstats].
  exists stats. split; [exact Hstats|].
  destruct (una_fila_por_clave df_ej stats Hstats) as ((Hn & _) & _).
  exact Hn.
Defined.

Lemma participacion_sin_ingresos_witness :
  Forall (λ r, ResumenSucursal.Total_Ventas r = 0%Qc ∧
               ResumenSucursal.Participacion r = NaN)
         (analizar_ventas_por_sucursal df_sin_ingresos) ∧
  ResumenSucursal.Sucursal <$> analizar_ventas_por_sucursal df_sin_ingresos
    ≡ₚ ["Centro"; "Norte"].
Proof.
  split; [|vm_compute; reflexivity].
  apply (participacion_sin_ingresos df_sin_ingresos).
  calcula.
Defined.

Lemma ticket_promedio_por_vendedor_witness :
  ∃ r, r ∈ analizar_vendedores df_vendedor_sin_fecha ∧
    ResumenVendedor.Transacciones r = 0%nat ∧
    ResumenVendedor.Ticket_Promedio r = Inf false.
Proof.
  exists (fila_vendedor df_vendedor_sin_fecha "Lucía Torres").
  assert (fila_vendedor df_vendedor_sin_fecha "Lucía Torres"
          ∈ analizar_vendedores df_vendedor_sin_fecha) as Hr.
  { apply elem_of_analizar_vendedores. exists "Lucía Torres".
    split; [|reflexivity]. apply (elem_of_claves String.le).
    exists venta_sin_fecha. split; [left | reflexivity]. }
  split; [exact Hr|]. split; [reflexivity|].
  destruct (ticket_promedio_por_vendedor df_vendedor_sin_fecha _ Hr)
    as (_ & _ & _ & H0).
  rewrite (H0 eq_refl). calcula.
Defined.

Lemma df_fechas_texto_legible :
  Forall (λ v, ∀ s, Fecha v = Some (FechaTexto s) → is_Some (parse_iso s))
    df_fechas_texto.
Proof. repeat constructor; intros s [= <-]; vm_compute; eauto. Qed.

Lemma tendencia_por_instante_witness :
  ∃ tendencia df',
    analizar_tendencia_temporal parse_iso df_fechas_texto
      = (Ok tendencia, df') ∧
    length df' = 2%nat ∧
    StronglySorted Z.lt tendencia.*1 ∧
    Forall (λ v', ∀ x, Fecha v' ≠ Some (FechaTexto x)) df'.
Proof.
  eexists _, _. split; [exact (tendencia_Ok parse_iso df_fechas_texto
                                 df_fechas_texto_legible)|].
  destruct (tendencia_por_instante parse_iso df_fechas_texto _ _
              (tendencia_Ok parse_iso df_fechas_texto df_fechas_texto_legible))
    as (Hlen & Hfilas & Hs & _).
  split; [exact Hlen|]. split; [exact Hs|].
  apply Forall_forall. intros v' [i Hi]%list_elem_of_lookup_1.
  destruct (Hfilas i v' Hi) as (v & _ & _ & Hx & _). exact Hx.
Defined.

Lemma tendencia_idempotente_witness :
  analizar_tendencia_temporal parse_iso (coercion parse_iso <$> df_fechas_texto)
  = (Ok (round_series 2
           (groupby_sum Z.le (instante parse_iso) Total_Venta df_fechas_texto)),
     coercion parse_iso <$> df_fechas_texto).
Proof.
  exact (proj2 (tendencia_idempotente parse_iso df_fechas_texto _ _
                  (tendencia_Ok parse_iso df_fechas_texto
                     df_fechas_texto_legible))).
Defined.

Lemma periodo_de_las_estadisticas_witness :
  ∃ stats, calcular_estadisticas_generales df_ej = Ok stats.
Proof.
  destruct (periodo_de_las_estadisticas df_ej df_ej_sin_texto)
    as (stats & Hstats & _).
  exists stats. exact Hstats.
Defined.

Lemma main_disco_ej_par :
  main parse_iso matplotlib_ej disco_ej []
  = (Ok (), (main parse_iso matplotlib_ej disco_ej []).2).
Proof. rewrite <- main_disco_ej_Ok. apply surjective_pairing. Qed.

Lemma leer_disco_ej :
  leer_archivos_excel disco_ej INPUT_DIR "*.xlsx" (Some COLUMNAS_REQUERIDAS)
  = Ok (mkTabla COLUMNAS_REQUERIDAS [0; 1; 2]%nat
          (filas tabla_centro ++ filas tabla_norte)).
Proof. reflexivity. Qed.

Lemma salida_utilizable_nil : salida_utilizable [].
Proof.
  split; [by left|]. split; [by left|].
  repeat constructor; intros H; discriminate H.
Qed.

Lemma main_dashboard_completo_witness :
  ∃ wb ws,
    buscar output_file (main parse_iso matplotlib_ej disco_ej []).2
      = Some (FicheroS (Libro wb)) ∧
    wb !! 0%nat = Some ws ∧
    length (imagenes ws) = 3%nat.
Proof.
  destruct (main_dashboard_completo parse_iso matplotlib_ej disco_ej [] _
              main_disco_ej_par)
    as (df0 & stats & tendencia & wb & ws & img1 & img2 & img3 & H).
  destruct H as (_ & _ & _ & _ & _ & _ & Hwb & Hws & _ & _ & _ & Himg & _).
  exists wb, ws. split; [exact Hwb|]. split; [exact Hws|].
  rewrite Himg. reflexivity.
Defined.

Lemma main_hoja_de_datos_witness :
  ∃ wb ws,
    buscar output_file (main parse_iso matplotlib_ej disco_ej []).2
      = Some (FicheroS (Libro wb)) ∧
    wb !! 1%nat = Some ws ∧
    tablas ws = [("TablaDatosConsolidados", (("A", 1%nat), ("H", 4%nat)))].
Proof.
  destruct (main_hoja_de_datos parse_iso matplotlib_ej disco_ej [] _
              main_disco_ej_par)
    as (df0 & wb & ws & T & Hleer & Hwb & Hws & _ & _ & _ & _ & _ & _ & _
        & _ & _ & Htab).
  rewrite leer_disco_ej in Hleer. injection Hleer as <-.
  exists wb, ws. split; [exact Hwb|]. split; [exact Hws|]. exact Htab.
Defined.

Lemma main_fila_de_totales_witness :
  ∃ wb ws,
    buscar output_file (main parse_iso matplotlib_ej disco_ej []).2
      = Some (FicheroS (Libro wb)) ∧
    wb !! 4%nat = Some ws ∧
    celdas ws =
      [(("A", 4%nat), VTexto "TOTAL");
       (("B", 4%nat), VSuma "B" 2 3);
       (("C", 4%nat), VSuma "C" 2 3);
       (("D", 4%nat), VSuma "D" 2 3)].
Proof.
  destruct (main_fila_de_totales parse_iso matplotlib_ej disco_ej [] _
              main_disco_ej_par)
    as (df0 & stats & wb & ws & Hleer & Hstats & Hwb & Hws & _ & _ & Hn
        & Hcel & _).
  rewrite leer_disco_ej in Hleer. injection Hleer as <-.
  exists wb, ws. split; [exact Hwb|]. split; [exact Hws|].
  rewrite Hcel, <- Hn. reflexivity.
Defined.

Lemma main_hoja_de_vendedores_witness :
  ∃ wb ws,
    buscar output_file (main parse_iso matplotlib_ej disco_ej []).2
      = Some (FicheroS (Libro wb)) ∧
    wb !! 3%nat = Some ws ∧
    tablas ws = [("TablaVendedores", (("A", 1%nat), ("D", 4%nat)))].
Proof.
  destruct (main_hoja_de_vendedores parse_iso matplotlib_ej disco_ej [] _
              main_disco_ej_par)
    as (df0 & stats & wb & ws & Hleer & Hstats & Hwb & Hws & _ & _ & Hn
        & _ & _ & Htab).
  rewrite leer_disco_ej in Hleer. injection Hleer as <-.
  exists wb, ws. split; [exact Hwb|]. split; [exact Hws|].
  rewrite Htab, <- Hn. reflexivity.
Defined.

Lemma main_hoja_de_productos_witness :
  ∃ wb ws filas_top,
    buscar output_file (main parse_iso matplotlib_ej disco_ej []).2
      = Some (FicheroS (Libro wb)) ∧
    wb !! 2%nat = Some ws ∧
    datos ws = DTop filas_top ∧
    celdas ws = [(("A", 1%nat), VTexto "MÁS VENDIDOS (Por Cantidad)");
                 (("D", 1%nat), VTexto "MÁS RENTABLES (Por Monto)")].
Proof.
  destruct (main_hoja_de_productos parse_iso matplotlib_ej disco_ej [] _
              main_disco_ej_par)
    as (df0 & stats & wb & ws & filas_top & _ & _ & Hwb & Hws & _ & Hdat
        & _ & _ & Hcel & _).
  exists wb, ws, filas_top.
  split; [exact Hwb|]. split; [exact Hws|]. split; [exact Hdat | exact Hcel].
Defined.



Lemma main_fecha_ilegible_witness :
  ∃ e, main parse_iso matplotlib_ej disco_fecha_palabra [] = (Err e, []).
Proof.
  apply (main_fecha_ilegible parse_iso matplotlib_ej disco_fecha_palabra []
           (mkTabla COLUMNAS_REQUERIDAS [0]%nat (filas tabla_fecha_palabra))
           (venta (Some (FechaTexto "ayer")) "Webcam HD" "Accesorios" 1
                  (qc 55 1) "Lucía Torres" "Norte")
           "ayer").
  - reflexivity.
  - left.
  - reflexivity.
  - reflexivity.
Defined.

Lemma main_idempotente_witness :
  main parse_iso matplotlib_ej disco_ej
    (main parse_iso matplotlib_ej disco_ej []).2
  = (Ok (), (main parse_iso matplotlib_ej disco_ej []).2).
Proof.
  exact (main_idempotente parse_iso matplotlib_ej disco_ej [] _
           main_disco_ej_par).
Defined.

Lemma libros_disco_devolucion : libros_con_filas_y_fechas disco_devolucion.
Proof.
  intros p t Hp.
  assert (p = INPUT_DIR // "ventas_sucursal_centro.xlsx") as ->
    by (revert Hp; vm_compute; by intros ->%list_elem_of_singleton).
  intros [= <-]. split; [discriminate|].
  repeat constructor; eexists; reflexivity.
Qed.

Lemma main_grafico_fallido_witness :
  ∃ s',
    main parse_iso matplotlib_ej disco_devolucion []
      = (Err (ErrorBiblioteca "Wedge sizes 'x' must be non negative values"),
         s') ∧
    buscar (GRAFICOS_DIR // "ventas_sucursal.png") s'
      = Some (FicheroS (Png {| width := 3000; height := 1800 |})) ∧
    buscar output_file s' = None.
Proof.
  set (df0 := mkTabla COLUMNAS_REQUERIDAS [0; 1]%nat (filas tabla_devolucion)).
  destruct (main_grafico_fallido parse_iso matplotlib_ej disco_devolucion []
              df0 {| width := 3000; height := 1800 |}
              (ErrorBiblioteca "Wedge sizes 'x' must be non negative values"))
    as (s' & Hmain & _ & _ & Hp1 & _ & _ & Hout).
  - exact salida_utilizable_nil.
  - exact libros_disco_devolucion.
  - reflexivity.
  - reflexivity.
  - vm_compute. reflexivity.
  - exists s'. split; [exact Hmain|]. split; [exact Hp1 | exact Hout].
Defined.

Lemma tendencia_suma_el_total_witness :
  ∃ tendencia,
    (analizar_tendencia_temporal parse_iso df_ej).1 = Ok tendencia ∧
    suma (Some <$> tendencia.*2)
      = suma (Total_Venta <$> filter (λ v, is_Some (Fecha v)) df_ej).
Proof.
  assert (Forall (λ v, ∀ s, Fecha v = Some (FechaTexto s)
                            → is_Some (parse_iso s)) df_ej) as Hdf.
  { eapply Forall_impl; [exact df_ej_sin_texto|].
    intros v Hv s Hs. destruct (Hv s Hs). }
  eexists. split; [by rewrite (tendencia_Ok parse_iso df_ej Hdf)|].
  apply (tendencia_suma_el_total parse_iso df_ej _ df_ej_redondeado).
  by rewrite (tendencia_Ok parse_iso df_ej Hdf).
Defined.
